(** * ndcube: crop-input sanitisation, sequence-plot error bars, cube indexing

    A shallow embedding of
    - [ndcube/utils/misc.py]: [sanitize_corners], [sanitize_crop_inputs],
      [unique_sorted], [convert_quantities_to_units] and the wrapper of
      [sanitise_wcs];
    - [ndcube/mixins/sequence_plotting.py]: [_get_all_cube_units],
      [_determine_sequence_units], the y-data part of [_plot_1D_sequence]
      and [_plot_2D_sequence_as_1Dline], then these two methods whole,
      [_derive_1D_x_data], [_make_1D_sequence_plot], [_plot_2D_sequence] and
      [_plot_3D_sequence_as_2Dimage];
    - the cube indexing protocol, the sliced WCS and the coordinate query,
      which live outside the embedded files and are modelled from the
      specification.

    Python lists are mutable objects with identity: they live in a store
    and are passed around by reference. *)

From Stdlib Require Import QArith Lqa.
From stdpp Require Import gmap strings list fin_maps pretty.

Close Scope Q_scope.
Open Scope nat_scope.
Set Warnings "-register-all,-clear-no-such-hyp".

(** ** Python runtime: exceptions, results, the object store *)

Module Py.

Inductive exn :=
| ValueError (msg : string)
| TypeError (msg : string)
| IndexError (msg : string)
| AttributeError (msg : string)
| UnitConversionError (msg : string)
| ConfigurationError (msg : string).

Inductive result (A : Type) :=
| Ok (a : A)
| Raise (e : exn).
Arguments Ok {A} a.
Arguments Raise {A} e.

Definition rbind {A B} (r : result A) (k : A → result B) : result B :=
  match r with
  | Ok a => k a
  | Raise e => Raise e
  end.

(** References to list objects. *)
Abbreviation loc := positive.

(** The values that flow through the crop helpers: [None], an opaque
    coordinate object (a Quantity, a SkyCoord, a bare number, ...), an
    immutable tuple, or a reference to a mutable list. *)
Inductive pyval :=
| PNone
| PCoord (value : Q)
| PTuple (items : list pyval)
| PList (l : loc).

Definition is_None (v : pyval) : bool :=
  match v with
  | PNone => true
  | _ => false
  end.

(** The store maps every live list object to its current items. *)
Abbreviation store := (gmap loc (list pyval)).

(** Computations that read and write the store and may raise.  An
    exception leaves the store as it was at the raise. *)
Definition M (A : Type) : Type := store → result A * store.

Definition ret {A} (a : A) : M A := λ σ, (Ok a, σ).
Definition raise {A} (e : exn) : M A := λ σ, (Raise e, σ).
Definition bind {A B} (m : M A) (k : A → M B) : M B :=
  λ σ, match m σ with
       | (Ok a, σ') => k a σ'
       | (Raise e, σ') => (Raise e, σ')
       end.
Definition lift {A} (r : result A) : M A := λ σ, (r, σ).

Notation "'do' x <- m ; k" := (bind m (λ x, k))
  (at level 10, x pattern, m at level 100, k at level 200,
   format "'[v' 'do'  x  <-  m ; '/' k ']'").

(** [list(items)] and the list displays [[...]] build a new list object. *)
Definition alloc (items : list pyval) : M loc :=
  λ σ, let l := fresh (dom σ) in (Ok l, <[l := items]> σ).

(** The items of a live list; references held by a program are always
    live, the default is never reached on them. *)
Definition read (l : loc) : M (list pyval) :=
  λ σ, (Ok (σ !!! l), σ).

(** [lst += more]: extends the list object in place. *)
Definition extend (l : loc) (more : list pyval) : M unit :=
  λ σ, (Ok tt, <[l := σ !!! l ++ more]> σ).

Fixpoint mapM {A B} (f : A → M B) (xs : list A) : M (list B) :=
  match xs with
  | [] => ret []
  | x :: xs' => do y <- f x; do ys <- mapM f xs'; ret (y :: ys)
  end.

(** [repr] of a list of ints, as an f-string prints it: [[1, 2]]. *)
Fixpoint join (sep : string) (parts : list string) : string :=
  match parts with
  | [] => ""
  | [p] => p
  | p :: rest => p +:+ sep +:+ join sep rest
  end.

Definition repr_int_list (ns : list nat) : string :=
  "[" +:+ join ", " (pretty <$> ns) +:+ "]".

End Py.
Export Py.

(** ** The part of NumPy used by [sanitize_crop_inputs] *)

Module np.

(** One-dimensional arrays with the two dtypes that can arise from a list
    of Python booleans. *)
Inductive ndarray :=
| BoolArray (v : list bool)
| Float64Array (v : list Q).

(** [np.array(bs)] for a list of booleans: dtype [bool], except that the
    empty list has no element to infer a dtype from and becomes an empty
    [float64] array. *)
Definition array (bs : list bool) : ndarray :=
  match bs with
  | [] => Float64Array []
  | _ => BoolArray bs
  end.

(** [a & b]: defined on boolean (and integer) arrays only; shapes are
    broadcast, a length-one operand being stretched. *)
Definition bitwise_and (a b : ndarray) : result ndarray :=
  match a, b with
  | BoolArray x, BoolArray y =>
      if decide (length x = length y) then Ok (BoolArray (zip_with andb x y))
      else match x, y with
           | [x0], _ => Ok (BoolArray (andb x0 <$> y))
           | _, [y0] => Ok (BoolArray ((λ c, andb c y0) <$> x))
           | _, _ => Raise (ValueError "operands could not be broadcast together")
           end
  | _, _ => Raise (TypeError "ufunc 'bitwise_and' not supported for the input types")
  end.

(** [a.all()] *)
Definition all (a : ndarray) : bool :=
  match a with
  | BoolArray v => forallb id v
  | Float64Array v => forallb (λ q, negb (Qeq_bool q 0)) v
  end.

End np.

(** ** WCS objects seen by the crop helpers *)

Module wcsobj.

(** [astropy.wcs.WCS(naxis=n).wcs]: the FITS parameters of an [n]-axis
    transform. *)
Record Wcsprm := mkWcsprm {
  naxis : nat;
  crpix : list Z;
  cdelt : list Z;
  crval : list Z;
  ctype : list string
}.

(** [WCS(naxis=n)]: reference pixel 0, unit increments, reference value 0,
    blank axis types. *)
Definition WCS (n : nat) : Wcsprm :=
  {| naxis := n; crpix := replicate n 0%Z; cdelt := replicate n 1%Z;
     crval := replicate n 0%Z; ctype := replicate n "" |}.

(** The message of an array-valued setter that is given the wrong number
    of entries: it names the property and the number the WCS wants. *)
Definition wrong_shape (property : string) (n : nat) : exn :=
  ValueError ("'" +:+ property +:+ "' array is the wrong shape, must be " +:+ pretty n).

(** The array-valued setters accept a value of exactly [naxis] entries and
    raise [ValueError] on any other length. *)
Definition set_crpix (v : list Z) (w : Wcsprm) : result Wcsprm :=
  if decide (length v = naxis w)
  then Ok {| naxis := naxis w; crpix := v; cdelt := cdelt w; crval := crval w; ctype := ctype w |}
  else Raise (wrong_shape "crpix" (naxis w)).

Definition set_cdelt (v : list Z) (w : Wcsprm) : result Wcsprm :=
  if decide (length v = naxis w)
  then Ok {| naxis := naxis w; crpix := crpix w; cdelt := v; crval := crval w; ctype := ctype w |}
  else Raise (wrong_shape "cdelt" (naxis w)).

Definition set_crval (v : list Z) (w : Wcsprm) : result Wcsprm :=
  if decide (length v = naxis w)
  then Ok {| naxis := naxis w; crpix := crpix w; cdelt := cdelt w; crval := v; ctype := ctype w |}
  else Raise (wrong_shape "crval" (naxis w)).

Definition set_ctype (v : list string) (w : Wcsprm) : result Wcsprm :=
  if decide (length v = naxis w)
  then Ok {| naxis := naxis w; crpix := crpix w; cdelt := cdelt w; crval := crval w; ctype := v |}
  else Raise (ValueError ("len(ctype) must be " +:+ pretty (naxis w))).

(** A FITS transform is the identity on pixel axes when every axis has
    reference pixel 1 (FITS counts from 1), unit increment and reference
    value 0. *)
Definition is_identity (w : Wcsprm) : Prop :=
  crpix w = replicate (naxis w) 1%Z ∧
  cdelt w = replicate (naxis w) 1%Z ∧
  crval w = replicate (naxis w) 0%Z.

(** Modelled from the spec: the objects that can be passed as, or
    returned for, the [wcs] argument; the classes [ExtraCoords] and
    [CompoundLowLevelWCS] are used by [sanitize_crop_inputs] and declared
    outside the embedded files.
    - an astropy WCS;
    - a [CompoundLowLevelWCS]: the concatenation of its component
      transforms, with the array axes they are mapped to;
    - an [ExtraCoords] table, of which the helpers read [.mapping],
      [.wcs] and [._ndcube.dimensions]. *)
Inductive wcs_object :=
| AstropyWCS (w : Wcsprm)
| CompoundLowLevelWCS (wcss : list wcs_object) (mapping : list nat)
| ExtraCoords (mapping : list nat) (wcs : wcs_object) (ndcube_dimensions : list nat).

(** [max(mapping) + 1]: the number of array axes that a mapping reaches;
    0 for no entry. *)
Definition n_inputs (mapping : list nat) : nat :=
  foldr (λ a n, S a `max` n) 0 mapping.

(** Modelled from the spec: [.pixel_n_dim] of these objects, whose
    classes are declared outside the embedded files.  A compound maps the
    pixel axes of its components to array axes through [mapping]; its
    pixel dimensionality is the number of array axes that the mapping
    reaches, so that components mapped to one and the same array axis
    count once. *)
Fixpoint pixel_n_dim (w : wcs_object) : nat :=
  match w with
  | AstropyWCS p => naxis p
  | CompoundLowLevelWCS _ mapping => n_inputs mapping
  | ExtraCoords _ w' _ => pixel_n_dim w'
  end.

Definition mapping_length_message : string :=
  "The length of the mapping must equal the total number of pixel dimensions in all input WCSes.".

(** Modelled from the spec: the constructor of [CompoundLowLevelWCS],
    declared outside the embedded files, called with some components and
    [mapping=mapping].  The mapping must have one entry per pixel axis of
    the components, taken together; the call raises [ValueError]
    otherwise. *)
Definition CompoundLowLevelWCS_init (wcss : list wcs_object) (mapping : list nat)
  : result wcs_object :=
  if decide (foldr (λ w n, pixel_n_dim w + n) 0 wcss = length mapping)
  then Ok (CompoundLowLevelWCS wcss mapping)
  else Raise (ValueError mapping_length_message).

End wcsobj.
Export wcsobj.

(** ** ndcube/utils/misc.py *)

Module misc.

Definition corner_length_message : string :=
  "All corner inputs must have same number of coordinate objects. Lengths of corner objects: ".

(** [list(corner) if isinstance(corner, (tuple, list)) else [corner]]:
    always a new list object. *)
Definition corner_as_list (corner : pyval) : M loc :=
  match corner with
  | PTuple items => alloc items
  | PList l => do items <- read l; alloc items
  | _ => alloc [corner]
  end.

Definition len (l : loc) : M nat :=
  do items <- read l; ret (length items).

Definition sanitize_corners (corners : list pyval) : M (list loc) :=
  do corners <- mapM corner_as_list corners;
  do n_coords <- mapM len corners;
  if decide (size (list_to_set n_coords : gset nat) ≠ 1)
  then raise (ValueError (corner_length_message +:+ repr_int_list n_coords))
  else ret corners.

(** [set(range(n)) - set(mapping)] *)
Definition dummy_axes_of (mapping : list nat) (ndim : nat) : gset nat :=
  list_to_set (seq 0 ndim) ∖ list_to_set mapping.

(** The dummy transform for the uncovered axes: [WCS(naxis=...)] followed
    by the four assignments, each of which may raise. *)
Definition make_dummy_wcs (n_dummy : nat) : result Wcsprm :=
  let dummy_wcs := WCS n_dummy in
  rbind (set_crpix [1; 1]%Z dummy_wcs) (λ dummy_wcs,
  rbind (set_cdelt [1; 1]%Z dummy_wcs) (λ dummy_wcs,
  rbind (set_crval [0; 0]%Z dummy_wcs) (λ dummy_wcs,
  set_ctype ["PIXEL"; "PIXEL"] dummy_wcs))).

Section set_iteration.

(** [list(s)] for a set of axes: the elements of the set, each once, in
    the order in which the interpreter iterates over the set.  That
    order is not part of the language; it is a parameter here. *)
Variable list_of_set : gset nat → list nat.

Definition sanitize_crop_inputs (lower_corner upper_corner : pyval) (wcs : wcs_object)
  : M (bool * loc * loc * wcs_object) :=
  do corners <- sanitize_corners [lower_corner; upper_corner];
  match corners with
  | [lower_corner; upper_corner] =>
      do lower <- read lower_corner;
      do upper <- read upper_corner;
      let lower_nones := np.array (is_None <$> lower) in
      let upper_nones := np.array (is_None <$> upper) in
      do both <- lift (np.bitwise_and lower_nones upper_nones);
      if np.all both then ret (true, lower_corner, upper_corner, wcs)
      else
        match wcs with
        | ExtraCoords mapping ec_wcs dimensions =>
            let dummy_axes := dummy_axes_of mapping (length dimensions) in
            do wcs <- (if decide (dummy_axes ≠ ∅)
                       then do dummy_wcs <- lift (make_dummy_wcs (size dummy_axes));
                            let mapping := mapping ++ list_of_set dummy_axes in
                            lift (CompoundLowLevelWCS_init [ec_wcs; AstropyWCS dummy_wcs] mapping)
                       else ret ec_wcs);
            do _ <- extend lower_corner (replicate (size dummy_axes) PNone);
            do _ <- extend upper_corner (replicate (size dummy_axes) PNone);
            ret (false, lower_corner, upper_corner, wcs)
        | _ => ret (false, lower_corner, upper_corner, wcs)
        end
  | _ => raise (ValueError "not enough values to unpack")
  end.

End set_iteration.

End misc.

(** ** ndcube/mixins/sequence_plotting.py *)

Module sequence_plotting.

Definition NON_COMPATIBLE_UNIT_MESSAGE : string :=
  "All sequence sub-cubes' unit attribute are not compatible with unit_y_axis set by user.".

(** [astropy.units]: a unit is a scale on the base unit of its physical
    type; conversion is defined between units of one physical type. *)
Record Unit := mkUnit {
  physical_type : string;
  scale : Q
}.

Definition convert (from to : Unit) (value : Q) : result Q :=
  if decide (physical_type from = physical_type to)
  then Ok (value * scale from / scale to)%Q
  else Raise (UnitConversionError "units are not convertible").

(** The attributes of a sub-cube that the y-data code reads.  [D] is the
    type of [cube.data]: a number for the scalar cubes of a 1D sequence, a
    one-dimensional array for the cubes of a 2D sequence.  An uncertainty
    object is represented by the array it holds
    ([cube.uncertainty.array]). *)
Record NDCube (D : Type) := mkNDCube {
  data : D;
  uncertainty : option D;
  unit : option Unit
}.
Arguments mkNDCube {D}.
Arguments data {D}.
Arguments uncertainty {D}.
Arguments unit {D}.

(** The loop of [_get_all_cube_units], from index [i] on, with the units
    collected so far. *)
Fixpoint get_units_from {D} (i : nat) (sequence_data : list (NDCube D))
    (sequence_units : list Unit) : result (list Unit) :=
  match sequence_data with
  | [] => Ok sequence_units
  | cube :: rest =>
      match unit cube with
      | None => Raise (ValueError (pretty i +:+ "th cube in sequence does not have unit set."))
      | Some u => get_units_from (S i) rest (sequence_units ++ [u])
      end
  end.

Definition _get_all_cube_units {D} (sequence_data : list (NDCube D)) : result (list Unit) :=
  get_units_from 0 sequence_data [].

(** [except ValueError]: unit-conversion errors are instances of
    [ValueError]; anything else propagates. *)
Definition is_ValueError (e : exn) : bool :=
  match e with
  | ValueError _ | UnitConversionError _ => true
  | _ => false
  end.

Definition _determine_sequence_units {D} (cubesequence_data : list (NDCube D))
    (unit : option Unit) : result (option (list Unit) * option Unit) :=
  rbind (match _get_all_cube_units cubesequence_data with
         | Ok us => Ok (Some us)
         | Raise e => if is_ValueError e then Ok None else Raise e
         end) (λ sequence_units,
  match sequence_units with
  | Some us =>
      match unit with
      | None =>
          match us with
          | u0 :: _ => Ok (sequence_units, Some u0)
          | [] => Raise (IndexError "index 0 is out of bounds for axis 0 with size 0")
          end
      | Some _ => Ok (sequence_units, unit)
      end
  | None => Ok (sequence_units, None)
  end).

(** [axes_units[k]] *)
Definition getitem_unit (axes_units : list (option Unit)) (k : nat) : result (option Unit) :=
  match axes_units !! k with
  | Some u => Ok u
  | None => Raise (IndexError "list index out of range")
  end.

Definition unit_y_axis_of (axes_units : option (list (option Unit))) : result (option Unit) :=
  match axes_units with
  | None => Ok None
  | Some axes_units =>
      rbind (getitem_unit axes_units 0) (λ _, getitem_unit axes_units 1)
  end.

Fixpoint mapR {A B} (f : A → result B) (xs : list A) : result (list B) :=
  match xs with
  | [] => Ok []
  | x :: xs' => rbind (f x) (λ y, rbind (mapR f xs') (λ ys, Ok (y :: ys)))
  end.

(** [cube.uncertainty.array] *)
Definition uncertainty_array {D} (cube : NDCube D) : result D :=
  match uncertainty cube with
  | Some a => Ok a
  | None => Raise (AttributeError "'NoneType' object has no attribute 'array'")
  end.

(** [u.Quantity([x_i * unit_i ...], unit=target).value]; without a target
    the unit of the first item is used. *)
Definition quantity_values (items : list (Q * Unit)) (target : option Unit) : result (list Q) :=
  match target, items with
  | Some t, _ => mapR (λ '(x, u), convert u t x) items
  | None, (_, u0) :: _ => mapR (λ '(x, u), convert u u0 x) items
  | None, [] => Ok []
  end.

(** [(a * unit).to(target).value] on a one-dimensional array *)
Definition to_values (a : list Q) (u : Unit) (target : option Unit) : result (list Q) :=
  match target with
  | Some t => mapR (convert u t) a
  | None => Raise (TypeError "None is not a valid Unit")
  end.

(** [np.concatenate] of one-dimensional arrays *)
Definition concatenate (arrays : list (list Q)) : result (list Q) :=
  match arrays with
  | [] => Raise (ValueError "need at least one array to concatenate")
  | _ => Ok (concat arrays)
  end.

(** The error bars handed to the plot: a float array, or the object array
    of per-cube uncertainties (some of which may be [None]). *)
Inductive yerror_array :=
| FloatErrors (v : list Q)
| ObjectErrors (v : list (option Q)).

(** [all(yerror == None)]: the comparison is element-wise; no element of
    a float array is [None]. *)
Definition all_eq_None (yerror : yerror_array) : bool :=
  match yerror with
  | FloatErrors v => forallb (λ _, false) v
  | ObjectErrors v => forallb (λ e, bool_decide (e = None)) v
  end.

(** [_plot_1D_sequence] up to the call of [_make_1D_sequence_plot]:
    [(ydata, yerror, unit_y_axis)]. *)
Definition _plot_1D_sequence (cubesequence_data : list (NDCube Q))
    (axes_units : option (list (option Unit)))
  : result (list Q * option yerror_array * option Unit) :=
  rbind (unit_y_axis_of axes_units) (λ unit_y_axis,
  rbind (_determine_sequence_units cubesequence_data unit_y_axis) (λ '(sequence_units, unit_y_axis),
  rbind (match sequence_units with
         | Some sequence_units =>
             rbind (quantity_values (zip (data <$> cubesequence_data) sequence_units) unit_y_axis) (λ ydata,
             rbind (mapR uncertainty_array cubesequence_data) (λ arrays,
             rbind (quantity_values (zip arrays sequence_units) unit_y_axis) (λ yerror,
             Ok (ydata, FloatErrors yerror))))
         | None =>
             match unit_y_axis with
             | Some _ => Raise (ValueError NON_COMPATIBLE_UNIT_MESSAGE)
             | None =>
                 let ydata := data <$> cubesequence_data in
                 let yerror := uncertainty <$> cubesequence_data in
                 Ok (ydata, ObjectErrors yerror)
             end
         end) (λ '(ydata, yerror),
  let yerror := if all_eq_None yerror then None else Some yerror in
  Ok (ydata, yerror, unit_y_axis)))).

(** An element of a NumPy object array as the 2D line plot builds it:
    [None], an uncertainty object (with the array it holds), or an
    array. *)
Inductive object_item :=
| ItemNone
| ItemUncertainty (array : list Q)
| ItemArray (a : list Q).

Definition object_of (e : option (list Q)) : object_item :=
  match e with
  | None => ItemNone
  | Some a => ItemUncertainty a
  end.

Definition is_ItemNone (it : object_item) : bool :=
  match it with
  | ItemNone => true
  | _ => false
  end.

(** [int(cubesequence[i].dimensions.value)] for a one-dimensional cube *)
Definition dimensions (cube : NDCube (list Q)) : nat := length (data cube).

(** [np.zeros(n)] *)
Definition zeros (n : nat) : list Q := replicate n 0%Q.

(** The zero-filling loop of [_plot_2D_sequence_as_1Dline]: entry [i] of
    the object array, when it is [None], is replaced by
    [np.zeros(int(cubesequence[i].dimensions.value))]. *)
Definition fill_missing (cubesequence : list (NDCube (list Q)))
    (yerror : list object_item) : list object_item :=
  zip_with (λ cube e, match e with
                      | ItemNone => ItemArray (zeros (dimensions cube))
                      | _ => e
                      end) cubesequence yerror.

Section object_arrays.

(** Whether NumPy takes an uncertainty object for the array it holds when
    it expects an array; the uncertainty classes are declared outside
    the embedded files. *)
Variable uncertainty_array_like : bool.

(** What [np.concatenate] makes of one element of an object array: an
    array is taken as it is; anything that is not array-like becomes a
    zero-dimensional array, which cannot be concatenated. *)
Definition asarray (it : object_item) : result (list Q) :=
  match it with
  | ItemArray a => Ok a
  | ItemUncertainty a =>
      if uncertainty_array_like then Ok a
      else Raise (ValueError "zero-dimensional arrays cannot be concatenated")
  | ItemNone => Raise (ValueError "zero-dimensional arrays cannot be concatenated")
  end.

(** [np.concatenate] of an object array *)
Definition concatenate_objects (items : list object_item) : result (list Q) :=
  match items with
  | [] => Raise (ValueError "need at least one array to concatenate")
  | _ => rbind (mapR asarray items) (λ arrays, Ok (concat arrays))
  end.

(** [_plot_2D_sequence_as_1Dline] up to the definition of the x-axis
    data: [(ydata, yerror, unit_y_axis)]. *)
Definition _plot_2D_sequence_as_1Dline (cubesequence_data : list (NDCube (list Q)))
    (axes_units : option (list (option Unit)))
  : result (list Q * option (list Q) * option Unit) :=
  rbind (unit_y_axis_of axes_units) (λ unit_y_axis,
  rbind (_determine_sequence_units cubesequence_data unit_y_axis) (λ '(sequence_units, unit_y_axis),
  match sequence_units with
  | Some sequence_units =>
      rbind (mapR (λ '(cube, u), to_values (data cube) u unit_y_axis)
                  (zip cubesequence_data sequence_units)) (λ ys,
      rbind (concatenate ys) (λ ydata,
      rbind (mapR (λ '(cube, u), rbind (uncertainty_array cube) (λ a, to_values a u unit_y_axis))
                  (zip cubesequence_data sequence_units)) (λ es,
      rbind (concatenate es) (λ yerror,
      Ok (ydata, Some yerror, unit_y_axis)))))
  | None =>
      match unit_y_axis with
      | Some _ => Raise (ValueError NON_COMPATIBLE_UNIT_MESSAGE)
      | None =>
          rbind (concatenate (data <$> cubesequence_data)) (λ ydata,
          let yerror := (λ cube, object_of (uncertainty cube)) <$> cubesequence_data in
          if forallb is_ItemNone yerror
          then Ok (ydata, None, unit_y_axis)
          else
            let yerror :=
              if existsb is_ItemNone yerror
              then fill_missing cubesequence_data yerror
              else yerror in
            rbind (concatenate_objects yerror) (λ yerror,
            Ok (ydata, Some yerror, unit_y_axis)))
      end
  end)).

End object_arrays.

End sequence_plotting.

(** ** NumPy basic indexing, on shapes *)

Module indexing.

(** One entry of an index expression: an integer, a slice [start:stop]
    (either bound may be omitted; the step is 1) or [...]. *)
Inductive index_item :=
| Int (i : Z)
| Slice (start stop : option Z)
| Ellipsis.

Definition is_Int (it : index_item) : bool :=
  match it with
  | Int _ => true
  | _ => false
  end.

Definition is_Ellipsis (it : index_item) : bool :=
  match it with
  | Ellipsis => true
  | _ => false
  end.

Definition full_slice : index_item := Slice None None.

(** [slice(start, stop).indices(n)]: negative bounds count from the end,
    and both bounds are clipped to [0, n]. *)
Definition clip (n : nat) (dflt : Z) (bound : option Z) : Z :=
  match bound with
  | None => dflt
  | Some b => if (b <? 0)%Z then Z.max 0 (b + Z.of_nat n) else Z.min b (Z.of_nat n)
  end.

Definition slice_length (n : nat) (start stop : option Z) : nat :=
  Z.to_nat (clip n (Z.of_nat n) stop - clip n 0 start).

(** An integer [i] addresses an axis of [n] elements when [-n <= i < n]. *)
Definition in_bounds (n : nat) (i : Z) : bool :=
  ((- Z.of_nat n <=? i) && (i <? Z.of_nat n))%Z.

(** The shape of [a[index]] for an array [a] of the given shape: entries
    consume axes from the left, an integer removes its axis, a slice
    resizes it, the ellipsis stands for as many whole axes as the later
    entries leave over, and axes not reached are kept whole. *)
Fixpoint getitem_shape (shape : list nat) (index : list index_item) : result (list nat) :=
  match index with
  | [] => Ok shape
  | Int i :: rest =>
      match shape with
      | [] => Raise (IndexError "too many indices for array")
      | n :: shape' =>
          if in_bounds n i then getitem_shape shape' rest
          else Raise (IndexError "index is out of bounds for axis")
      end
  | Slice start stop :: rest =>
      match shape with
      | [] => Raise (IndexError "too many indices for array")
      | n :: shape' =>
          rbind (getitem_shape shape' rest) (λ s, Ok (slice_length n start stop :: s))
      end
  | Ellipsis :: rest =>
      if existsb is_Ellipsis rest
      then Raise (IndexError "an index can only have a single ellipsis ('...')")
      else if decide (length rest ≤ length shape)
      then
        let k := length shape - length rest in
        rbind (getitem_shape (drop k shape) rest) (λ s, Ok (take k shape ++ s))
      else Raise (IndexError "too many indices for array")
  end.

End indexing.
Export indexing.

(** ** The cube, its indexing protocol and the sliced WCS *)

Module cube.

(** Modelled from the spec: the WCS capability interface (spec section 6)
    as far as slicing is concerned.  Pixel axes run in the reverse order
    of array axes; the correlation matrix has one row per world axis and
    one column per pixel axis. *)
Record BaseLowLevelWCS := mkWCS {
  pixel_shape : list nat;
  world_axis_physical_types : list string;
  axis_correlation_matrix : list (list bool)
}.

Definition array_shape (w : BaseLowLevelWCS) : list nat := rev (pixel_shape w).
Definition pixel_n_dim (w : BaseLowLevelWCS) : nat := length (pixel_shape w).
Definition world_n_dim (w : BaseLowLevelWCS) : nat := length (world_axis_physical_types w).

(** Modelled from the spec: the Cube entity (spec section 3); arrays are
    represented by their shapes. *)
Record NDCube := mkNDCube {
  data : list nat;
  uncertainty : option (list nat);
  mask : option (list nat);
  wcs : BaseLowLevelWCS
}.

(** Modelled from the spec: normalisation of an index expression to an
    explicit per-axis tuple (spec section 4.4): the ellipsis and the
    missing trailing axes become full slices; an expression with more
    entries than array dimensions is rejected. *)
Definition normalize (ndim : nat) (index : list index_item) : result (list index_item) :=
  let explicit := filter (λ it, is_Ellipsis it = false) index in
  if decide (1 < length index - length explicit)
  then Raise (IndexError "an index can only have a single ellipsis ('...')")
  else if decide (ndim < length explicit)
  then Raise (ConfigurationError "more index entries than array dimensions")
  else
    let fill := replicate (ndim - length explicit) full_slice in
    Ok (flat_map (λ it, if is_Ellipsis it then fill else [it]) index
        ++ (if decide (length index = length explicit) then fill else [])).

(** Modelled from the spec: element selection by an explicit per-axis
    tuple (spec section 4.4), on shapes: an integer removes its axis, a
    slice resizes it. *)
Fixpoint select (shape : list nat) (item : list index_item) : result (list nat) :=
  match shape, item with
  | [], [] => Ok []
  | n :: shape', Int i :: item' =>
      if in_bounds n i then select shape' item'
      else Raise (IndexError "index is out of bounds for axis")
  | n :: shape', Slice start stop :: item' =>
      rbind (select shape' item') (λ s, Ok (slice_length n start stop :: s))
  | _, _ => Raise (ConfigurationError "malformed index expression")
  end.

(** The same on an optional array (uncertainty, mask). *)
Definition select_opt (a : option (list nat)) (item : list index_item)
  : result (option (list nat)) :=
  match a with
  | None => Ok None
  | Some shape => rbind (select shape item) (λ s, Ok (Some s))
  end.

(** Keep the entries of [xs] whose flag is set. *)
Fixpoint keep {A} (flags : list bool) (xs : list A) : list A :=
  match flags, xs with
  | true :: flags', x :: xs' => x :: keep flags' xs'
  | false :: flags', _ :: xs' => keep flags' xs'
  | _, _ => []
  end.

(** The pixel axes that survive an explicit index, in pixel order: those
    whose entry is not an integer. *)
Definition pixel_keep (item : list index_item) : list bool :=
  (λ it, negb (is_Int it)) <$> rev item.

(** The world axes that survive: those correlated with a surviving pixel
    axis. *)
Definition world_keep (w : BaseLowLevelWCS) (pk : list bool) : list bool :=
  (λ row, existsb id (zip_with andb row pk)) <$> axis_correlation_matrix w.

(** The length of an axis under its index entry. *)
Definition sliced_length (n : nat) (it : index_item) : nat :=
  match it with
  | Slice start stop => slice_length n start stop
  | _ => n
  end.

(** Modelled from the spec: the WCS slicer (spec section 4.2), which is
    not among the embedded files.  A pixel axis survives unless its entry
    is an integer; a world axis survives when it is correlated with a
    surviving pixel axis; the shape, the physical types and the
    correlation matrix are restricted to the surviving axes. *)
Definition slice_wcs (w : BaseLowLevelWCS) (item : list index_item) : BaseLowLevelWCS :=
  let pk := pixel_keep item in
  let wk := world_keep w pk in
  {| pixel_shape := keep pk (zip_with sliced_length (pixel_shape w) (rev item));
     world_axis_physical_types := keep wk (world_axis_physical_types w);
     axis_correlation_matrix := keep pk <$> keep wk (axis_correlation_matrix w) |}.

(** Modelled from the spec: [NDCube.__getitem__] (spec section 4.4); the
    method is not among the embedded files.  The same normalised index is
    applied to data, uncertainty, mask and WCS.  Slices have step 1, the
    step that the WCS slicer accepts whatever the axis correlation (spec
    section 4.2). *)
Definition getitem (c : NDCube) (index : list index_item) : result NDCube :=
  rbind (normalize (length (data c)) index) (λ item,
  rbind (select (data c) item) (λ data',
  rbind (select_opt (uncertainty c) item) (λ uncertainty',
  rbind (select_opt (mask c) item) (λ mask',
  Ok {| data := data'; uncertainty := uncertainty'; mask := mask';
        wcs := slice_wcs (wcs c) item |})))).

(** Well-formed cubes: the WCS describes the data array, and the arrays
    that accompany the data have its shape. *)
Definition well_formed (c : NDCube) : Prop :=
  array_shape (wcs c) = data c ∧
  (∀ s, uncertainty c = Some s → s = data c) ∧
  (∀ s, mask c = Some s → s = data c).

(** The physical types of the synthetic cubes of the tests. *)
Definition em_wl : string := "em.wl".
Definition hpc_lat : string := "custom:pos.helioprojective.lat".
Definition hpc_lon : string := "custom:pos.helioprojective.lon".

(** Modelled from the spec: a WCS of three pixel and three world axes in
    which one pixel axis ([pw], wavelength) is correlated with one world
    axis ([ww], wavelength) only, and the two other pixel axes jointly
    with the two other (celestial) world axes (spec section 3, dependent
    axis group): entry (r, p) holds exactly when r and p are both the
    wavelength axis or both celestial. *)
Definition celestial_spectral_matrix (pw ww : nat) : list (list bool) :=
  (λ r, (λ p, Bool.eqb (r =? ww) (p =? pw)) <$> [0; 1; 2]) <$> [0; 1; 2].

Definition celestial_spectral_wcs (pw ww : nat) (shape : list nat) (types : list string)
  : BaseLowLevelWCS :=
  {| pixel_shape := rev shape; world_axis_physical_types := types;
     axis_correlation_matrix := celestial_spectral_matrix pw ww |}.

(** Modelled from the spec: the synthetic three-dimensional cube of the
    tests ([ndcube_3d_ln_lt_l], built outside the embedded files): array
    axes (lon, lat, wavelength); pixel and world axes run wavelength,
    latitude, longitude; the wavelength pixel axis is correlated with
    wavelength only, the two celestial pixel axes with both celestial
    world axes. *)
Definition wcs_3d_l_lt_ln (n_lon n_lat n_wl : nat) : BaseLowLevelWCS :=
  {| pixel_shape := [n_wl; n_lat; n_lon];
     world_axis_physical_types := [em_wl; hpc_lat; hpc_lon];
     axis_correlation_matrix := [[true; false; false];
                                 [false; true; true];
                                 [false; true; true]] |}.

(** Modelled from the spec: the cube on that WCS, with uncertainty and
    mask of the shape of the data. *)
Definition ndcube_3d_ln_lt_l (n_lon n_lat n_wl : nat) : NDCube :=
  {| data := [n_lon; n_lat; n_wl]; uncertainty := Some [n_lon; n_lat; n_wl];
     mask := Some [n_lon; n_lat; n_wl]; wcs := wcs_3d_l_lt_ln n_lon n_lat n_wl |}.

Section crop.

(** Steps (c) and (d) of the Crop Engine: the corners are resolved to an
    index expression through the inverse WCS transform.  It is opaque
    here: a function of the cube, of the items of the sanitised corner
    lists and of the WCS. *)
Variable resolve :
  NDCube → list pyval → list pyval → wcs_object → result (list index_item).

(** The order in which a set of axes is listed, as in [misc]. *)
Variable list_of_set : gset nat → list nat.

(** Modelled from the spec: the Crop Engine (spec section 4.6), whose
    methods [crop] and [crop_by_values] are not among the embedded files.
    The corners are sanitised first; the no-op flag short-circuits to the
    input cube; otherwise the corners are resolved to an index expression
    and the cube is indexed with it.  The two methods differ in
    [resolve]. *)
Definition crop (self : NDCube) (lower_corner upper_corner : pyval) (wcs : wcs_object)
  : M NDCube :=
  do (no_op, lower_corner, upper_corner, wcs) <-
     misc.sanitize_crop_inputs list_of_set lower_corner upper_corner wcs;
  if (no_op : bool) then ret self
  else
    do lower <- read lower_corner;
    do upper <- read upper_corner;
    do item <- lift (resolve self lower upper wcs);
    lift (getitem self item).
End crop.

End cube.

(** ** The coordinate query on a linear axis *)

Module coords.

(** Modelled from the spec: a world axis that depends on one pixel axis
    through a linear FITS transform (the wavelength axis of the synthetic
    cube), over exact rationals.  FITS counts pixels from 1. *)
Record LinearAxis := mkLinearAxis {
  crval : Q;
  cdelt : Q;
  crpix : Q;
  n_pixels : nat
}.

(** Modelled from the spec: the pixel-to-world transform of such an
    axis, on 0-based pixel coordinates. *)
Definition pixel_to_world_values (ax : LinearAxis) (p : Q) : Q :=
  (crval ax + cdelt ax * (p + 1 - crpix ax))%Q.

(** Modelled from the spec: the index grids of the coordinate query
    (spec section 4.5): pixel centres [0, 1, ..., n-1] and pixel edges
    [-0.5, 0.5, ..., n-0.5]. *)
Definition pixel_centers (n : nat) : list Q :=
  (λ i, inject_Z (Z.of_nat i)) <$> seq 0 n.

Definition pixel_edges (n : nat) : list Q :=
  (λ i, inject_Z (Z.of_nat i) - (1 # 2))%Q <$> seq 0 (S n).

(** Modelled from the spec: [axis_world_coords_values] for such an axis
    (spec section 4.5): the world values on the grid of pixel centres,
    or of pixel edges when [edges=True]. *)
Definition axis_world_coords_values (ax : LinearAxis) (edges : bool) : list Q :=
  pixel_to_world_values ax <$>
    (if edges then pixel_edges (n_pixels ax) else pixel_centers (n_pixels ax)).

(** 1.02e-9 m and so on, as exact rationals (in metres). *)
Definition nano_hundredths (k : Z) : Q := Qmake k 100000000000.

End coords.

(** ** The other helpers of [ndcube/utils/misc.py] *)

Module misc_helpers.
Import sequence_plotting.

Section unique_sorted.
Context `{Countable A}.

(** The comprehension of [unique_sorted], from some state of its lookup
    set on: an element is kept when it is not in the set, and is then
    added to it ([lookup.add(ele)] returns [None], so the second test
    always holds). *)
Fixpoint unique_sorted_from (lookup : gset A) (iterable : list A) : list A :=
  match iterable with
  | [] => []
  | ele :: rest =>
      if decide (ele ∉ lookup)
      then ele :: unique_sorted_from ({[ele]} ∪ lookup) rest
      else unique_sorted_from lookup rest
  end.

Definition unique_sorted (iterable : list A) : list A :=
  unique_sorted_from ∅ iterable.

End unique_sorted.

(** An entry of [coords]: a Quantity (a value with its unit), or any
    other object ([None], a bare number, ...). *)
Inductive coordinate :=
| Quantity (value : Q) (unit : Unit)
| NotQuantity (v : pyval).

(** [coord.to(unit) if isinstance(coord, u.Quantity) else coord], over
    [zip(coords, units)]. *)
Definition convert_quantities_to_units (coords : list coordinate) (units : list Unit)
  : result (list coordinate) :=
  mapR (λ '(coord, unit),
          match coord with
          | Quantity value from =>
              rbind (convert from unit value) (λ value, Ok (Quantity value unit))
          | NotQuantity _ => Ok coord
          end) (zip coords units).

(** What the wrapper of [sanitise_wcs] reads of [self]: [self.wcs] and
    [self.data.ndim]. *)
Record NDCubeLike := mkNDCubeLike {
  self_wcs : wcs_object;
  data_ndim : nat
}.

Definition is_ExtraCoords (wcs : wcs_object) : bool :=
  match wcs with
  | ExtraCoords _ _ _ => true
  | _ => false
  end.

Definition pixel_dimensions_message : string :=
  "The supplied WCS must have the same number of pixel dimensions as the NDCube object. If you specified `cube.extra_coords.wcs` please just pass `cube.extra_coords`.".

Definition high_level_message : string :=
  "wcs argument must be a High Level WCS or an ExtraCoords object.".

Section sanitise_wcs.

(** [isinstance(wcs, BaseHighLevelWCS)]: the class is astropy's. *)
Variable is_high_level : wcs_object → bool.

(** [sanitise_wcs(func)], called on [self] with the [wcs] argument that
    was passed ([None] when it was left out); the other arguments of
    [func] are bound in it. *)
Definition sanitise_wcs {R} (func : NDCubeLike → wcs_object → M R)
    (self : NDCubeLike) (wcs : option wcs_object) : M R :=
  let wcs := match wcs with
             | None => self_wcs self
             | Some wcs => wcs
             end in
  do _ <- (if negb (is_ExtraCoords wcs)
           then if negb (bool_decide (pixel_n_dim wcs = data_ndim self))
                then raise (ValueError pixel_dimensions_message)
                else ret tt
           else ret tt);
  do _ <- (if negb (is_high_level wcs || is_ExtraCoords wcs)
           then raise (TypeError high_level_message)
           else ret tt);
  func self wcs.

End sanitise_wcs.

End misc_helpers.

(** ** The line plots of [ndcube/mixins/sequence_plotting.py], whole *)

Module line_plots.
Import sequence_plotting.

(** What a call ends in when it does not return: one of the exceptions
    above, or a name that is looked up without being bound, or a key
    that a dict does not have. *)
Inductive raised :=
| Exn (e : exn)
| NameError (name : string)
| UnboundLocalError (name : string)
| KeyError (key : string).

Inductive outcome (A : Type) :=
| Returns (a : A)
| Raises (r : raised).
Arguments Returns {A} a.
Arguments Raises {A} r.

Definition obind {A B} (o : outcome A) (k : A → outcome B) : outcome B :=
  match o with
  | Returns a => k a
  | Raises r => Raises r
  end.

Definition of_result {A} (r : result A) : outcome A :=
  match r with
  | Ok a => Returns a
  | Raise e => Raises (Exn e)
  end.

(** x-axis data: a bare array, or a Quantity. *)
Inductive xarray :=
| Array (values : list Q)
| QuantityArray (values : list Q) (unit : Unit).

(** The [x_axis_coordinates] argument: [None], the name of an extra
    coordinate, or the coordinates themselves. *)
Inductive x_axis_argument :=
| XNone
| XStr (name : string)
| XData (x : xarray).

(** The attributes of a [cubesequence] that the line plots read.  The
    class is declared outside the embedded files; its properties are
    taken as plain attributes:
    - [.data], the cubes;
    - [int(.dimensions[0].value)];
    - [.world_axis_physical_types] and
      [.cube_like_world_axis_physical_types];
    - [.sequence_axis_extra_coords] and [.common_axis_extra_coords], a
      dict or [None];
    - the units [cunit] of the axes of the first cube that are not
      missing;
    - [cube.axis_world_coords()] of every cube. *)
Record NDCubeSequence (D : Type) := mkNDCubeSequence {
  sequence_data : list (NDCube D);
  dimensions_0 : nat;
  world_axis_physical_types : list string;
  cube_like_world_axis_physical_types : list string;
  sequence_axis_extra_coords : option (gmap string xarray);
  common_axis_extra_coords : option (gmap string xarray);
  cunit_of_first_cube : list Unit;
  axis_world_coords : list (list Q * Unit)
}.
Arguments sequence_data {D}.
Arguments dimensions_0 {D}.
Arguments world_axis_physical_types {D}.
Arguments cube_like_world_axis_physical_types {D}.
Arguments sequence_axis_extra_coords {D}.
Arguments common_axis_extra_coords {D}.
Arguments cunit_of_first_cube {D}.
Arguments axis_world_coords {D}.

(** [types[0]] *)
Definition first_of {A} (xs : list A) : outcome A :=
  match xs with
  | x :: _ => Returns x
  | [] => Raises (Exn (IndexError "index out of range"))
  end.

(** [coords[name]] on a dict, or on [None]. *)
Definition getitem_extra_coord (coords : option (gmap string xarray)) (name : string)
  : outcome xarray :=
  match coords with
  | None => Raises (Exn (TypeError "'NoneType' object is not subscriptable"))
  | Some d =>
      match d !! name with
      | Some x => Returns x
      | None => Raises (KeyError name)
      end
  end.

(** [np.arange(n)] *)
Definition arange (n : nat) : list Q := (λ i, inject_Z (Z.of_nat i)) <$> seq 0 n.

(** [axes_units[0]], or [None] without [axes_units]. *)
Definition unit_x_axis_of (axes_units : option (list (option Unit))) : result (option Unit) :=
  match axes_units with
  | None => Ok None
  | Some axes_units => getitem_unit axes_units 0
  end.

(** The lines that follow the choice of [xdata] in both line plots: a
    Quantity gives the x unit, or is converted to the one asked for;
    for anything else the x unit is [None]. *)
Definition settle_x_unit (xdata : xarray) (unit_x_axis : option Unit)
  : outcome (xarray * option Unit) :=
  match xdata with
  | QuantityArray values unit =>
      match unit_x_axis with
      | None => Returns (xdata, Some unit)
      | Some t =>
          obind (of_result (mapR (convert unit t) values)) (λ values,
          Returns (QuantityArray values t, unit_x_axis))
      end
  | Array _ => Returns (xdata, None)
  end.

(** The x-axis data of the 2D line plot taken from the cubes: every
    cube's [axis_world_coords()] in the x unit, concatenated. *)
Definition x_from_world_coords {D} (cubesequence : NDCubeSequence D)
    (unit_x_axis : option Unit) : outcome (xarray * option Unit) :=
  obind (match unit_x_axis with
         | None => first_of (cunit_of_first_cube cubesequence)
         | Some t => Returns t
         end) (λ t,
  obind (of_result (mapR (λ '(values, unit), mapR (convert unit t) values)
                         (axis_world_coords cubesequence))) (λ arrays,
  obind (of_result (concatenate arrays)) (λ values,
  Returns (QuantityArray values t, Some t)))).

(** A keyword argument: [None], a string, a pair of limits, or anything
    else. *)
Inductive kwarg :=
| KNone
| KStr (s : string)
| KLimits (lo hi : Q)
| KOther (repr : string).

(** The calls made on the axes, as the plot they describe. *)
Record errorbar_plot (E : Type) := mkPlot {
  plot_xdata : xarray;
  plot_ydata : list Q;
  plot_yerror : E;
  errorbar_kwargs : gmap string kwarg;
  xlabel : kwarg;
  ylabel : kwarg;
  title : kwarg;
  xlim : kwarg;
  ylim : kwarg
}.
Arguments mkPlot {E}.
Arguments plot_xdata {E}.
Arguments plot_ydata {E}.
Arguments plot_yerror {E}.
Arguments errorbar_kwargs {E}.
Arguments xlabel {E}.
Arguments ylabel {E}.
Arguments title {E}.
Arguments xlim {E}.
Arguments ylim {E}.

(** [kwargs.pop(key, default)]: the value and the dict without the key. *)
Definition pop (key : string) (default : kwarg) (kwargs : gmap string kwarg)
  : kwarg * gmap string kwarg :=
  (from_option id default (kwargs !! key), delete key kwargs).

Section plots.

(** [str(unit)], astropy's. *)
Variable to_string : Unit → string.

(** As in [sequence_plotting]. *)
Variable uncertainty_array_like : bool.

(** ["{0} [{1}]".format(name, unit)] *)
Definition format_unit (unit : option Unit) : string :=
  match unit with
  | None => "None"
  | Some u => to_string u
  end.

Definition axis_label (name : string) (unit : option Unit) : string :=
  name +:+ " [" +:+ format_unit unit +:+ "]".

(** [_make_1D_sequence_plot]; what it prints is left out. *)
Definition _make_1D_sequence_plot {E} (xdata : xarray) (ydata : list Q) (yerror : E)
    (unit_y_axis : option Unit) (default_xlabel : string) (kwargs : gmap string kwarg)
  : errorbar_plot E :=
  let '(xlabel, kwargs) := pop "xlabel" (KStr default_xlabel) kwargs in
  let '(ylabel, kwargs) := pop "ylabel" (KStr (axis_label "Data" unit_y_axis)) kwargs in
  let '(title, kwargs) := pop "title" (KStr "") kwargs in
  let '(xlim, kwargs) := pop "xlim" KNone kwargs in
  let '(ylim, kwargs) := pop "ylim" KNone kwargs in
  mkPlot xdata ydata yerror kwargs xlabel ylabel title xlim ylim.

(** [NDCubeSequencePlotMixin._plot_1D_sequence], whole: the y-data as in
    [sequence_plotting._plot_1D_sequence], then the x-axis data, then the
    plot. *)
Definition _plot_1D_sequence (cubesequence : NDCubeSequence Q)
    (x_axis_coordinates : x_axis_argument) (axes_units : option (list (option Unit)))
    (kwargs : gmap string kwarg) : outcome (errorbar_plot (option yerror_array)) :=
  obind (of_result (unit_x_axis_of axes_units)) (λ unit_x_axis,
  obind (of_result (sequence_plotting._plot_1D_sequence (sequence_data cubesequence) axes_units))
        (λ '(ydata, yerror, unit_y_axis),
  obind (match x_axis_coordinates with
         | XNone =>
             let xdata := Array (arange (dimensions_0 cubesequence)) in
             obind (first_of (world_axis_physical_types cubesequence)) (λ xname,
             Returns (xdata, xname))
         | XStr name =>
             obind (getitem_extra_coord (sequence_axis_extra_coords cubesequence) name) (λ xdata,
             Raises (NameError "x_axis_coordinate"))
         | XData x =>
             let xdata := x in
             obind (first_of (world_axis_physical_types cubesequence)) (λ xname,
             Returns (xdata, xname))
         end) (λ '(xdata, xname),
  obind (settle_x_unit xdata unit_x_axis) (λ '(xdata, unit_x_axis),
  let default_xlabel := axis_label xname unit_x_axis in
  Returns (_make_1D_sequence_plot xdata ydata yerror unit_y_axis default_xlabel kwargs))))).

(** [NDCubeSequencePlotMixin._plot_2D_sequence_as_1Dline], whole.  The
    last branch of the choice of [xdata] binds no [xname]. *)
Definition _plot_2D_sequence_as_1Dline (cubesequence : NDCubeSequence (list Q))
    (x_axis_coordinates : x_axis_argument) (axes_units : option (list (option Unit)))
    (kwargs : gmap string kwarg) : outcome (errorbar_plot (option (list Q))) :=
  obind (of_result (unit_x_axis_of axes_units)) (λ unit_x_axis,
  obind (of_result (sequence_plotting._plot_2D_sequence_as_1Dline uncertainty_array_like
                      (sequence_data cubesequence) axes_units))
        (λ '(ydata, yerror, unit_y_axis),
  obind (match x_axis_coordinates with
         | XNone =>
             obind (x_from_world_coords cubesequence unit_x_axis) (λ '(xdata, unit_x_axis),
             obind (first_of (cube_like_world_axis_physical_types cubesequence)) (λ xname,
             Returns (xdata, unit_x_axis, Some xname)))
         | XStr name =>
             obind (getitem_extra_coord (common_axis_extra_coords cubesequence) name) (λ xdata,
             Returns (xdata, unit_x_axis, Some name))
         | XData x => Returns (x, unit_x_axis, None)
         end) (λ '(xdata, unit_x_axis, xname),
  obind (settle_x_unit xdata unit_x_axis) (λ '(xdata, unit_x_axis),
  match xname with
  | None => Raises (UnboundLocalError "xname")
  | Some xname =>
      let default_xlabel := axis_label xname unit_x_axis in
      Returns (_make_1D_sequence_plot xdata ydata yerror unit_y_axis default_xlabel kwargs)
  end)))).

(** [_derive_1D_x_data]: [(xdata, unit_x_axis, default_xlabel)].  The
    branch for a string reads a name that nothing binds; for any other
    value that is not [None] no branch runs, and the [return] finds
    [xdata] unbound. *)
Definition _derive_1D_x_data {D} (cubesequence : NDCubeSequence D)
    (x_axis_values : x_axis_argument) (unit_x_axis : option Unit) (sequence_is_1d : bool)
  : outcome (xarray * option Unit * string) :=
  match x_axis_values with
  | XNone =>
      if sequence_is_1d
      then
        let unit_x_axis : option Unit := None in
        let xdata := Array (arange (dimensions_0 cubesequence)) in
        obind (first_of (world_axis_physical_types cubesequence)) (λ name,
        Returns (xdata, unit_x_axis, axis_label name unit_x_axis))
      else
        obind (x_from_world_coords cubesequence unit_x_axis) (λ '(xdata, unit_x_axis),
        obind (first_of (cube_like_world_axis_physical_types cubesequence)) (λ name,
        Returns (xdata, unit_x_axis, axis_label name unit_x_axis)))
  | XStr _ => Raises (NameError "x_axis_extra_coord")
  | XData _ => Raises (UnboundLocalError "xdata")
  end.

End plots.

End line_plots.

(** ** The image plot of a sequence of 1D cubes *)

Module image_plots.
Import sequence_plotting line_plots.

(** The position in a list or an array of [n] entries that the index
    [k] stands for: [k] counts from the end when negative. *)
Definition position (n : nat) (k : Z) : option nat :=
  let i := if decide (k < 0)%Z then (Z.of_nat n + k)%Z else k in
  if decide (0 ≤ i < Z.of_nat n)%Z then Some (Z.to_nat i) else None.

(** [l[k]] *)
Definition item {A} (l : list A) (k : Z) : result A :=
  match position (length l) k with
  | Some i =>
      match l !! i with
      | Some x => Ok x
      | None => Raise (IndexError "index out of range")
      end
  | None => Raise (IndexError "index out of range")
  end.

Definition getitem {A} (l : list A) (k : Z) : outcome A := of_result (item l k).

(** [l[k] = v] *)
Definition setitem {A} (l : list A) (k : nat) (v : A) : outcome (list A) :=
  if decide (k < length l) then Returns (<[k := v]> l)
  else Raises (Exn (IndexError "list assignment index out of range")).

(** The first and the last entry of what stands in [axes_coordinates]
    when the image is set up: [x[0], x[-1]].  [None] cannot be
    indexed. *)
Inductive scalar :=
| Number (q : Q)
| QuantityScalar (q : Q) (unit : Unit)
| Character (c : Ascii.ascii).

Definition characters (s : string) : list Ascii.ascii := String.list_ascii_of_string s.

Definition ends_of (entry : x_axis_argument) : outcome (scalar * scalar) :=
  match entry with
  | XNone => Raises (Exn (TypeError "'NoneType' object is not subscriptable"))
  | XStr s =>
      obind (getitem (characters s) 0) (λ a,
      obind (getitem (characters s) (-1)) (λ b, Returns (Character a, Character b)))
  | XData (Array values) =>
      obind (getitem values 0) (λ a,
      obind (getitem values (-1)) (λ b, Returns (Number a, Number b)))
  | XData (QuantityArray values unit) =>
      obind (getitem values 0) (λ a,
      obind (getitem values (-1)) (λ b,
      Returns (QuantityScalar a unit, QuantityScalar b unit)))
  end.

(** [np.stack] of one-dimensional arrays: a two-dimensional array, one
    row per input. *)
Definition stack (arrays : list (list Q)) : result (list (list Q)) :=
  match arrays with
  | [] => Raise (ValueError "need at least one array to stack")
  | a :: _ =>
      if decide (Forall (λ b, length b = length a) arrays) then Ok arrays
      else Raise (ValueError "all input arrays must have the same shape")
  end.

(** [data.transpose()] of a two-dimensional array given by its rows. *)
Definition transpose (rows : list (list Q)) : list (list Q) :=
  match rows with
  | [] => []
  | row :: _ => (λ j, (λ r, nth j r 0%Q) <$> rows) <$> seq 0 (length row)
  end.

(** What the image is made of: the data, the coordinates handed to
    [set_data], the extent, the limits and the labels of the axes, and
    the keyword arguments of [NonUniformImage]. *)
Record image_plot := mkImage {
  image_data : list (list Q);
  image_x : x_axis_argument;
  image_y : x_axis_argument;
  extent : scalar * scalar * scalar * scalar;
  image_kwargs : gmap string kwarg;
  image_xlim : scalar * scalar;
  image_ylim : scalar * scalar;
  image_xlabel : string;
  image_ylabel : string
}.

(** The two list arguments, which the method writes to: [axes_coordinates]
    and [axes_units]. *)
Record axes_lists := mkAxes {
  axes_coordinates : list x_axis_argument;
  axes_units : list (option Unit)
}.

(** Computations over the two lists that may raise; the lists stay as
    they are at the raise. *)
Definition P (A : Type) : Type := axes_lists → outcome A * axes_lists.

Definition pret {A} (a : A) : P A := λ s, (Returns a, s).
Definition pbind {A B} (m : P A) (k : A → P B) : P B :=
  λ s, match m s with
       | (Returns a, s') => k a s'
       | (Raises r, s') => (Raises r, s')
       end.
Definition plift {A} (o : outcome A) : P A := λ s, (o, s).

Notation "'let*' x := m 'in' k" := (pbind m (λ x, k))
  (at level 10, x pattern, m at level 100, k at level 200,
   format "'[v' 'let*'  x  :=  m  'in' '/' k ']'").

Definition get_coordinate (k : Z) : P x_axis_argument :=
  λ s, (getitem (axes_coordinates s) k, s).
Definition get_unit (k : Z) : P (option Unit) :=
  λ s, (getitem (axes_units s) k, s).
Definition set_coordinate (k : nat) (v : x_axis_argument) : P Datatypes.unit :=
  λ s, match setitem (axes_coordinates s) k v with
       | Returns l => (Returns tt, mkAxes l (axes_units s))
       | Raises r => (Raises r, s)
       end.
Definition set_unit (k : nat) (v : option Unit) : P Datatypes.unit :=
  λ s, match setitem (axes_units s) k v with
       | Returns l => (Returns tt, mkAxes (axes_coordinates s) l)
       | Raises r => (Raises r, s)
       end.

(** The attributes of the sequence that only the image plot reads:
    [cubesequence[0].extra_coords], with the ["value"] of every entry
    (a dict, or [None]). *)
Record ImageSequence := mkImageSequence {
  sequence : NDCubeSequence (list Q);
  extra_coords_of_first_cube : option (gmap string xarray)
}.

(** The coordinates of an axis as an array, or [None]. *)
Definition entry_of (coords : option (list Q)) : x_axis_argument :=
  match coords with
  | Some values => XData (Array values)
  | None => XNone
  end.

Section plots.

Variable to_string : Unit → string.

(** The image data of [_plot_2D_sequence]: the rows are the cubes. *)
Definition image_data_of (cubesequence_data : list (NDCube (list Q)))
    (data_unit : option Unit) : result (list (list Q)) :=
  rbind (_determine_sequence_units cubesequence_data data_unit) (λ '(sequence_units, data_unit),
  match sequence_units with
  | Some sequence_units =>
      rbind (mapR (λ '(cube, u), to_values (data cube) u data_unit)
                  (zip cubesequence_data sequence_units)) stack
  | None => stack (data <$> cubesequence_data)
  end).

(** The lines that follow the choice of the cube-axis coordinates when
    they are given: a Quantity is stripped of its unit, or converted;
    anything else becomes [None]. *)
Definition cube_axis_values (cube_axis_coords : xarray) (cube_axis_unit : option Unit)
  : outcome (option (list Q) * option Unit) :=
  match cube_axis_coords with
  | QuantityArray values unit =>
      match cube_axis_unit with
      | None => Returns (Some values, Some unit)
      | Some t =>
          obind (of_result (mapR (convert unit t) values)) (λ values,
          Returns (Some values, cube_axis_unit))
      end
  | Array _ => Returns (None, cube_axis_unit)
  end.

(** The coordinates, the unit and the name of the cube axis. *)
Definition cube_axis (cubesequence : ImageSequence) (coordinate : x_axis_argument)
    (cube_axis_unit : option Unit) : outcome (option (list Q) * option Unit * string) :=
  match coordinate with
  | XNone =>
      obind (match cube_axis_unit with
             | None => first_of (cunit_of_first_cube (sequence cubesequence))
             | Some t => Returns t
             end) (λ t,
      obind (first_of (axis_world_coords (sequence cubesequence))) (λ '(values, unit),
      obind (of_result (mapR (convert unit t) values)) (λ cube_axis_coords,
      obind (getitem (world_axis_physical_types (sequence cubesequence)) 1) (λ cube_axis_name,
      Returns (Some cube_axis_coords, Some t, cube_axis_name)))))
  | XStr name =>
      obind (getitem_extra_coord (extra_coords_of_first_cube cubesequence) name)
            (λ cube_axis_coords,
      obind (cube_axis_values cube_axis_coords cube_axis_unit) (λ '(coords, unit),
      Returns (coords, unit, name)))
  | XData x =>
      obind (getitem (world_axis_physical_types (sequence cubesequence)) 1) (λ cube_axis_name,
      obind (cube_axis_values x cube_axis_unit) (λ '(coords, unit),
      Returns (coords, unit, cube_axis_name)))
  end.

(** The coordinates, the unit and the name of the sequence axis. *)
Definition sequence_axis (cubesequence : ImageSequence) (coordinate : x_axis_argument)
    (sequence_axis_unit : option Unit) : outcome (list Q * option Unit * string) :=
  obind (match coordinate with
         | XNone =>
             let sequence_axis_coords :=
               Array (arange (length (sequence_data (sequence cubesequence)))) in
             obind (getitem (world_axis_physical_types (sequence cubesequence)) 0)
                   (λ sequence_axis_name, Returns (sequence_axis_coords, sequence_axis_name))
         | XStr name =>
             obind (getitem_extra_coord (sequence_axis_extra_coords (sequence cubesequence)) name)
                   (λ sequence_axis_coords, Returns (sequence_axis_coords, name))
         | XData x =>
             obind (getitem (world_axis_physical_types (sequence cubesequence)) 0)
                   (λ sequence_axis_name, Returns (x, sequence_axis_name))
         end) (λ '(sequence_axis_coords, sequence_axis_name),
  match sequence_axis_coords with
  | QuantityArray values unit =>
      match sequence_axis_unit with
      | None => Returns (values, Some unit, sequence_axis_name)
      | Some t =>
          obind (of_result (mapR (convert unit t) values)) (λ values,
          Returns (values, sequence_axis_unit, sequence_axis_name))
      end
  | Array values => Returns (values, None, sequence_axis_name)
  end).

(** [NDCubeSequencePlotMixin._plot_2D_sequence] on the two lists: the
    image, and the lists as the call leaves them. *)
Definition plot_2D_sequence_on (cubesequence : ImageSequence) (plot_axes : option (list Z))
    (data_unit : option Unit) (kwargs : gmap string kwarg) : P image_plot :=
  let plot_axes := default [-1; -2]%Z plot_axes in
  let* data := plift (of_result (image_data_of (sequence_data (sequence cubesequence)) data_unit)) in
  let* plot_axes_0 := plift (getitem plot_axes 0) in
  let* plot_axes_1 := plift (getitem plot_axes 1) in
  let data := if decide (plot_axes_0 < plot_axes_1)%Z then transpose data else data in
  let cube_axis_index := 1 in
  let sequence_axis_index := 0 in
  let* cube_axis_unit := get_unit 1 in
  let* coordinate := get_coordinate 1 in
  let* (cube_axis_coords, cube_axis_unit, cube_axis_name) :=
    plift (cube_axis cubesequence coordinate cube_axis_unit) in
  let default_cube_axis_label := axis_label to_string cube_axis_name cube_axis_unit in
  let* _ := set_coordinate cube_axis_index (entry_of cube_axis_coords) in
  let* _ := set_unit cube_axis_index cube_axis_unit in
  let* sequence_axis_unit := get_unit 0 in
  let* coordinate := get_coordinate 0 in
  let* (sequence_axis_coords, sequence_axis_unit, sequence_axis_name) :=
    plift (sequence_axis cubesequence coordinate sequence_axis_unit) in
  let default_sequence_axis_label :=
    axis_label to_string sequence_axis_name sequence_axis_unit in
  let* _ := set_coordinate sequence_axis_index (XData (Array sequence_axis_coords)) in
  let* _ := set_unit sequence_axis_index sequence_axis_unit in
  let axes_labels := [default_sequence_axis_label; default_cube_axis_label] in
  let* x := get_coordinate plot_axes_0 in
  let* x_ends := plift (ends_of x) in
  let* y := get_coordinate plot_axes_1 in
  let* y_ends := plift (ends_of y) in
  let* xlabel := plift (getitem axes_labels plot_axes_0) in
  let* ylabel := plift (getitem axes_labels plot_axes_1) in
  pret (mkImage data x y (x_ends.1, x_ends.2, y_ends.1, y_ends.2) kwargs
          x_ends y_ends xlabel ylabel).

(** [_plot_2D_sequence]: a list argument that is [None] stands for a new
    list [[None, None]]. *)
Definition _plot_2D_sequence (cubesequence : ImageSequence) (plot_axes : option (list Z))
    (axes_coordinates : option (list x_axis_argument))
    (axes_units : option (list (option Unit))) (data_unit : option Unit)
    (kwargs : gmap string kwarg) : outcome image_plot * axes_lists :=
  plot_2D_sequence_on cubesequence plot_axes data_unit kwargs
    (mkAxes (default [XNone; XNone] axes_coordinates) (default [None; None] axes_units)).

End plots.

End image_plots.

(** ** The image plot of a sequence of 2D cubes with a common axis *)

Module common_axis_plots.
Import sequence_plotting line_plots image_plots.

(** [l[k] = v] with an index that may count from the end. *)
Definition setitem_at {A} (l : list A) (k : Z) (v : A) : outcome (list A) :=
  match position (length l) k with
  | Some i => Returns (<[i := v]> l)
  | None => Raises (Exn (IndexError "list assignment index out of range"))
  end.

(** [l.pop(k)]: what is left of the list. *)
Definition pop_at {A} (l : list A) (k : Z) : outcome (list A) :=
  match position (length l) k with
  | Some i => Returns (delete i l)
  | None => Raises (Exn (IndexError "pop index out of range"))
  end.

Definition set_coordinate_at (k : Z) (v : x_axis_argument) : P Datatypes.unit :=
  λ s, match setitem_at (axes_coordinates s) k v with
       | Returns l => (Returns tt, mkAxes l (axes_units s))
       | Raises r => (Raises r, s)
       end.
Definition set_unit_at (k : Z) (v : option Unit) : P Datatypes.unit :=
  λ s, match setitem_at (axes_units s) k v with
       | Returns l => (Returns tt, mkAxes (axes_coordinates s) l)
       | Raises r => (Raises r, s)
       end.

(** The index of the cube axis that is not the common axis:
    [[0, 1]] without entry [common_axis_index], then its first entry. *)
Definition cube_axis_index_of (common_axis_index : Z) : outcome Z :=
  obind (pop_at [0; 1]%Z common_axis_index) (λ cube_axis_index,
  getitem cube_axis_index 0).

(** Two-dimensional arrays, by rows. *)
Abbreviation array2 := (list (list Q)).

Definition n_columns (a : array2) : nat :=
  match a with
  | [] => 0
  | row :: _ => length row
  end.

Definition shapes_differ : exn :=
  ValueError "all the input array dimensions except for the concatenation axis must match exactly".

(** [np.concatenate(arrays, axis=axis)] of two-dimensional arrays. *)
Definition concatenate_along (arrays : list array2) (axis : Z) : result array2 :=
  match arrays with
  | [] => Raise (ValueError "need at least one array to concatenate")
  | a :: _ =>
      if decide (axis = 0 ∨ axis = -2)%Z
      then if decide (Forall (λ b, n_columns b = n_columns a) arrays)
           then Ok (concat arrays)
           else Raise shapes_differ
      else if decide (axis = 1 ∨ axis = -1)%Z
      then if decide (Forall (λ b, length b = length a) arrays)
           then Ok (foldr (zip_with app) (replicate (length a) []) arrays)
           else Raise shapes_differ
      else Raise (ValueError "axis is out of bounds for array of dimension 2")
  end.

(** The attributes of the sequence that only this plot reads:
    - [._common_axis];
    - [cubesequence[0].extra_coords], with the ["value"] of every entry;
    - [cube.axis_world_coords()] of every cube, one Quantity per axis;
    - the unit [cunit] of the WCS axis of the first cube that the common
      axis stands for ([utils.cube.data_axis_to_wcs_axis] is declared
      outside the embedded files), or what reading it raises. *)
Record CommonAxisSequence := mkCommonAxisSequence {
  cubes : NDCubeSequence array2;
  _common_axis : Z;
  extra_coords_of_cube_0 : option (gmap string xarray);
  axis_world_coords_of : list (list (list Q * Unit));
  cunit_of_common_axis : outcome Unit
}.

(** The image and its axes; an axis label is [None] when none was set. *)
Record common_axis_image := mkCommonAxisImage {
  ca_data : array2;
  ca_x : x_axis_argument;
  ca_y : x_axis_argument;
  ca_extent : scalar * scalar * scalar * scalar;
  ca_kwargs : gmap string kwarg;
  ca_xlim : scalar * scalar;
  ca_ylim : scalar * scalar;
  ca_xlabel : option string;
  ca_ylabel : option string
}.

Section plots.

Variable to_string : Unit → string.

(** The image data: the cubes' data joined along the common axis. *)
Definition image_data_of (cubesequence : CommonAxisSequence) (data_unit : option Unit)
  : result array2 :=
  rbind (_determine_sequence_units (sequence_data (cubes cubesequence)) data_unit)
        (λ '(sequence_units, data_unit),
  match sequence_units with
  | Some sequence_units =>
      rbind (mapR (λ '(cube, u), mapR (λ row, to_values row u data_unit) (data cube))
                  (zip (sequence_data (cubes cubesequence)) sequence_units)) (λ arrays,
      concatenate_along arrays (_common_axis cubesequence))
  | None =>
      concatenate_along (data <$> sequence_data (cubes cubesequence))
        (_common_axis cubesequence)
  end).

(** The coordinates, the unit and the name of the cube axis. *)
Definition cube_axis (cubesequence : CommonAxisSequence) (cube_axis_index : Z)
    (coordinate : x_axis_argument) (cube_axis_unit : option Unit)
  : outcome (option (list Q) * option Unit * string) :=
  match coordinate with
  | XNone =>
      obind (match cube_axis_unit with
             | None => first_of (cunit_of_first_cube (cubes cubesequence))
             | Some t => Returns t
             end) (λ t,
      obind (first_of (axis_world_coords_of cubesequence)) (λ coords_of_cube_0,
      obind (getitem coords_of_cube_0 cube_axis_index) (λ '(values, unit),
      obind (of_result (mapR (convert unit t) values)) (λ cube_axis_coords,
      obind (getitem (world_axis_physical_types (cubes cubesequence)) 1) (λ cube_axis_name,
      Returns (Some cube_axis_coords, Some t, cube_axis_name))))))
  | XStr name =>
      obind (getitem_extra_coord (extra_coords_of_cube_0 cubesequence) name)
            (λ cube_axis_coords,
      obind (cube_axis_values cube_axis_coords cube_axis_unit) (λ '(coords, unit),
      Returns (coords, unit, name)))
  | XData x =>
      obind (getitem (world_axis_physical_types (cubes cubesequence)) 1) (λ cube_axis_name,
      obind (cube_axis_values x cube_axis_unit) (λ '(coords, unit),
      Returns (coords, unit, cube_axis_name)))
  end.

(** The choice of the coordinates of the common axis, with the unit and
    the name it binds.  The branch for a named extra coordinate binds
    [sequence_axis_name], not [common_axis_name]. *)
Definition common_axis_choice (cubesequence : CommonAxisSequence)
    (coordinate : x_axis_argument) (common_axis_unit : option Unit)
  : outcome (xarray * option Unit * option string) :=
  let common_axis_index := _common_axis cubesequence in
  match coordinate with
  | XNone =>
      obind (match common_axis_unit with
             | None => cunit_of_common_axis cubesequence
             | Some t => Returns t
             end) (λ t,
      obind (of_result (mapR (λ coords_of_cube,
                                rbind (item coords_of_cube common_axis_index)
                                      (λ '(values, unit), mapR (convert unit t) values))
                             (axis_world_coords_of cubesequence))) (λ arrays,
      obind (of_result (concatenate arrays)) (λ values,
      obind (getitem (cube_like_world_axis_physical_types (cubes cubesequence))
               common_axis_index) (λ common_axis_name,
      Returns (QuantityArray values t, Some t, Some common_axis_name)))))
  | XStr name =>
      obind (getitem_extra_coord (common_axis_extra_coords (cubes cubesequence)) name)
            (λ common_axis_coords,
      Returns (common_axis_coords, common_axis_unit, None))
  | XData x =>
      obind (getitem (cube_like_world_axis_physical_types (cubes cubesequence))
               common_axis_index) (λ common_axis_name,
      Returns (x, common_axis_unit, Some common_axis_name))
  end.

(** The coordinates, the unit and the default label of the common
    axis. *)
Definition common_axis (cubesequence : CommonAxisSequence) (coordinate : x_axis_argument)
    (common_axis_unit : option Unit) : outcome (list Q * option Unit * string) :=
  obind (common_axis_choice cubesequence coordinate common_axis_unit)
        (λ '(common_axis_coords, common_axis_unit, common_axis_name),
  obind (match common_axis_coords with
         | QuantityArray values unit =>
             match common_axis_unit with
             | None => Returns (values, Some unit)
             | Some t =>
                 obind (of_result (mapR (convert unit t) values)) (λ values,
                 Returns (values, common_axis_unit))
             end
         | Array values => Returns (values, None)
         end) (λ '(common_axis_coords, common_axis_unit),
  match common_axis_name with
  | None => Raises (UnboundLocalError "common_axis_name")
  | Some common_axis_name =>
      Returns (common_axis_coords, common_axis_unit,
               axis_label to_string common_axis_name common_axis_unit)
  end)).

(** [NDCubeSequencePlotMixin._plot_3D_sequence_as_2Dimage] on the two
    lists: the image, and the lists as the call leaves them. *)
Definition plot_3D_sequence_as_2Dimage_on (cubesequence : CommonAxisSequence)
    (plot_axes : option (list Z)) (data_unit : option Unit) (kwargs : gmap string kwarg)
  : P common_axis_image :=
  let plot_axes := default [-1; -2]%Z plot_axes in
  let* data := plift (of_result (image_data_of cubesequence data_unit)) in
  let* plot_axes_0 := plift (getitem plot_axes 0) in
  let* plot_axes_1 := plift (getitem plot_axes 1) in
  let data := if decide (plot_axes_0 < plot_axes_1)%Z then transpose data else data in
  let common_axis_index := _common_axis cubesequence in
  let* cube_axis_index := plift (cube_axis_index_of common_axis_index) in
  let* cube_axis_unit := get_unit cube_axis_index in
  let* coordinate := get_coordinate cube_axis_index in
  let* (cube_axis_coords, cube_axis_unit, cube_axis_name) :=
    plift (cube_axis cubesequence cube_axis_index coordinate cube_axis_unit) in
  let default_cube_axis_label := axis_label to_string cube_axis_name cube_axis_unit in
  let* _ := set_coordinate_at cube_axis_index (entry_of cube_axis_coords) in
  let* _ := set_unit_at cube_axis_index cube_axis_unit in
  let* common_axis_unit := get_unit common_axis_index in
  let* coordinate := get_coordinate common_axis_index in
  let* (common_axis_coords, common_axis_unit, default_common_axis_label) :=
    plift (common_axis cubesequence coordinate common_axis_unit) in
  let* _ := set_coordinate_at common_axis_index (XData (Array common_axis_coords)) in
  let* _ := set_unit_at common_axis_index common_axis_unit in
  let* axes_labels := plift (setitem_at [None; None] cube_axis_index
                               (Some default_cube_axis_label)) in
  let* axes_labels := plift (setitem_at axes_labels common_axis_index
                               (Some default_common_axis_label)) in
  let* x := get_coordinate plot_axes_0 in
  let* x_ends := plift (ends_of x) in
  let* y := get_coordinate plot_axes_1 in
  let* y_ends := plift (ends_of y) in
  let* xlabel := plift (getitem axes_labels plot_axes_0) in
  let* ylabel := plift (getitem axes_labels plot_axes_1) in
  pret (mkCommonAxisImage data x y (x_ends.1, x_ends.2, y_ends.1, y_ends.2) kwargs
          x_ends y_ends xlabel ylabel).

(** [_plot_3D_sequence_as_2Dimage]: a list argument that is [None] stands
    for a new list [[None, None]]. *)
Definition _plot_3D_sequence_as_2Dimage (cubesequence : CommonAxisSequence)
    (plot_axes : option (list Z)) (axes_coordinates : option (list x_axis_argument))
    (axes_units : option (list (option Unit))) (data_unit : option Unit)
    (kwargs : gmap string kwarg) : outcome common_axis_image * axes_lists :=
  plot_3D_sequence_as_2Dimage_on cubesequence plot_axes data_unit kwargs
    (mkAxes (default [XNone; XNone] axes_coordinates) (default [None; None] axes_units)).

End plots.

End common_axis_plots.

(** * Properties *)

(** ** Vocabulary for the statements about the crop helpers *)

Module crop_vocabulary.
Import misc.

(** The coordinate objects a corner input stands for: the items of a
    tuple or list, or the input itself when it is neither. *)
Definition items_of (σ : store) (corner : pyval) : list pyval :=
  match corner with
  | PTuple items => items
  | PList l => σ !!! l
  | _ => [corner]
  end.

(** References passed by a caller are live. *)
Definition live (σ : store) (corner : pyval) : Prop :=
  match corner with
  | PList l => l ∈ dom σ
  | _ => True
  end.

Definition both_None (a b : pyval) : Prop := a = PNone ∧ b = PNone.

(** The two list objects that [sanitize_corners] creates for a lower and
    an upper corner, and the store once they exist. *)
Definition lower_loc (σ : store) : loc := fresh (dom σ).
Definition lower_store (σ : store) (lower : pyval) : store :=
  <[lower_loc σ := items_of σ lower]> σ.
Definition upper_loc (σ : store) (lower : pyval) : loc :=
  fresh (dom (lower_store σ lower)).
Definition corners_store (σ : store) (lower upper : pyval) : store :=
  <[upper_loc σ lower := items_of σ upper]> (lower_store σ lower).

(** The mapping of an [ExtraCoords] table on a cube of [ndim] array
    axes names array axes of that cube. *)
Definition on_cube (mapping : list nat) (ndim : nat) : Prop :=
  ∀ a, a ∈ mapping → a < ndim.

(** What is known of the order in which a set is listed: every set is
    listed with its elements, each once. *)
Definition enumerates (list_of_set : gset nat → list nat) : Prop :=
  ∀ s, list_of_set s ≡ₚ elements s.

(** One such order, for the examples. *)
Definition an_enumeration (s : gset nat) : list nat := elements s.

(** The no-op test of [sanitize_crop_inputs] on two corner lists. *)
Definition guard (lower upper : list pyval) : result bool :=
  rbind (np.bitwise_and (np.array (is_None <$> lower)) (np.array (is_None <$> upper)))
        (λ both, Ok (np.all both)).

(** [preserved σ σ']: every list object of [σ] is in [σ'] with the items
    it had. *)
Definition preserved (σ σ' : store) : Prop :=
  ∀ l items, σ !! l = Some items → σ' !! l = Some items.

End crop_vocabulary.

Module plotting_vocabulary.
Import sequence_plotting.

(** [raises_only r P]: every exception that [r] can be satisfies [P]. *)
Definition raises_only {A} (r : result A) (P : exn → Prop) : Prop :=
  ∀ e, r = Raise e → P e.

(** The one exception the unit guard of the plots would raise. *)
Definition not_the_unit_error (e : exn) : Prop :=
  e ≠ ValueError NON_COMPATIBLE_UNIT_MESSAGE.

(** The object array that the 2D line plot hands to [np.concatenate] for
    cubes without units: each cube contributes its uncertainty object,
    or zeros of its length. *)
Definition patched (cube : NDCube (list Q)) : object_item :=
  match uncertainty cube with
  | Some a => ItemUncertainty a
  | None => ItemArray (zeros (dimensions cube))
  end.

(** The same with each uncertainty object replaced by the array it
    holds. *)
Definition filled (cube : NDCube (list Q)) : list Q :=
  match uncertainty cube with
  | Some a => a
  | None => zeros (dimensions cube)
  end.

End plotting_vocabulary.

Module indexing_vocabulary.

(** The entries of an index expression other than the ellipsis. *)
Definition explicit (index : list index_item) : list index_item :=
  filter (λ it, is_Ellipsis it = false) index.

(** Per entry: does its axis survive (is the entry not an integer)? *)
Definition kept (item : list index_item) : list bool :=
  (λ it, negb (is_Int it)) <$> item.

End indexing_vocabulary.

Module coords_vocabulary.
Import coords.

(** The wavelength axis of the synthetic cube: 0.2 Angstrom per pixel
    from 10 Angstrom at FITS pixel 0, in metres. *)
Definition wavelength_axis : LinearAxis :=
  {| crval := (10 # 10000000000)%Q; cdelt := (2 # 100000000000)%Q; crpix := 0%Q;
     n_pixels := 4 |}.

End coords_vocabulary.

(** ** Vocabulary for the statements about these helpers *)

Module helpers_vocabulary.
Import misc misc_helpers crop_vocabulary.

(** The number of array axes of the cube that the coordinate source does
    not cover: those outside the mapping of an [ExtraCoords] table, none
    for any other source. *)
Definition uncovered_axes (wcs : wcs_object) : nat :=
  match wcs with
  | ExtraCoords mapping _ dimensions => size (dummy_axes_of mapping (length dimensions))
  | _ => 0
  end.

(** The table's own WCS has one pixel axis per entry of the table's
    mapping, which is what the constructor of the compound WCS asks of the
    table's WCS and the two-axis dummy WCS together.  Every source that is
    not an [ExtraCoords] table counts as well-formed. *)
Definition one_pixel_axis_per_entry (wcs : wcs_object) : Prop :=
  match wcs with
  | ExtraCoords mapping ec_wcs _ => pixel_n_dim ec_wcs = length mapping
  | _ => True
  end.

(** The numbers of coordinate objects of the corner inputs. *)
Definition lengths_of (σ : store) (corners : list pyval) : list nat :=
  (λ corner, length (items_of σ corner)) <$> corners.

(** The [wcs] that the wrapper of [sanitise_wcs] lets through: an
    [ExtraCoords] table, or a high-level WCS with one pixel axis per array
    axis of the cube. *)
Definition checked (is_high_level : wcs_object → bool) (self : NDCubeLike)
    (wcs : wcs_object) : Prop :=
  is_ExtraCoords wcs = true
  ∨ (pixel_n_dim wcs = data_ndim self ∧ is_high_level wcs = true).

(** The [wcs] argument after defaulting to [self.wcs]. *)
Definition effective_wcs (self : NDCubeLike) (wcs : option wcs_object) : wcs_object :=
  default (self_wcs self) wcs.

End helpers_vocabulary.

Module units_vocabulary.
Import sequence_plotting.

(** The cube has a unit, of physical type [p]. *)
Definition has_unit_of_type {D} (p : string) (cube : NDCube D) : Prop :=
  ∃ u, unit cube = Some u ∧ physical_type u = p.

(** The unit that [_determine_sequence_units] settles on when every cube
    has a unit: the one passed in, or that of the first cube. *)
Definition settled_unit (unit : option Unit) (sequence_units : list Unit) : option Unit :=
  match unit with
  | Some _ => unit
  | None => head sequence_units
  end.

Definition unit_not_set_message (i : nat) : string :=
  pretty i +:+ "th cube in sequence does not have unit set.".

Definition no_array_attribute : exn :=
  AttributeError "'NoneType' object has no attribute 'array'".

End units_vocabulary.

Module image_vocabulary.
Import sequence_plotting line_plots image_plots.

(** An entry of [plot_axes] that stands for the cube axis of a
    two-entry list. *)
Definition cube_axis_index (k : Z) : Prop := k = 1%Z ∨ k = (-1)%Z.

(** The two lists once both axes are derived: entry 1 holds the
    coordinates and the unit of the cube axis, entry 0 those of the
    sequence axis. *)
Definition lists_after (s : axes_lists) (cube_axis_coords : option (list Q))
    (cube_axis_unit : option Unit) (sequence_axis_coords : list Q)
    (sequence_axis_unit : option Unit) : axes_lists :=
  mkAxes (<[0 := XData (Array sequence_axis_coords)]>
            (<[1 := entry_of cube_axis_coords]> (axes_coordinates s)))
         (<[0 := sequence_axis_unit]> (<[1 := cube_axis_unit]> (axes_units s))).

(** The entry is an array without unit, or [None]. *)
Definition bare (entry : x_axis_argument) : Prop :=
  entry = XNone ∨ ∃ values, entry = XData (Array values).

End image_vocabulary.

Module common_axis_vocabulary.
Import sequence_plotting line_plots image_plots common_axis_plots.

Definition seconds : Unit := mkUnit "time" 1.
Definition nanometres : Unit := mkUnit "length" 1.
Definition counts : Unit := mkUnit "counts" 1.

(** A sequence of two cubes of two rows and two columns each, in counts,
    with array axis 0 as the common axis: a time in seconds, with a
    wavelength in nanometres along the other axis, and one extra
    coordinate along the common axis, the exposure of each row. *)
Definition two_cubes : CommonAxisSequence :=
  mkCommonAxisSequence
    (mkNDCubeSequence array2
       [mkNDCube [[1; 2]; [3; 4]]%Q None (Some counts);
        mkNDCube [[5; 6]; [7; 8]]%Q None (Some counts)]
       2 ["time"; "em.wl"] ["time"; "em.wl"] None
       (Some {[ "exposure" := Array [1; 1; 2; 2]%Q ]})
       [seconds; nanometres] [])
    0 None
    [[([0; 1]%Q, seconds); ([500; 501]%Q, nanometres)];
     [([2; 3]%Q, seconds); ([500; 501]%Q, nanometres)]]
    (Returns seconds).

End common_axis_vocabulary.

(** ** Facts about the crop helpers *)

Module misc_facts.
Import misc crop_vocabulary.

Lemma lower_loc_fresh σ : lower_loc σ ∉ dom σ.
Proof. exact (is_fresh (dom σ)). Qed.

Lemma upper_loc_fresh σ lower : upper_loc σ lower ∉ dom (lower_store σ lower).
Proof. exact (is_fresh (dom (lower_store σ lower))). Qed.

Lemma upper_loc_not_lower σ lower : upper_loc σ lower ≠ lower_loc σ.
Proof.
  intros E. pose proof (upper_loc_fresh σ lower) as H.
  apply H. rewrite E. unfold lower_store. rewrite dom_insert_L. set_solver.
Qed.

Lemma upper_loc_not_in σ lower : upper_loc σ lower ∉ dom σ.
Proof.
  intros E. apply (upper_loc_fresh σ lower).
  unfold lower_store. rewrite dom_insert_L. set_solver.
Qed.

Lemma items_of_lower_store σ lower upper :
  live σ upper → items_of (lower_store σ lower) upper = items_of σ upper.
Proof.
  destruct upper as [| | |l]; simpl; try done.
  intros Hl. unfold lower_store. rewrite lookup_total_insert_ne; [done|].
  intros E. apply (lower_loc_fresh σ). by rewrite E.
Qed.

Lemma corner_as_list_eq corner σ :
  corner_as_list corner σ
  = (Ok (fresh (dom σ)), <[fresh (dom σ) := items_of σ corner]> σ).
Proof. by destruct corner. Qed.

Lemma corners_store_lower σ lower upper :
  corners_store σ lower upper !! lower_loc σ = Some (items_of σ lower).
Proof.
  unfold corners_store. rewrite lookup_insert_ne by apply upper_loc_not_lower.
  unfold lower_store. by rewrite lookup_insert_eq.
Qed.

Lemma corners_store_upper σ lower upper :
  corners_store σ lower upper !! upper_loc σ lower = Some (items_of σ upper).
Proof. unfold corners_store. by rewrite lookup_insert_eq. Qed.

(** Two lengths form a one-element set exactly when they are equal. *)
Lemma size_pair_lengths (n1 n2 : nat) :
  size (list_to_set [n1; n2] : gset nat) = 1 ↔ n1 = n2.
Proof.
  split.
  - intros H. apply (size_singleton_inv _ _ _ H); set_solver.
  - intros <-. assert (list_to_set [n1; n1] =@{gset nat} {[n1]}) as -> by set_solver.
    apply size_singleton.
Qed.

(** [sanitize_corners] on a lower and an upper corner, in closed form. *)
Lemma sanitize_corners_two σ lower upper :
  live σ upper →
  sanitize_corners [lower; upper] σ
  = (if decide (length (items_of σ lower) = length (items_of σ upper))
     then Ok [lower_loc σ; upper_loc σ lower]
     else Raise (ValueError (corner_length_message +:+
            repr_int_list [length (items_of σ lower); length (items_of σ upper)])),
     corners_store σ lower upper).
Proof.
  intros Hl. unfold sanitize_corners, bind. simpl. unfold bind.
  rewrite corner_as_list_eq.
  fold (lower_loc σ). fold (lower_store σ lower).
  rewrite corner_as_list_eq.
  fold (upper_loc σ lower). rewrite items_of_lower_store by done.
  fold (corners_store σ lower upper). cbn.
  unfold lookup_total, map_lookup_total.
  rewrite corners_store_lower, corners_store_upper. cbn.
  destruct (decide (length (items_of σ lower) = length (items_of σ upper))) as [E|E].
  - rewrite decide_False; [reflexivity|].
    intros H. apply H. exact (proj2 (size_pair_lengths _ _) E).
  - rewrite decide_True; [reflexivity|].
    intros H. apply E. exact (proj1 (size_pair_lengths _ _) H).
Qed.


Lemma guard_nonempty lower upper :
  length lower = length upper → lower ≠ [] →
  guard lower upper = Ok (forallb id (zip_with andb (is_None <$> lower) (is_None <$> upper))).
Proof.
  intros Hlen Hne. destruct lower as [|a lower]; [done|].
  destruct upper as [|b upper]; [done|].
  unfold guard. cbn [fmap list_fmap np.array np.bitwise_and].
  rewrite decide_True; [reflexivity|].
  cbn. rewrite !length_fmap. simpl in Hlen. lia.
Qed.

Lemma all_both_None lower upper :
  length lower = length upper →
  forallb id (zip_with andb (is_None <$> lower) (is_None <$> upper)) = true
  ↔ Forall2 both_None lower upper.
Proof.
  revert upper. induction lower as [|a lower IH]; intros [|b upper] Hlen; try done.
  simpl in Hlen. injection Hlen as Hlen. specialize (IH upper Hlen).
  cbn. rewrite andb_true_iff, andb_true_iff, IH. split.
  - intros [[Ha Hb] HF]. constructor; [|done].
    split; [by destruct a|by destruct b].
  - intros HF. inversion HF as [|???? [-> ->] HF']; subst. done.
Qed.

(** [sanitize_crop_inputs] up to its no-op test, in closed form: the
    remainder runs in the store that holds the two new corner lists. *)
Lemma sanitize_crop_inputs_prefix list_of_set σ lower upper wcs :
  live σ upper →
  length (items_of σ lower) = length (items_of σ upper) →
  sanitize_crop_inputs list_of_set lower upper wcs σ
  = match guard (items_of σ lower) (items_of σ upper) with
    | Raise e => (Raise e, corners_store σ lower upper)
    | Ok true => (Ok (true, lower_loc σ, upper_loc σ lower, wcs), corners_store σ lower upper)
    | Ok false =>
        match wcs with
        | ExtraCoords mapping ec_wcs dimensions =>
            let dummy_axes := dummy_axes_of mapping (length dimensions) in
            (do wcs <- (if decide (dummy_axes ≠ ∅)
                        then do dummy_wcs <- lift (make_dummy_wcs (size dummy_axes));
                             lift (CompoundLowLevelWCS_init [ec_wcs; AstropyWCS dummy_wcs]
                                     (mapping ++ list_of_set dummy_axes))
                        else ret ec_wcs);
             do _ <- extend (lower_loc σ) (replicate (size dummy_axes) PNone);
             do _ <- extend (upper_loc σ lower) (replicate (size dummy_axes) PNone);
             ret (false, lower_loc σ, upper_loc σ lower, wcs)) (corners_store σ lower upper)
        | _ => (Ok (false, lower_loc σ, upper_loc σ lower, wcs), corners_store σ lower upper)
        end
    end.
Proof.
  intros Hl Hlen. unfold sanitize_crop_inputs. unfold bind at 1.
  rewrite sanitize_corners_two by done. rewrite decide_True by done.
  unfold bind at 1. unfold read at 1. unfold bind at 1. unfold read at 1.
  unfold lookup_total, map_lookup_total.
  rewrite corners_store_lower, corners_store_upper. cbn [default from_option].
  unfold guard, bind at 1, lift at 1.
  destruct (np.bitwise_and _ _) as [both|e]; cbn [rbind]; [|done].
  destruct (np.all both); [done|].
  destruct wcs; done.
Qed.

Lemma sanitize_crop_inputs_mismatch list_of_set σ lower upper wcs :
  live σ upper →
  length (items_of σ lower) ≠ length (items_of σ upper) →
  sanitize_crop_inputs list_of_set lower upper wcs σ
  = (Raise (ValueError (corner_length_message +:+
       repr_int_list [length (items_of σ lower); length (items_of σ upper)])),
     corners_store σ lower upper).
Proof.
  intros Hl Hlen. unfold sanitize_crop_inputs. unfold bind at 1.
  rewrite sanitize_corners_two by done. by rewrite decide_False by done.
Qed.

(** *** Frame: what the helpers leave alone *)

Lemma corner_as_list_frame corner σ :
  ∃ l σ', corner_as_list corner σ = (Ok l, σ') ∧ σ ⊆ σ' ∧ l ∉ dom σ.
Proof.
  rewrite corner_as_list_eq. eexists _, _. split; [reflexivity|]. split.
  - apply insert_subseteq, not_elem_of_dom. exact (is_fresh (dom σ)).
  - exact (is_fresh (dom σ)).
Qed.

Lemma not_in_dom_weaken (σ σ' : store) l : σ ⊆ σ' → l ∉ dom σ' → l ∉ dom σ.
Proof. intros Hsub Hl Hin. apply Hl. by apply (subseteq_dom σ σ'). Qed.

Lemma mapM_corner_as_list_frame corners σ :
  ∃ ls σ', mapM corner_as_list corners σ = (Ok ls, σ') ∧ σ ⊆ σ'
           ∧ length ls = length corners ∧ Forall (λ l, l ∉ dom σ) ls.
Proof.
  revert σ. induction corners as [|c corners IH]; intros σ.
  - exists [], σ. by repeat split.
  - destruct (corner_as_list_frame c σ) as (l & σ1 & E1 & Hsub1 & Hl).
    destruct (IH σ1) as (ls & σ2 & E2 & Hsub2 & Hlen & Hls).
    exists (l :: ls), σ2. cbn [mapM]. unfold bind at 1. rewrite E1.
    unfold bind at 1. rewrite E2. split; [reflexivity|].
    split; [by etrans|]. split; [simpl; by f_equal|].
    constructor; [done|].
    eapply Forall_impl; [exact Hls|]. intros l' Hl'. simpl in Hl'.
    by eapply not_in_dom_weaken.
Qed.

Lemma mapM_len_store ls σ : ∃ ns, mapM len ls σ = (Ok ns, σ).
Proof.
  induction ls as [|l ls [ns IH]]; [by exists []|].
  eexists. cbn [mapM]. unfold bind at 1. unfold len at 1, bind at 1, read at 1.
  unfold ret at 1. unfold bind at 1. rewrite IH. reflexivity.
Qed.

Lemma sanitize_corners_frame corners σ :
  σ ⊆ (sanitize_corners corners σ).2
  ∧ ∀ ls, (sanitize_corners corners σ).1 = Ok ls
          → length ls = length corners ∧ Forall (λ l, l ∉ dom σ) ls.
Proof.
  unfold sanitize_corners, bind.
  destruct (mapM_corner_as_list_frame corners σ) as (ls & σ' & -> & Hsub & Hlen & Hls).
  destruct (mapM_len_store ls σ') as [ns ->].
  case_decide; simpl; (split; [done|]); intros ls' E; [done|].
  injection E as <-. done.
Qed.

Lemma sanitize_crop_inputs_frame list_of_set lower upper wcs σ :
  σ ⊆ (sanitize_crop_inputs list_of_set lower upper wcs σ).2.
Proof.
  unfold sanitize_crop_inputs. unfold bind at 1.
  destruct (sanitize_corners_frame [lower; upper] σ) as [Hsub Hfresh].
  destruct (sanitize_corners [lower; upper] σ) as [[ls|e] σ'] eqn:E; [|done].
  simpl in Hsub. destruct (Hfresh ls eq_refl) as [Hlen Hls].
  destruct ls as [|lc [|uc [|]]]; try done.
  apply Forall_cons in Hls as [Hlc Huc]. apply Forall_cons in Huc as [Huc _].
  unfold bind at 1, read at 1. unfold bind at 1, read at 1.
  unfold bind at 1, lift at 1.
  destruct (np.bitwise_and _ _) as [both|e]; [|done].
  destruct (np.all both); [done|].
  destruct wcs as [| |mapping ec_wcs dimensions]; try done.
  unfold bind at 1.
  case_decide.
  - unfold bind at 1, lift at 1.
    destruct (make_dummy_wcs _) as [dw|e]; [|done].
    unfold lift at 1.
    destruct (CompoundLowLevelWCS_init _ _) as [w|e]; [|done].
    unfold bind at 1. cbn [extend]. unfold bind at 1. cbn [extend].
    unfold ret. cbn [snd].
    apply insert_subseteq_r; [by apply not_elem_of_dom|].
    apply insert_subseteq_r; [by apply not_elem_of_dom|done].
  - unfold ret at 1. unfold bind at 1. cbn [extend]. unfold bind at 1. cbn [extend].
    unfold ret. cbn [snd].
    apply insert_subseteq_r; [by apply not_elem_of_dom|].
    apply insert_subseteq_r; [by apply not_elem_of_dom|done].
Qed.

Lemma crop_frame list_of_set resolve self lower upper wcs σ :
  σ ⊆ (cube.crop resolve list_of_set self lower upper wcs σ).2.
Proof.
  unfold cube.crop. unfold bind at 1.
  pose proof (sanitize_crop_inputs_frame list_of_set lower upper wcs σ) as Hsub.
  destruct (sanitize_crop_inputs list_of_set lower upper wcs σ) as [[[[[no_op lc] uc] w]|e] σ']; [|done].
  simpl in Hsub. destruct no_op; [done|].
  unfold bind, read, lift.
  destruct (resolve _ _ _ _); [|done]. by destruct (cube.getitem _ _).
Qed.

(** *** The dummy axes of an [ExtraCoords] table *)

Lemma make_dummy_wcs_two :
  make_dummy_wcs 2
  = Ok {| naxis := 2; crpix := [1; 1]%Z; cdelt := [1; 1]%Z; crval := [0; 0]%Z;
          ctype := ["PIXEL"; "PIXEL"] |}.
Proof. reflexivity. Qed.

Lemma make_dummy_wcs_other n :
  n ≠ 2 → make_dummy_wcs n = Raise (wrong_shape "crpix" n).
Proof.
  intros Hn. unfold make_dummy_wcs, set_crpix. cbn [naxis WCS length].
  by rewrite decide_False by (intros E; by apply Hn).
Qed.

Lemma elem_of_dummy_axes mapping ndim a :
  a ∈ dummy_axes_of mapping ndim ↔ a < ndim ∧ a ∉ mapping.
Proof.
  unfold dummy_axes_of. rewrite elem_of_difference, !elem_of_list_to_set, elem_of_seq.
  split; intros [??]; split; (done || lia).
Qed.

Lemma size_dummy_axes mapping ndim :
  NoDup mapping → (∀ a, a ∈ mapping → a < ndim) →
  size (dummy_axes_of mapping ndim) = ndim - length mapping.
Proof.
  intros Hnd Hin. unfold dummy_axes_of. rewrite size_difference.
  - rewrite !size_list_to_set by (done || apply NoDup_seq). by rewrite length_seq.
  - intros a. rewrite !elem_of_list_to_set, elem_of_seq. intros Ha%Hin. lia.
Qed.

(** What an enumeration of the uncovered axes has. *)
Lemma elem_of_enumeration list_of_set (s : gset nat) a :
  enumerates list_of_set → a ∈ list_of_set s ↔ a ∈ s.
Proof. intros Hs. by rewrite (Hs s), elem_of_elements. Qed.

Lemma length_enumeration list_of_set (s : gset nat) :
  enumerates list_of_set → length (list_of_set s) = size s.
Proof. intros Hs. by rewrite (Hs s). Qed.

Lemma NoDup_enumeration list_of_set (s : gset nat) :
  enumerates list_of_set → NoDup (list_of_set s).
Proof. intros Hs. rewrite (Hs s). apply NoDup_elements. Qed.

Lemma mapping_with_dummy_axes list_of_set mapping ndim :
  enumerates list_of_set → on_cube mapping ndim →
  ∀ a, a ∈ mapping ++ list_of_set (dummy_axes_of mapping ndim) ↔ a < ndim.
Proof.
  intros Hs Hin a.
  rewrite elem_of_app, (elem_of_enumeration _ _ _ Hs), elem_of_dummy_axes. split.
  - intros [Ha%Hin|[? _]]; lia.
  - intros Ha. destruct (decide (a ∈ mapping)); [by left|right]. by split.
Qed.

Lemma mapping_with_dummy_axes_NoDup list_of_set mapping ndim :
  enumerates list_of_set → on_cube mapping ndim → NoDup mapping →
  mapping ++ list_of_set (dummy_axes_of mapping ndim) ≡ₚ seq 0 ndim.
Proof.
  intros Hs Hin Hnd. apply NoDup_Permutation.
  - apply NoDup_app. split; [done|]. split; [|by apply NoDup_enumeration].
    intros a Ha. rewrite (elem_of_enumeration _ _ _ Hs), elem_of_dummy_axes. by intros [_ ?].
  - apply NoDup_seq.
  - intros a. rewrite (mapping_with_dummy_axes _ _ _ Hs Hin), elem_of_seq. lia.
Qed.

(** [max(mapping) + 1] *)
Lemma n_inputs_le (mapping : list nat) n :
  (∀ a, a ∈ mapping → a < n) → n_inputs mapping ≤ n.
Proof.
  induction mapping as [|a mapping IH]; intros Hin; simpl; [lia|].
  pose proof (Hin a ltac:(left)) as Ha.
  assert (n_inputs mapping ≤ n) by (apply IH; intros b Hb; apply Hin; by right). lia.
Qed.

Lemma n_inputs_gt (mapping : list nat) a : a ∈ mapping → a < n_inputs mapping.
Proof.
  induction mapping as [|b mapping IH]; [by intros ?%elem_of_nil|].
  intros [->|Ha%IH]%elem_of_cons; simpl; lia.
Qed.

(** A mapping that reaches exactly the axes below [n] has [n] inputs. *)
Lemma n_inputs_covering (mapping : list nat) n :
  (∀ a, a ∈ mapping ↔ a < n) → n_inputs mapping = n.
Proof.
  intros Hcover. apply Nat.le_antisymm.
  - apply n_inputs_le. intros a. apply Hcover.
  - destruct n as [|n]; [lia|]. assert (n ∈ mapping) as Hn by (apply Hcover; lia).
    apply n_inputs_gt in Hn. lia.
Qed.

(** The compound of a table's WCS and a dummy WCS is made exactly when
    the table's WCS has one pixel axis per entry of the table's
    mapping. *)
Lemma compound_of_table list_of_set mapping ec_wcs (dummy_axes : gset nat) dummy_wcs :
  enumerates list_of_set → naxis dummy_wcs = size dummy_axes →
  CompoundLowLevelWCS_init [ec_wcs; AstropyWCS dummy_wcs] (mapping ++ list_of_set dummy_axes)
  = if decide (pixel_n_dim ec_wcs = length mapping)
    then Ok (CompoundLowLevelWCS [ec_wcs; AstropyWCS dummy_wcs]
               (mapping ++ list_of_set dummy_axes))
    else Raise (ValueError mapping_length_message).
Proof.
  intros Hs Hn. unfold CompoundLowLevelWCS_init.
  cbn [foldr pixel_n_dim]. rewrite length_app, (length_enumeration _ _ Hs), Hn.
  destruct (decide (pixel_n_dim ec_wcs = length mapping)) as [E|E].
  - rewrite decide_True by lia. done.
  - rewrite decide_False by lia. done.
Qed.

(** The two in-place extensions that end [sanitize_crop_inputs]. *)
Lemma extend_corners σ lower upper (more : list pyval) (out : bool * loc * loc * wcs_object) :
  ∃ σ',
    (do _ <- extend (lower_loc σ) more;
     do _ <- extend (upper_loc σ lower) more;
     ret out) (corners_store σ lower upper) = (Ok out, σ')
    ∧ σ' !! lower_loc σ = Some (items_of σ lower ++ more)
    ∧ σ' !! upper_loc σ lower = Some (items_of σ upper ++ more).
Proof.
  eexists. split; [reflexivity|].
  pose proof (upper_loc_not_lower σ lower) as Hne.
  unfold lookup_total, map_lookup_total. split.
  - rewrite lookup_insert_ne by done. rewrite lookup_insert_eq.
    by rewrite corners_store_lower.
  - rewrite lookup_insert_eq. rewrite lookup_insert_ne by done.
    by rewrite corners_store_upper.
Qed.

End misc_facts.

(** ** The crop helpers of [ndcube/utils/misc.py] *)

Module crop_properties.
Import misc crop_vocabulary misc_facts cube.

(** The message of the length check prints the list of lengths. *)
Example corner_length_message_1_2 :
  corner_length_message +:+ repr_int_list [1; 2]
  = "All corner inputs must have same number of coordinate objects. Lengths of corner objects: [1, 2]".
Proof. reflexivity. Qed.

(** C6: [sanitize_corners] wraps every corner input into a list of its
    own and compares the numbers of coordinate objects.  When the lower
    and the upper corner differ in length it raises the [ValueError] whose
    message prints the two lengths, and so do [sanitize_crop_inputs] and
    the crop methods, which begin with it; when the lengths agree it
    returns two lists holding the coordinate objects of the inputs,
    unchanged. *)
Theorem sanitize_corners_length_check list_of_set σ lower upper :
  live σ upper →
  (length (items_of σ lower) ≠ length (items_of σ upper) →
     (sanitize_corners [lower; upper] σ).1
       = Raise (ValueError (corner_length_message +:+
           repr_int_list [length (items_of σ lower); length (items_of σ upper)]))
     ∧ (∀ wcs, (sanitize_crop_inputs list_of_set lower upper wcs σ).1
               = Raise (ValueError (corner_length_message +:+
                   repr_int_list [length (items_of σ lower); length (items_of σ upper)])))
     ∧ (∀ resolve self wcs, (crop resolve list_of_set self lower upper wcs σ).1
               = Raise (ValueError (corner_length_message +:+
                   repr_int_list [length (items_of σ lower); length (items_of σ upper)]))))
  ∧ (length (items_of σ lower) = length (items_of σ upper) →
     ∃ lower_corner upper_corner σ',
       sanitize_corners [lower; upper] σ = (Ok [lower_corner; upper_corner], σ')
       ∧ σ' !! lower_corner = Some (items_of σ lower)
       ∧ σ' !! upper_corner = Some (items_of σ upper)).
Proof.
  intros Hl. split.
  - intros Hne. split; [|split].
    + rewrite sanitize_corners_two by done. by rewrite decide_False.
    + intros wcs. by rewrite sanitize_crop_inputs_mismatch.
    + intros resolve self wcs. unfold crop, bind.
      by rewrite sanitize_crop_inputs_mismatch.
  - intros Heq. exists (lower_loc σ), (upper_loc σ lower), (corners_store σ lower upper).
    rewrite sanitize_corners_two by done. rewrite decide_True by done.
    split; [done|]. split; [apply corners_store_lower|apply corners_store_upper].
Qed.

Lemma sanitize_corners_length_check_witness :
  live ∅ (PTuple [PNone; PNone])
  ∧ (sanitize_corners [PCoord 1; PTuple [PNone; PNone]] ∅).1
    = Raise (ValueError
        "All corner inputs must have same number of coordinate objects. Lengths of corner objects: [1, 2]")
  ∧ ∃ lower_corner upper_corner σ',
      sanitize_corners [PCoord 1; PTuple [PNone]] ∅ = (Ok [lower_corner; upper_corner], σ')
      ∧ σ' !! lower_corner = Some [PCoord 1]
      ∧ σ' !! upper_corner = Some [PNone].
Proof.
  split; [exact I|]. split.
  - apply (proj1 (sanitize_corners_length_check an_enumeration ∅ (PCoord 1) (PTuple [PNone; PNone]) I)).
    simpl. lia.
  - exact (proj2 (sanitize_corners_length_check an_enumeration ∅ (PCoord 1) (PTuple [PNone]) I) eq_refl).
Defined.

(** The no-op test on two empty corner lists does not produce a flag:
    the empty arrays have dtype [float64], on which [&] is not defined. *)
Lemma empty_corners_raise_TypeError list_of_set wcs σ :
  ∃ msg, (sanitize_crop_inputs list_of_set (PTuple []) (PTuple []) wcs σ).1 = Raise (TypeError msg).
Proof.
  eexists. rewrite sanitize_crop_inputs_prefix by done. reflexivity.
Qed.

(** C4, as stated, fails on corners of unequal length: every entry of
    both corners is [None], yet [sanitize_crop_inputs] returns no flag
    and the crop returns no cube; both raise the [ValueError] of the
    length check. *)
Lemma all_None_corners_of_unequal_length :
  Forall (eq PNone) [PNone] ∧ Forall (eq PNone) [PNone; PNone]
  ∧ (sanitize_crop_inputs an_enumeration (PTuple [PNone]) (PTuple [PNone; PNone]) (AstropyWCS (WCS 3)) ∅).1
    = Raise (ValueError
        "All corner inputs must have same number of coordinate objects. Lengths of corner objects: [1, 2]")
  ∧ (crop (λ _ _ _ _, Ok []) an_enumeration (ndcube_3d_ln_lt_l 2 3 4)
          (PTuple [PNone]) (PTuple [PNone; PNone]) (AstropyWCS (WCS 3)) ∅).1
    = Raise (ValueError
        "All corner inputs must have same number of coordinate objects. Lengths of corner objects: [1, 2]").
Proof. repeat split; repeat constructor. Qed.

(** C4 (amended): on corner inputs that are not both empty,
    [sanitize_crop_inputs] returns the no-op flag [True] exactly when the
    two corners have the same length and, at every position, both entries
    are [None].  It then returns the two corner lists and the very [wcs]
    it was given, and the store holds nothing new but the two lists; the
    crop methods return the input cube. *)
Theorem no_op_exactly_when_all_None list_of_set σ lower upper wcs :
  live σ upper →
  items_of σ lower ≠ [] ∨ items_of σ upper ≠ [] →
  ((∃ lower_corner upper_corner wcs',
      (sanitize_crop_inputs list_of_set lower upper wcs σ).1
      = Ok (true, lower_corner, upper_corner, wcs'))
   ↔ Forall2 both_None (items_of σ lower) (items_of σ upper))
  ∧ (Forall2 both_None (items_of σ lower) (items_of σ upper) →
     sanitize_crop_inputs list_of_set lower upper wcs σ
       = (Ok (true, lower_loc σ, upper_loc σ lower, wcs), corners_store σ lower upper)
     ∧ ∀ resolve self, (crop resolve list_of_set self lower upper wcs σ).1 = Ok self).
Proof.
  intros Hl Hne.
  destruct (decide (length (items_of σ lower) = length (items_of σ upper))) as [Hlen|Hlen].
  - assert (items_of σ lower ≠ []) as Hlo.
    { destruct Hne as [|Hup]; [done|]. intros E. apply Hup.
      rewrite E in Hlen. symmetry in Hlen. by apply length_zero_iff_nil. }
    pose proof (sanitize_crop_inputs_prefix list_of_set σ lower upper wcs Hl Hlen) as E.
    rewrite guard_nonempty in E by done.
    pose proof (all_both_None _ _ Hlen) as Hall.
    destruct (forallb id _) eqn:Hb.
    + assert (Forall2 both_None (items_of σ lower) (items_of σ upper)) as HF
        by by apply Hall.
      split; [split; [done|]|].
      * intros _. rewrite E. by eexists _, _, _.
      * intros _. split; [done|]. intros resolve self.
        unfold crop, bind. by rewrite E.
    + assert (¬ Forall2 both_None (items_of σ lower) (items_of σ upper)) as HF.
      { intros HF. apply Hall in HF. done. }
      split; [split|]; [|done|done].
      intros (lc & uc & w & Hr). rewrite E in Hr.
      destruct wcs as [| |mapping ec_wcs dimensions]; [done|done|].
      cbv zeta in Hr. unfold bind, lift, ret, extend in Hr.
      case_decide; [destruct (make_dummy_wcs _); [destruct (CompoundLowLevelWCS_init _ _)|]|];
        simpl in Hr; congruence.
  - assert (¬ Forall2 both_None (items_of σ lower) (items_of σ upper)) as HF.
    { intros HF. by apply Forall2_length in HF. }
    split; [split|]; [|done|done].
    intros (lc & uc & w & Hr). by rewrite sanitize_crop_inputs_mismatch in Hr.
Qed.

Lemma no_op_exactly_when_all_None_witness :
  live ∅ (PTuple [PNone; PNone])
  ∧ (items_of ∅ (PTuple [PNone; PNone]) ≠ [] ∨ items_of ∅ (PTuple [PNone; PNone]) ≠ [])
  ∧ (crop (λ _ _ _ _, Ok []) an_enumeration (ndcube_3d_ln_lt_l 2 3 4)
          (PTuple [PNone; PNone]) (PTuple [PNone; PNone]) (AstropyWCS (WCS 3)) ∅).1
    = Ok (ndcube_3d_ln_lt_l 2 3 4).
Proof.
  assert (items_of ∅ (PTuple [PNone; PNone]) ≠ [] ∨ items_of ∅ (PTuple [PNone; PNone]) ≠ [])
    as Hne by (left; discriminate).
  split; [exact I|]. split; [exact Hne|].
  apply (no_op_exactly_when_all_None an_enumeration ∅ (PTuple [PNone; PNone]) (PTuple [PNone; PNone])
           (AstropyWCS (WCS 3)) I Hne).
  repeat constructor.
Defined.

(** C3, as stated, fails when every corner entry is [None]: a table on a
    three-dimensional cube that covers array axis 0 only is returned as it
    is, with the no-op flag; no compound WCS is built and the corner
    lists are not extended. *)
Lemma all_None_corners_leave_the_table :
  dummy_axes_of [0] 3 ≠ ∅
  ∧ sanitize_crop_inputs an_enumeration (PTuple [PNone]) (PTuple [PNone])
      (ExtraCoords [0] (AstropyWCS (WCS 1)) [2; 3; 4]) ∅
    = (Ok (true, 1%positive, 2%positive, ExtraCoords [0] (AstropyWCS (WCS 1)) [2; 3; 4]),
       {[ 1%positive := [PNone]; 2%positive := [PNone] ]}).
Proof.
  split.
  - intros E. assert (1 ∈ dummy_axes_of [0] 3) as H; [|by rewrite E in H].
    apply elem_of_dummy_axes. split; [lia|]. by intros ?%list_elem_of_singleton.
  - by vm_compute.
Qed.

(** The dummy transform is set up with two-element parameter lists: for
    any number of uncovered axes other than two the first assignment
    raises, and so does [sanitize_crop_inputs]. *)
Lemma other_numbers_of_dummy_axes_raise list_of_set σ lower upper mapping ec_wcs dimensions :
  live σ upper →
  length (items_of σ lower) = length (items_of σ upper) →
  ¬ Forall2 both_None (items_of σ lower) (items_of σ upper) →
  dummy_axes_of mapping (length dimensions) ≠ ∅ →
  size (dummy_axes_of mapping (length dimensions)) ≠ 2 →
  (sanitize_crop_inputs list_of_set lower upper (ExtraCoords mapping ec_wcs dimensions) σ).1
  = Raise (wrong_shape "crpix" (size (dummy_axes_of mapping (length dimensions)))).
Proof.
  intros Hl Hlen HF Hd Hn.
  assert (items_of σ lower ≠ []) as Hlo.
  { intros E. apply HF. rewrite E in *. symmetry in Hlen.
    apply length_zero_iff_nil in Hlen as ->. constructor. }
  rewrite sanitize_crop_inputs_prefix by done. rewrite guard_nonempty by done.
  destruct (forallb id _) eqn:Hb; [by apply all_both_None in Hb|].
  cbv zeta. unfold bind at 1. rewrite decide_True by done.
  unfold bind at 1, lift at 1. by rewrite make_dummy_wcs_other.
Qed.

Example one_dummy_axis_raises :
  (sanitize_crop_inputs an_enumeration (PTuple [PCoord 1; PCoord 1])
     (PTuple [PCoord 2; PCoord 2]) (ExtraCoords [0; 1] (AstropyWCS (WCS 2)) [2; 3; 4]) ∅).1
  = Raise (ValueError "'crpix' array is the wrong shape, must be 1").
Proof. by vm_compute. Qed.

(** A table with two coordinates on array axis 0 of a three-dimensional
    cube: the compound has four components' pixel axes, mapped to
    three array axes, and three is its pixel dimensionality. *)
Example two_coordinates_on_one_axis :
  ∃ w σ',
    sanitize_crop_inputs an_enumeration (PTuple [PCoord 1]) (PTuple [PCoord 2])
      (ExtraCoords [0; 0] (AstropyWCS (WCS 2)) [2; 3; 4]) ∅
    = (Ok (false, 1%positive, 2%positive, w), σ')
    ∧ wcsobj.pixel_n_dim w = 3.
Proof. eexists _, _. split; [by vm_compute|]. by vm_compute. Qed.

(** A table with a coordinate on array axis 5, which a three-dimensional
    cube does not have: the mapping of the compound reaches six array
    axes. *)
Example coordinate_on_no_axis_of_the_cube :
  ∃ w σ',
    sanitize_crop_inputs an_enumeration (PTuple [PCoord 1]) (PTuple [PCoord 2])
      (ExtraCoords [0; 5] (AstropyWCS (WCS 2)) [2; 3; 4]) ∅
    = (Ok (false, 1%positive, 2%positive, w), σ')
    ∧ wcsobj.pixel_n_dim w = 6.
Proof. eexists _, _. split; [by vm_compute|]. by vm_compute. Qed.

(** C3 (amended): when the coordinate source is an [ExtraCoords] table
    whose mapping names array axes of the cube, and the corners are not
    all [None], then
    - if exactly two array axes of the cube are not covered by the table
      and the table's WCS has one pixel axis per entry of the table's
      mapping, [sanitize_crop_inputs] returns the compound of the table's
      WCS and an identity dummy WCS with one pixel axis per uncovered
      axis, mapped to the table's axes followed by the uncovered ones in
      the order in which the set of them is listed, and both corner lists
      are extended in place by one [None] per dummy axis; the compound
      has as many pixel axes as the cube has array axes, its mapping
      reaches every array axis of the cube, and each of them once when
      the table has one coordinate per axis;
    - if exactly two array axes are not covered and the table's WCS does
      not have one pixel axis per entry of the mapping, the compound is
      refused with a [ValueError];
    - if the table covers every axis, the table's own WCS is returned and
      the corner lists keep their items. *)
Theorem extra_coords_wcs_completed list_of_set σ lower upper mapping ec_wcs dimensions :
  enumerates list_of_set →
  on_cube mapping (length dimensions) →
  live σ upper →
  length (items_of σ lower) = length (items_of σ upper) →
  ¬ Forall2 both_None (items_of σ lower) (items_of σ upper) →
  (size (dummy_axes_of mapping (length dimensions)) = 2 →
   wcsobj.pixel_n_dim ec_wcs = length mapping →
     ∃ dummy_wcs σ',
       sanitize_crop_inputs list_of_set lower upper (ExtraCoords mapping ec_wcs dimensions) σ
       = (Ok (false, lower_loc σ, upper_loc σ lower,
              CompoundLowLevelWCS [ec_wcs; AstropyWCS dummy_wcs]
                (mapping ++ list_of_set (dummy_axes_of mapping (length dimensions)))), σ')
       ∧ naxis dummy_wcs = size (dummy_axes_of mapping (length dimensions))
       ∧ is_identity dummy_wcs
       ∧ σ' !! lower_loc σ
         = Some (items_of σ lower
                 ++ replicate (size (dummy_axes_of mapping (length dimensions))) PNone)
       ∧ σ' !! upper_loc σ lower
         = Some (items_of σ upper
                 ++ replicate (size (dummy_axes_of mapping (length dimensions))) PNone)
       ∧ wcsobj.pixel_n_dim
           (CompoundLowLevelWCS [ec_wcs; AstropyWCS dummy_wcs]
              (mapping ++ list_of_set (dummy_axes_of mapping (length dimensions))))
         = length dimensions
       ∧ (∀ a, a ∈ mapping ++ list_of_set (dummy_axes_of mapping (length dimensions))
               ↔ a < length dimensions)
       ∧ (NoDup mapping →
          mapping ++ list_of_set (dummy_axes_of mapping (length dimensions))
          ≡ₚ seq 0 (length dimensions)))
  ∧ (size (dummy_axes_of mapping (length dimensions)) = 2 →
     wcsobj.pixel_n_dim ec_wcs ≠ length mapping →
     (sanitize_crop_inputs list_of_set lower upper (ExtraCoords mapping ec_wcs dimensions) σ).1
     = Raise (ValueError mapping_length_message))
  ∧ (dummy_axes_of mapping (length dimensions) = ∅ →
     ∃ σ',
       sanitize_crop_inputs list_of_set lower upper (ExtraCoords mapping ec_wcs dimensions) σ
       = (Ok (false, lower_loc σ, upper_loc σ lower, ec_wcs), σ')
       ∧ σ' !! lower_loc σ = Some (items_of σ lower)
       ∧ σ' !! upper_loc σ lower = Some (items_of σ upper)).
Proof.
  intros Hs Hin Hl Hlen HF.
  assert (items_of σ lower ≠ []) as Hlo.
  { intros E. apply HF. rewrite E in *. symmetry in Hlen.
    apply length_zero_iff_nil in Hlen as ->. constructor. }
  pose proof (sanitize_crop_inputs_prefix list_of_set σ lower upper
                (ExtraCoords mapping ec_wcs dimensions) Hl Hlen) as E.
  rewrite guard_nonempty in E by done.
  destruct (forallb id _) eqn:Hb; [by apply all_both_None in Hb|].
  cbv zeta in E.
  assert (size (dummy_axes_of mapping (length dimensions)) = 2 →
          dummy_axes_of mapping (length dimensions) ≠ ∅) as Hne.
  { intros Hsize E0. rewrite E0 in Hsize. by rewrite size_empty in Hsize. }
  split; [|split].
  - intros Hsize Hdim.
    unfold bind at 1 in E. rewrite decide_True in E by by apply Hne.
    unfold bind at 1, lift at 1 in E. rewrite Hsize, make_dummy_wcs_two in E.
    unfold lift at 1 in E.
    rewrite (compound_of_table list_of_set) in E by (done || by rewrite Hsize).
    rewrite decide_True in E by done.
    edestruct (extend_corners σ lower upper (replicate 2 PNone)) as (σ' & Hrun & Hlo' & Hup').
    rewrite Hrun in E. eexists _, σ'. split; [exact E|].
    rewrite Hsize. split; [done|]. split; [by repeat split|].
    split; [done|]. split; [done|].
    pose proof (mapping_with_dummy_axes list_of_set mapping (length dimensions) Hs Hin) as Hcover.
    split; [by apply n_inputs_covering|]. split; [done|].
    intros Hnd. by apply mapping_with_dummy_axes_NoDup.
  - intros Hsize Hdim.
    unfold bind at 1 in E. rewrite decide_True in E by by apply Hne.
    unfold bind at 1, lift at 1 in E. rewrite Hsize, make_dummy_wcs_two in E.
    unfold lift at 1 in E.
    rewrite (compound_of_table list_of_set) in E by (done || by rewrite Hsize).
    rewrite decide_False in E by done. by rewrite E.
  - intros Hd. unfold bind at 1 in E. rewrite decide_False in E by (intros H; by apply H).
    unfold ret at 1 in E. rewrite Hd, size_empty in E.
    edestruct (extend_corners σ lower upper (replicate 0 PNone)) as (σ' & Hrun & Hlo' & Hup').
    rewrite Hrun in E. exists σ'. split; [exact E|].
    cbn in Hlo', Hup'. by rewrite !app_nil_r in Hlo', Hup'.
Qed.

Lemma extra_coords_wcs_completed_witness :
  enumerates an_enumeration
  ∧ on_cube [0] 3
  ∧ live ∅ (PTuple [PCoord 2])
  ∧ length (items_of ∅ (PTuple [PCoord 1])) = length (items_of ∅ (PTuple [PCoord 2]))
  ∧ ¬ Forall2 both_None (items_of ∅ (PTuple [PCoord 1])) (items_of ∅ (PTuple [PCoord 2]))
  ∧ size (dummy_axes_of [0] 3) = 2
  ∧ ∃ w σ',
      sanitize_crop_inputs an_enumeration (PTuple [PCoord 1]) (PTuple [PCoord 2])
        (ExtraCoords [0] (AstropyWCS (WCS 1)) [2; 3; 4]) ∅
      = (Ok (false, 1%positive, 2%positive, w), σ')
      ∧ wcsobj.pixel_n_dim w = 3
      ∧ σ' !! 1%positive = Some [PCoord 1; PNone; PNone]
      ∧ σ' !! 2%positive = Some [PCoord 2; PNone; PNone].
Proof.
  assert (enumerates an_enumeration) as Hs by (intros s; reflexivity).
  assert (on_cube [0] 3) as Hin by (intros a ->%list_elem_of_singleton; lia).
  assert (¬ Forall2 both_None (items_of ∅ (PTuple [PCoord 1])) (items_of ∅ (PTuple [PCoord 2])))
    as HF.
  { intros H. inversion H as [|???? [? _]]. discriminate. }
  split; [exact Hs|]. split; [exact Hin|].
  split; [exact I|]. split; [reflexivity|]. split; [exact HF|].
  split; [by vm_compute|].
  destruct (proj1 (extra_coords_wcs_completed an_enumeration ∅ (PTuple [PCoord 1])
                     (PTuple [PCoord 2]) [0] (AstropyWCS (WCS 1)) [2; 3; 4]
                     Hs Hin I eq_refl HF) eq_refl eq_refl)
    as (dw & σ' & Hrun & _ & _ & Hlo & Hup & Hdim & _).
  eexists _, σ'. split; [exact Hrun|]. split; [exact Hdim|].
  split; [exact Hlo|exact Hup].
Defined.

(** C8: [sanitize_corners] and [sanitize_crop_inputs] never write to an
    object that existed before the call.  The lists that
    [sanitize_corners] returns are new objects, made before anything
    else, so the in-place extension in [sanitize_crop_inputs] touches
    none of the caller's; whatever the outcome (a result or an
    exception), every list object of the caller, the corner arguments
    included, holds the items it held before, and the same is true of a
    whole crop call, which also leaves the cube it is called on as it
    was. *)
Theorem corner_inputs_never_mutated list_of_set σ corners lower upper wcs :
  preserved σ (sanitize_corners corners σ).2
  ∧ (∀ lists, (sanitize_corners corners σ).1 = Ok lists
              → length lists = length corners ∧ Forall (λ l, l ∉ dom σ) lists)
  ∧ preserved σ (sanitize_crop_inputs list_of_set lower upper wcs σ).2
  ∧ (∀ resolve self, preserved σ (crop resolve list_of_set self lower upper wcs σ).2)
  ∧ (live σ lower →
     items_of (sanitize_crop_inputs list_of_set lower upper wcs σ).2 lower = items_of σ lower)
  ∧ (live σ upper →
     items_of (sanitize_crop_inputs list_of_set lower upper wcs σ).2 upper = items_of σ upper).
Proof.
  assert (∀ σ' : store, σ ⊆ σ' → preserved σ σ') as Hpres.
  { intros σ' Hsub l items Hl. by eapply lookup_weaken. }
  assert (∀ corner, live σ corner →
            items_of (sanitize_crop_inputs list_of_set lower upper wcs σ).2 corner
            = items_of σ corner) as Hitems.
  { intros [| | |l]; try done. simpl. intros Hl.
    apply elem_of_dom in Hl as [items Hl]. unfold lookup_total, map_lookup_total.
    rewrite Hl.
    by rewrite (lookup_weaken _ _ _ _ Hl (sanitize_crop_inputs_frame list_of_set lower upper wcs σ)). }
  split; [apply Hpres, sanitize_corners_frame|].
  split; [apply sanitize_corners_frame|].
  split; [apply Hpres, sanitize_crop_inputs_frame|].
  split; [intros; apply Hpres, crop_frame|].
  split; apply Hitems.
Qed.

End crop_properties.

(** ** The y-data of the sequence plots *)

Module plotting_properties.
Import sequence_plotting plotting_vocabulary.


Lemma raises_only_Ok {A} (a : A) P : raises_only (Ok a) P.
Proof. intros e E. discriminate. Qed.

Lemma raises_only_Raise {A} e (P : exn → Prop) : P e → raises_only (@Raise A e) P.
Proof. intros HP e' E. by injection E as <-. Qed.

Lemma raises_only_rbind {A B} (r : result A) (k : A → result B) P :
  raises_only r P → (∀ a, r = Ok a → raises_only (k a) P) → raises_only (rbind r k) P.
Proof.
  intros Hr Hk. destruct r as [a|e]; simpl; [by apply Hk|].
  apply raises_only_Raise. by apply Hr.
Qed.

Lemma raises_only_mapR {A B} (f : A → result B) xs P :
  (∀ x, raises_only (f x) P) → raises_only (mapR f xs) P.
Proof.
  intros Hf. induction xs as [|x xs IH]; [apply raises_only_Ok|].
  simpl. apply raises_only_rbind; [apply Hf|]. intros y _.
  apply raises_only_rbind; [apply IH|]. intros ys _. apply raises_only_Ok.
Qed.


Lemma get_units_from_raises {D} i (sequence_data : list (NDCube D)) acc e :
  get_units_from i sequence_data acc = Raise e → ∃ msg, e = ValueError msg.
Proof.
  revert i acc. induction sequence_data as [|cube rest IH]; intros i acc; simpl; [done|].
  destruct (unit cube); [apply IH|]. intros [= <-]. by eexists.
Qed.

Lemma get_units_from_missing {D} i (sequence_data : list (NDCube D)) acc :
  Exists (λ cube, unit cube = None) sequence_data →
  ∃ msg, get_units_from i sequence_data acc = Raise (ValueError msg).
Proof.
  intros Hex. revert i acc.
  induction sequence_data as [|cube rest IH]; intros i acc; [by apply Exists_nil in Hex|].
  simpl. destruct (unit cube) eqn:Hu; [|by eexists].
  apply IH. apply Exists_cons in Hex as [Hex|Hex]; [congruence|done].
Qed.

(** When some cube has no unit, the units of the sequence are [None] and
    so is the returned unit, whatever unit was passed in. *)
Lemma determine_sequence_units_missing {D} (cubesequence_data : list (NDCube D)) unit_y_axis :
  Exists (λ cube, unit cube = None) cubesequence_data →
  _determine_sequence_units cubesequence_data unit_y_axis = Ok (None, None).
Proof.
  intros Hex. unfold _determine_sequence_units, _get_all_cube_units.
  by destruct (get_units_from_missing 0 cubesequence_data [] Hex) as [msg ->].
Qed.

Lemma determine_sequence_units_None {D} (cubesequence_data : list (NDCube D)) unit_y_axis u :
  _determine_sequence_units cubesequence_data unit_y_axis = Ok (None, u) → u = None.
Proof.
  unfold _determine_sequence_units.
  destruct (_get_all_cube_units cubesequence_data) as [us|e]; simpl.
  - destruct unit_y_axis; [done|]. by destruct us.
  - destruct (is_ValueError e); simpl; [congruence|done].
Qed.

Lemma determine_sequence_units_raises {D} (cubesequence_data : list (NDCube D)) unit_y_axis :
  raises_only (_determine_sequence_units cubesequence_data unit_y_axis) not_the_unit_error.
Proof.
  intros e. unfold _determine_sequence_units.
  destruct (_get_all_cube_units cubesequence_data) as [us|e'] eqn:E; simpl.
  - destruct unit_y_axis; [done|]. destruct us; [|done]. by intros [= <-].
  - apply get_units_from_raises in E as [msg ->]. done.
Qed.

Lemma unit_y_axis_of_raises axes_units :
  raises_only (unit_y_axis_of axes_units) not_the_unit_error.
Proof.
  destruct axes_units as [axes_units|]; [|apply raises_only_Ok].
  assert (∀ k, raises_only (getitem_unit axes_units k) not_the_unit_error) as Hk.
  { intros k e. unfold getitem_unit. destruct (axes_units !! k); [done|]. by intros [= <-]. }
  simpl. apply raises_only_rbind; [apply Hk|]. intros _ _. apply Hk.
Qed.

Lemma convert_raises from to value : raises_only (convert from to value) not_the_unit_error.
Proof. intros e. unfold convert. case_decide; [done|]. by intros [= <-]. Qed.

Lemma quantity_values_raises items target :
  raises_only (quantity_values items target) not_the_unit_error.
Proof.
  unfold quantity_values. destruct target as [t|].
  - apply raises_only_mapR. intros [x u]. apply convert_raises.
  - destruct items as [|[x0 u0] items]; [apply raises_only_Ok|].
    apply raises_only_mapR. intros [x u]. apply convert_raises.
Qed.

Lemma uncertainty_array_raises {D} (cube : NDCube D) :
  raises_only (uncertainty_array cube) not_the_unit_error.
Proof. intros e. unfold uncertainty_array. destruct (uncertainty cube); [done|]. by intros [= <-]. Qed.

Lemma to_values_raises a u target : raises_only (to_values a u target) not_the_unit_error.
Proof.
  unfold to_values. destruct target; [|by apply raises_only_Raise].
  apply raises_only_mapR. intros x. apply convert_raises.
Qed.

Lemma concatenate_raises arrays : raises_only (concatenate arrays) not_the_unit_error.
Proof. intros e. destruct arrays; [|done]. by intros [= <-]. Qed.

Lemma plot_1D_sequence_raises cubesequence_data axes_units :
  raises_only (_plot_1D_sequence cubesequence_data axes_units) not_the_unit_error.
Proof.
  unfold _plot_1D_sequence.
  apply raises_only_rbind; [apply unit_y_axis_of_raises|]. intros unit_y_axis _.
  apply raises_only_rbind; [apply determine_sequence_units_raises|].
  intros [sequence_units u] Hdet.
  apply raises_only_rbind; [|intros [ydata yerror] _; apply raises_only_Ok].
  destruct sequence_units as [us|].
  - apply raises_only_rbind; [apply quantity_values_raises|]. intros ydata _.
    apply raises_only_rbind; [apply raises_only_mapR; intros c; apply uncertainty_array_raises|].
    intros arrays _.
    apply raises_only_rbind; [apply quantity_values_raises|]. intros yerror _.
    apply raises_only_Ok.
  - apply determine_sequence_units_None in Hdet as ->. apply raises_only_Ok.
Qed.

Lemma concatenate_objects_raises array_like items :
  raises_only (concatenate_objects array_like items) not_the_unit_error.
Proof.
  unfold concatenate_objects. destruct items as [|it items]; [by apply raises_only_Raise|].
  apply raises_only_rbind; [|intros; apply raises_only_Ok].
  apply raises_only_mapR. intros [|a|a]; simpl.
  - by apply raises_only_Raise.
  - destruct array_like; [apply raises_only_Ok|by apply raises_only_Raise].
  - apply raises_only_Ok.
Qed.

Lemma plot_2D_sequence_as_1Dline_raises array_like cubesequence_data axes_units :
  raises_only (_plot_2D_sequence_as_1Dline array_like cubesequence_data axes_units)
              not_the_unit_error.
Proof.
  unfold _plot_2D_sequence_as_1Dline.
  apply raises_only_rbind; [apply unit_y_axis_of_raises|]. intros unit_y_axis _.
  apply raises_only_rbind; [apply determine_sequence_units_raises|].
  intros [sequence_units u] Hdet.
  destruct sequence_units as [us|].
  - apply raises_only_rbind.
    { apply raises_only_mapR. intros [c un]. apply to_values_raises. }
    intros ys _. apply raises_only_rbind; [apply concatenate_raises|]. intros ydata _.
    apply raises_only_rbind.
    { apply raises_only_mapR. intros [c un].
      apply raises_only_rbind; [apply uncertainty_array_raises|].
      intros a _. apply to_values_raises. }
    intros es _. apply raises_only_rbind; [apply concatenate_raises|]. intros yerror _.
    apply raises_only_Ok.
  - apply determine_sequence_units_None in Hdet as ->.
    apply raises_only_rbind; [apply concatenate_raises|]. intros ydata _.
    destruct (forallb _ _); [apply raises_only_Ok|].
    apply raises_only_rbind; [apply concatenate_objects_raises|]. intros yerror _.
    apply raises_only_Ok.
Qed.

(** C10: the guard [if unit_y_axis is not None: raise
    ValueError(NON_COMPATIBLE_UNIT_MESSAGE)] sits in the branch where
    [sequence_units] is [None]; [_determine_sequence_units] returns the
    unit [None] whenever it returns the units [None] (when some cube has
    no unit it returns [(None, None)] whatever unit the caller passed),
    so neither [_plot_1D_sequence] nor [_plot_2D_sequence_as_1Dline]
    raises that error, on any input. *)
Theorem unit_guard_never_fires :
  (∀ D (cubesequence_data : list (NDCube D)) unit_y_axis u,
     _determine_sequence_units cubesequence_data unit_y_axis = Ok (None, u) → u = None)
  ∧ (∀ D (cubesequence_data : list (NDCube D)) unit_y_axis,
       Exists (λ cube, unit cube = None) cubesequence_data →
       _determine_sequence_units cubesequence_data unit_y_axis = Ok (None, None))
  ∧ (∀ cubesequence_data axes_units,
       _plot_1D_sequence cubesequence_data axes_units
       ≠ Raise (ValueError NON_COMPATIBLE_UNIT_MESSAGE))
  ∧ (∀ array_like cubesequence_data axes_units,
       _plot_2D_sequence_as_1Dline array_like cubesequence_data axes_units
       ≠ Raise (ValueError NON_COMPATIBLE_UNIT_MESSAGE)).
Proof.
  split; [intros D; apply determine_sequence_units_None|].
  split; [intros D; apply determine_sequence_units_missing|].
  split.
  - intros data axes_units E. by apply (plot_1D_sequence_raises data axes_units _ E).
  - intros array_like data axes_units E.
    by apply (plot_2D_sequence_as_1Dline_raises array_like data axes_units _ E).
Qed.

(** A unit passed by the caller is dropped without notice when a cube of
    the sequence has none. *)
Example caller_unit_discarded :
  _plot_1D_sequence
    [mkNDCube 1%Q (Some 3%Q) None; mkNDCube 2%Q None (Some (mkUnit "length" 1))]
    (Some [None; Some (mkUnit "time" 1)])
  = Ok ([1%Q; 2%Q], Some (ObjectErrors [Some 3%Q; None]), None).
Proof. reflexivity. Qed.

(** *** Zero-filling of missing uncertainties *)


Lemma fill_missing_patched cubes :
  fill_missing cubes ((λ cube, object_of (uncertainty cube)) <$> cubes) = patched <$> cubes.
Proof.
  unfold fill_missing. induction cubes as [|c cubes IH]; [done|].
  cbn. rewrite IH. unfold patched. by destruct (uncertainty c).
Qed.

Lemma nothing_missing_patched cubes :
  existsb is_ItemNone ((λ cube, object_of (uncertainty cube)) <$> cubes) = false →
  (λ cube, object_of (uncertainty cube)) <$> cubes = patched <$> cubes.
Proof.
  induction cubes as [|c cubes IH]; [done|].
  cbn. intros [Hc Hrest]%orb_false_iff. rewrite IH by done.
  unfold patched. by destruct (uncertainty c).
Qed.

Lemma all_None_objects (cubes : list (NDCube (list Q))) :
  forallb is_ItemNone ((λ cube, object_of (uncertainty cube)) <$> cubes) = true
  ↔ Forall (λ cube, uncertainty cube = None) cubes.
Proof.
  induction cubes as [|c cubes IH]; [by split; [constructor|]|].
  cbn. rewrite andb_true_iff, IH, Forall_cons.
  destruct (uncertainty c); cbn; split; intros [? ?]; done.
Qed.

Lemma all_None_forallb {D} (cubes : list (NDCube D)) :
  forallb (λ e, bool_decide (e = None)) (uncertainty <$> cubes) = true
  ↔ Forall (λ cube, uncertainty cube = None) cubes.
Proof.
  induction cubes as [|c cubes IH]; [by split; [constructor|]|].
  cbn. rewrite andb_true_iff, IH, Forall_cons, bool_decide_eq_true. done.
Qed.

(** When NumPy takes uncertainty objects for their arrays, concatenating
    the patched object array gives the uncertainties with zeros in the
    gaps. *)
Lemma concatenate_patched cubes :
  cubes ≠ [] →
  concatenate_objects true (patched <$> cubes) = Ok (concat (filled <$> cubes)).
Proof.
  intros Hne. unfold concatenate_objects.
  assert (mapR (asarray true) (patched <$> cubes) = Ok (filled <$> cubes)) as ->.
  { clear Hne. induction cubes as [|c cubes IH]; [done|].
    cbn [fmap list_fmap mapR]. fold (patched <$> cubes). rewrite IH.
    unfold patched, filled. by destruct (uncertainty c). }
  by destruct cubes.
Qed.

(** C9: for a sequence in which some cube has no unit (the branch "not
    all cubes have their unit set"), [_plot_2D_sequence_as_1Dline] sets
    [yerror] to [None] when every uncertainty is [None] and otherwise
    concatenates the array of uncertainties in which each missing one
    has been replaced by zeros of that cube's length;
    [_plot_1D_sequence] sets [yerror] to [None] in the same case and
    otherwise passes the array of uncertainties on as it is, [None]
    entries included. *)
Theorem zero_filling_only_in_2D_line_plot axes_units unit_y_axis :
  unit_y_axis_of axes_units = Ok unit_y_axis →
  (∀ array_like (cubes : list (NDCube (list Q))),
     Exists (λ cube, unit cube = None) cubes →
     _plot_2D_sequence_as_1Dline array_like cubes axes_units
     = if decide (Forall (λ cube, uncertainty cube = None) cubes)
       then Ok (concat (data <$> cubes), None, None)
       else rbind (concatenate_objects array_like (patched <$> cubes))
                  (λ yerror, Ok (concat (data <$> cubes), Some yerror, None)))
  ∧ (∀ cubes : list (NDCube (list Q)),
     Exists (λ cube, unit cube = None) cubes →
     ¬ Forall (λ cube, uncertainty cube = None) cubes →
     _plot_2D_sequence_as_1Dline true cubes axes_units
     = Ok (concat (data <$> cubes), Some (concat (filled <$> cubes)), None))
  ∧ (∀ cubes : list (NDCube Q),
     Exists (λ cube, unit cube = None) cubes →
     _plot_1D_sequence cubes axes_units
     = Ok (data <$> cubes,
           if decide (Forall (λ cube, uncertainty cube = None) cubes) then None
           else Some (ObjectErrors (uncertainty <$> cubes)),
           None)).
Proof.
  intros Haxes.
  assert (∀ array_like (cubes : list (NDCube (list Q))),
     Exists (λ cube, unit cube = None) cubes →
     _plot_2D_sequence_as_1Dline array_like cubes axes_units
     = if decide (Forall (λ cube, uncertainty cube = None) cubes)
       then Ok (concat (data <$> cubes), None, None)
       else rbind (concatenate_objects array_like (patched <$> cubes))
                  (λ yerror, Ok (concat (data <$> cubes), Some yerror, None))) as H2D.
  { intros array_like cubes Hex.
    unfold _plot_2D_sequence_as_1Dline. rewrite Haxes. cbn [rbind].
    rewrite determine_sequence_units_missing by done. cbn [rbind].
    assert (cubes ≠ []) as Hne by (intros ->; by apply Exists_nil in Hex).
    assert (concatenate (data <$> cubes) = Ok (concat (data <$> cubes))) as ->
      by by destruct cubes.
    cbn [rbind]. pose proof (all_None_objects cubes) as Hall.
    destruct (forallb _ _) eqn:Hb.
    - rewrite decide_True by by apply Hall. done.
    - rewrite decide_False by (intros H; apply Hall in H; done).
      destruct (existsb _ _) eqn:He.
      + by rewrite fill_missing_patched.
      + by rewrite nothing_missing_patched. }
  split; [exact H2D|]. split.
  - intros cubes Hex Hsome. rewrite H2D by done. rewrite decide_False by done.
    rewrite concatenate_patched; [done|]. intros ->. by apply Exists_nil in Hex.
  - intros cubes Hex.
    unfold _plot_1D_sequence. rewrite Haxes. cbn [rbind].
    rewrite determine_sequence_units_missing by done. cbn [rbind all_eq_None].
    pose proof (all_None_forallb cubes) as Hall.
    destruct (forallb _ _) eqn:Hb.
    + rewrite decide_True by by apply Hall. done.
    + rewrite decide_False by (intros H; apply Hall in H; done). done.
Qed.

Lemma zero_filling_only_in_2D_line_plot_witness :
  unit_y_axis_of None = Ok None
  ∧ (∀ array_like,
       _plot_2D_sequence_as_1Dline array_like
         [mkNDCube [1%Q; 2%Q] (Some [3%Q; 4%Q]) None;
          mkNDCube [1%Q; 2%Q; 5%Q] None (Some (mkUnit "length" 1))] None
       = rbind (concatenate_objects array_like
                  [ItemUncertainty [3%Q; 4%Q]; ItemArray [0%Q; 0%Q; 0%Q]])
               (λ yerror, Ok ([1%Q; 2%Q; 1%Q; 2%Q; 5%Q], Some yerror, None)))
  ∧ _plot_1D_sequence
      [mkNDCube 1%Q (Some 3%Q) None; mkNDCube 2%Q None (Some (mkUnit "length" 1))] None
    = Ok ([1%Q; 2%Q], Some (ObjectErrors [Some 3%Q; None]), None).
Proof.
  split; [reflexivity|].
  destruct (zero_filling_only_in_2D_line_plot None None eq_refl) as (H2 & _ & H1). split.
  - intros array_like. rewrite H2 by (apply Exists_cons_hd; reflexivity).
    rewrite decide_False; [reflexivity|].
    intros H. apply Forall_cons_1 in H as [H _]. discriminate.
  - rewrite H1 by (apply Exists_cons_hd; reflexivity).
    rewrite decide_False; [reflexivity|].
    intros H. apply Forall_cons_1 in H as [H _]. discriminate.
Defined.

End plotting_properties.

(** ** Cube indexing and the sliced WCS *)

Module indexing_facts.
Import cube indexing_vocabulary.


Lemma slice_length_full n : slice_length n None None = n.
Proof. unfold slice_length, clip. lia. Qed.

Lemma explicit_no_ellipsis index :
  existsb is_Ellipsis index = false → explicit index = index.
Proof.
  induction index as [|it index IH]; [done|]. cbn [existsb].
  intros [Hit Hrest]%orb_false_iff. unfold explicit in *.
  rewrite filter_cons_True by done. by rewrite IH.
Qed.

Lemma flat_map_no_ellipsis (fill : list index_item) index :
  existsb is_Ellipsis index = false →
  flat_map (λ it, if is_Ellipsis it then fill else [it]) index = index.
Proof.
  induction index as [|it index IH]; [done|]. cbn [existsb flat_map].
  intros [Hit Hrest]%orb_false_iff. rewrite Hit, IH by done. done.
Qed.

Lemma explicit_length_le index : length (explicit index) ≤ length index.
Proof. apply length_filter. Qed.

(** Normalisation goes through a leading integer or slice. *)
Lemma normalize_cons n it index :
  is_Ellipsis it = false →
  normalize (S n) (it :: index) = rbind (normalize n index) (λ item, Ok (it :: item)).
Proof.
  intros Hit. unfold normalize. fold (explicit (it :: index)). fold (explicit index).
  assert (explicit (it :: index) = it :: explicit index) as ->
    by (unfold explicit; by rewrite filter_cons_True).
  pose proof (explicit_length_le index) as Hle.
  cbn [length flat_map]. rewrite Hit.
  replace (S (length index) - S (length (explicit index)))
    with (length index - length (explicit index)) by lia.
  replace (S n - S (length (explicit index))) with (n - length (explicit index)) by lia.
  destruct (decide (1 < length index - length (explicit index))); [done|].
  destruct (decide (n < length (explicit index))).
  - rewrite decide_True by lia. done.
  - rewrite decide_False by lia. cbn [rbind app].
    destruct (decide (length index = length (explicit index))).
    + by rewrite decide_True by lia.
    + by rewrite decide_False by lia.
Qed.

(** On an index without ellipsis that names every axis, NumPy's indexing
    is the per-axis selection. *)
Lemma getitem_shape_explicit shape index :
  existsb is_Ellipsis index = false → length index = length shape →
  getitem_shape shape index = select shape index.
Proof.
  revert shape. induction index as [|it index IH]; intros [|n shape] Hno Hlen; try done.
  cbn [existsb] in Hno. apply orb_false_iff in Hno as [Hit Hno].
  simpl in Hlen. injection Hlen as Hlen.
  destruct it as [i|start stop|]; [| |done]; cbn [getitem_shape select].
  - destruct (in_bounds n i); [by apply IH|done].
  - by rewrite IH.
Qed.

Lemma select_full shape :
  select shape (replicate (length shape) full_slice) = Ok shape.
Proof.
  induction shape as [|n shape IH]; [done|].
  cbn [length replicate select full_slice]. fold full_slice. rewrite IH.
  cbn [rbind]. by rewrite slice_length_full.
Qed.

Lemma select_app shape1 shape2 item1 item2 :
  length item1 = length shape1 →
  select (shape1 ++ shape2) (item1 ++ item2)
  = rbind (select shape1 item1) (λ s1, rbind (select shape2 item2) (λ s2, Ok (s1 ++ s2))).
Proof.
  revert item1. induction shape1 as [|n shape1 IH]; intros [|it item1] Hlen; try done.
  - cbn. by destruct (select shape2 item2).
  - simpl in Hlen. injection Hlen as Hlen. cbn [app select].
    destruct it as [i|start stop|]; [| |done].
    + destruct (in_bounds n i); [by apply IH|done].
    + rewrite IH by done. destruct (select shape1 item1) as [s1|]; [|done]. cbn [rbind].
      by destruct (select shape2 item2).
Qed.

Lemma select_length shape item s : select shape item = Ok s → length item = length shape.
Proof.
  revert item s. induction shape as [|n shape IH]; intros [|it item] s; try done.
  destruct it as [i|start stop|]; [| |done]; cbn [select].
  - destruct (in_bounds n i); [|done]. intros H%IH. simpl. by f_equal.
  - destruct (select shape item) as [s'|] eqn:E; [|done]. intros _. simpl. f_equal. by eapply IH.
Qed.

(** NumPy's indexing by [index] is the per-axis selection by the
    normalised index. *)
Lemma normalize_select shape index s :
  getitem_shape shape index = Ok s →
  ∃ item, normalize (length shape) index = Ok item ∧ select shape item = Ok s.
Proof.
  revert shape s. induction index as [|it index IH]; intros shape s.
  - intros [= <-]. exists (replicate (length shape) full_slice). split; [|apply select_full].
    unfold normalize. cbn. rewrite decide_False by lia. rewrite decide_False by lia.
    by rewrite Nat.sub_0_r.
  - destruct it as [i|start stop|]; cbn [getitem_shape].
    + destruct shape as [|n shape]; [done|]. destruct (in_bounds n i) eqn:Hb; [|done].
      intros (item & Hn & Hs)%IH. exists (Int i :: item).
      cbn [length]. rewrite normalize_cons, Hn by done. split; [done|].
      cbn [select]. by rewrite Hb.
    + destruct shape as [|n shape]; [done|].
      destruct (getitem_shape shape index) as [s'|] eqn:E; [|done]. intros [= <-].
      apply IH in E as (item & Hn & Hs). exists (Slice start stop :: item).
      cbn [length]. rewrite normalize_cons, Hn by done. split; [done|].
      cbn [select]. by rewrite Hs.
    + destruct (existsb is_Ellipsis index) eqn:Hno; [done|].
      case_decide as Hle; [|done].
      destruct (getitem_shape (drop _ shape) index) as [s'|] eqn:E; [|done]. intros [= <-].
      set (k := length shape - length index) in *.
      exists (replicate k full_slice ++ index). split.
      * unfold normalize. fold (explicit (Ellipsis :: index)).
        assert (explicit (Ellipsis :: index) = index) as ->.
        { unfold explicit. rewrite filter_cons_False by done. by apply explicit_no_ellipsis. }
        cbn [length flat_map is_Ellipsis].
        rewrite decide_False by lia. rewrite decide_False by lia.
        rewrite flat_map_no_ellipsis by done. rewrite decide_False by lia.
        by rewrite app_nil_r.
      * rewrite <- (take_drop k shape) at 1.
        rewrite select_app by (rewrite length_replicate, length_take; lia).
        assert (select (take k shape) (replicate k full_slice) = Ok (take k shape)) as ->.
        { replace k with (length (take k shape)) at 2 by (rewrite length_take; lia).
          apply select_full. }
        cbn [rbind].
        rewrite <- getitem_shape_explicit, E; [done|done|].
        rewrite length_drop. lia.
Qed.

(** Conversely, what the normalised index selects is what NumPy's
    indexing gives. *)
Lemma explicit_cons_ellipsis index :
  explicit (Ellipsis :: index) = explicit index.
Proof. unfold explicit. by rewrite filter_cons_False. Qed.

Lemma explicit_full index :
  length (explicit index) = length index → existsb is_Ellipsis index = false.
Proof.
  induction index as [|it index IH]; [done|].
  pose proof (explicit_length_le index) as Hle.
  unfold explicit in *. destruct (is_Ellipsis it) eqn:Hit.
  - rewrite filter_cons_False by (by rewrite Hit). simpl. lia.
  - rewrite filter_cons_True by done. simpl. intros [= H]. rewrite Hit. by apply IH.
Qed.

Lemma select_normalize shape index item s :
  normalize (length shape) index = Ok item → select shape item = Ok s →
  getitem_shape shape index = Ok s.
Proof.
  revert shape item s. induction index as [|it index IH]; intros shape item s.
  - unfold normalize. cbn. rewrite decide_False by lia. rewrite decide_False by lia.
    rewrite Nat.sub_0_r. intros [= <-]. by rewrite select_full.
  - destruct (is_Ellipsis it) eqn:Hit.
    + destruct it; try done. unfold normalize. fold (explicit (Ellipsis :: index)).
      rewrite explicit_cons_ellipsis. pose proof (explicit_length_le index) as Hle.
      cbn [length flat_map is_Ellipsis].
      case_decide as H1; [done|]. case_decide as H2; [done|].
      assert (length (explicit index) = length index) as Hfull by lia.
      pose proof (explicit_full _ Hfull) as Hno.
      rewrite explicit_no_ellipsis in * by done.
      rewrite flat_map_no_ellipsis by done. rewrite decide_False by lia.
      rewrite app_nil_r. intros [= <-] Hs.
      cbn [getitem_shape]. rewrite Hno. rewrite decide_True by lia.
      set (k := length shape - length index) in *.
      rewrite <- (take_drop k shape) in Hs at 1.
      rewrite select_app in Hs by (rewrite length_replicate, length_take; lia).
      assert (select (take k shape) (replicate k full_slice) = Ok (take k shape)) as Hfill.
      { replace k with (length (take k shape)) at 2 by (rewrite length_take; lia).
        apply select_full. }
      rewrite Hfill in Hs. cbn [rbind] in Hs.
      rewrite getitem_shape_explicit by (done || rewrite length_drop; lia).
      destruct (select (drop k shape) index); [|done]. cbn [rbind] in *. done.
    + destruct shape as [|n shape].
      { unfold normalize. fold (explicit (it :: index)).
        assert (explicit (it :: index) = it :: explicit index) as ->
          by (unfold explicit; by rewrite filter_cons_True).
        case_decide; [done|]. rewrite decide_True by (simpl; lia). done. }
      cbn [length]. rewrite normalize_cons by done.
      destruct (normalize (length shape) index) as [item'|] eqn:Hn; [|done].
      intros [= <-]. destruct it as [i|start stop|]; [| |done]; cbn [select getitem_shape].
      * destruct (in_bounds n i); [|done]. by apply IH.
      * destruct (select shape item') as [s'|] eqn:Hs'; [|done].
        intros [= <-]. by rewrite (IH _ _ _ Hn Hs').
Qed.

(** *** The sliced WCS against the sliced data *)


Lemma select_keep shape item s :
  select shape item = Ok s → s = keep (kept item) (zip_with sliced_length shape item).
Proof.
  revert item s. induction shape as [|n shape IH]; intros [|it item] s; try done.
  - by intros [= <-].
  - destruct it as [i|start stop|]; [| |done]; cbn [select].
    + destruct (in_bounds n i); [|done]. apply IH.
    + destruct (select shape item) as [s'|] eqn:E; [|done]. intros [= <-].
      cbn. f_equal. by apply IH.
Qed.

Lemma keep_app {A} (f1 f2 : list bool) (x1 x2 : list A) :
  length f1 = length x1 → keep (f1 ++ f2) (x1 ++ x2) = keep f1 x1 ++ keep f2 x2.
Proof.
  revert x1. induction f1 as [|b f1 IH]; intros [|x x1] Hlen; try done.
  simpl in Hlen. injection Hlen as Hlen. cbn. rewrite IH by done. by destruct b.
Qed.

Lemma keep_rev {A} (f : list bool) (x : list A) :
  length f = length x → keep (rev f) (rev x) = rev (keep f x).
Proof.
  revert x. induction f as [|b f IH]; intros [|a x] Hlen; try done.
  simpl in Hlen. injection Hlen as Hlen. cbn [rev].
  rewrite keep_app by (by rewrite !length_rev). rewrite IH by done.
  destruct b; cbn; [done|]. by rewrite app_nil_r.
Qed.

Lemma zip_with_rev {A B C} (f : A → B → C) (a : list A) (b : list B) :
  length a = length b → zip_with f (rev a) (rev b) = rev (zip_with f a b).
Proof.
  revert b. induction a as [|x a IH]; intros [|y b] Hlen; try done.
  simpl in Hlen. injection Hlen as Hlen. cbn [rev zip_with].
  rewrite zip_with_app by (by rewrite !length_rev). by rewrite IH.
Qed.

Lemma kept_rev item : (λ it, negb (is_Int it)) <$> rev item = rev (kept item).
Proof.
  unfold kept. induction item as [|it item IH]; [done|].
  cbn [rev]. rewrite fmap_app, IH. done.
Qed.

Lemma length_keep_kept {A} item (xs : list A) :
  length xs = length item →
  length (keep (kept item) xs) = length (filter (λ it, is_Int it = false) item).
Proof.
  revert xs. induction item as [|it item IH]; intros [|x xs] Hlen; try done.
  simpl in Hlen. injection Hlen as Hlen. cbn [kept fmap list_fmap keep].
  destruct (is_Int it) eqn:Hit; cbn [negb].
  - rewrite filter_cons_False by (by rewrite Hit). by apply IH.
  - rewrite filter_cons_True by done. cbn. f_equal. by apply IH.
Qed.

(** The pixel shape of the sliced WCS is the sliced data shape, in pixel
    order. *)
Lemma slice_wcs_pixel_shape w shape item s :
  array_shape w = shape → select shape item = Ok s →
  pixel_shape (slice_wcs w item) = rev s.
Proof.
  intros Hw Hs. pose proof (select_length _ _ _ Hs) as Hlen.
  assert (pixel_shape w = rev shape) as Hp.
  { unfold array_shape in Hw. by rewrite <- Hw, rev_involutive. }
  cbn [slice_wcs pixel_shape]. unfold pixel_keep. rewrite kept_rev, Hp.
  rewrite zip_with_rev by done.
  rewrite keep_rev by (unfold kept; rewrite length_fmap, length_zip_with; lia).
  by rewrite <- (select_keep _ _ _ Hs).
Qed.

End indexing_facts.

Module cube_properties.
Import cube indexing_vocabulary indexing_facts.

(** C1: for a well-formed cube and an index expression (integers, slices
    of step 1, ellipsis) that NumPy accepts on its data, [cube[index]]
    exists; its data have the shape of [cube.data[index]]; the pixel
    dimensionality of its WCS is the number of non-integer entries of the
    normalised index (one entry per array axis, without ellipsis); and
    the array shape of its WCS is the shape of its data.  Uncertainty and
    mask are sliced alongside.  Conversely, whenever [cube[index]] exists
    its data have the shape of [cube.data[index]]. *)
Theorem sliced_cube_shape_and_dimensionality (c : NDCube) index :
  well_formed c →
  (∀ shape', getitem_shape (data c) index = Ok shape' →
     ∃ c' item,
       getitem c index = Ok c'
       ∧ data c' = shape'
       ∧ normalize (length (data c)) index = Ok item
       ∧ length item = length (data c)
       ∧ pixel_n_dim (wcs c') = length (filter (λ it, is_Int it = false) item)
       ∧ array_shape (wcs c') = data c'
       ∧ well_formed c')
  ∧ (∀ c', getitem c index = Ok c' → getitem_shape (data c) index = Ok (data c')).
Proof.
  intros (Hw & Hu & Hm). split.
  - intros shape' Hnp.
    destruct (normalize_select _ _ _ Hnp) as (item & Hn & Hs).
    pose proof (select_length _ _ _ Hs) as Hlen.
    pose proof (slice_wcs_pixel_shape _ _ _ _ Hw Hs) as Hp.
    assert (∀ a, (∀ s, a = Some s → s = data c) →
              ∃ a', select_opt a item = Ok a' ∧ ∀ s, a' = Some s → s = shape') as Hopt.
    { intros [s0|] Ha; [|by exists None].
      rewrite (Ha s0 eq_refl). exists (Some shape'). cbn. rewrite Hs. split; [done|].
      by intros ? [= <-]. }
    destruct (Hopt _ Hu) as (u' & Eu & Hu'). destruct (Hopt _ Hm) as (m' & Em & Hm').
    eexists _, item. split.
    { unfold getitem. rewrite Hn. cbn [rbind]. rewrite Hs. cbn [rbind].
      rewrite Eu. cbn [rbind]. rewrite Em. cbn [rbind]. reflexivity. }
    cbn [data wcs uncertainty mask]. split; [done|]. split; [done|]. split; [done|].
    assert (array_shape (slice_wcs (wcs c) item) = shape') as Ha
      by (unfold array_shape; by rewrite Hp, rev_involutive).
    split.
    { unfold pixel_n_dim. rewrite Hp, length_rev, (select_keep _ _ _ Hs).
      apply length_keep_kept. rewrite length_zip_with. lia. }
    split; [done|]. by repeat split.
  - intros c'. unfold getitem.
    destruct (normalize _ _) as [item|] eqn:Hn; [|done]. cbn [rbind].
    destruct (select (data c) item) as [s|] eqn:Hs; [|done]. cbn [rbind].
    destruct (select_opt (uncertainty c) item); [|done]. cbn [rbind].
    destruct (select_opt (mask c) item); [|done]. cbn [rbind].
    intros [= <-]. cbn [data]. by eapply select_normalize.
Qed.

Lemma sliced_cube_shape_and_dimensionality_witness :
  well_formed (ndcube_3d_ln_lt_l 2 3 4)
  ∧ getitem_shape [2; 3; 4] [Ellipsis; Int 0] = Ok [2; 3]
  ∧ ∃ c', getitem (ndcube_3d_ln_lt_l 2 3 4) [Ellipsis; Int 0] = Ok c'
          ∧ data c' = [2; 3] ∧ pixel_n_dim (wcs c') = 2 ∧ array_shape (wcs c') = [2; 3].
Proof.
  assert (well_formed (ndcube_3d_ln_lt_l 2 3 4)) as Hwf.
  { split; [reflexivity|]. split; intros s [= <-]; reflexivity. }
  split; [exact Hwf|]. split; [reflexivity|].
  destruct (proj1 (sliced_cube_shape_and_dimensionality (ndcube_3d_ln_lt_l 2 3 4)
                     [Ellipsis; Int 0] Hwf) [2; 3] eq_refl)
    as (c' & item & Hg & Hd & Hn & _ & Hp & Ha & _).
  exists c'. split; [exact Hg|]. split; [exact Hd|]. split.
  - rewrite Hp. injection Hn as <-. reflexivity.
  - rewrite Ha. exact Hd.
Defined.

(** The test cube is the instance with wavelength first among both the
    pixel and the world axes. *)
Lemma wcs_3d_l_lt_ln_is_celestial_spectral n_lon n_lat n_wl :
  wcs_3d_l_lt_ln n_lon n_lat n_wl
  = celestial_spectral_wcs 0 0 [n_lon; n_lat; n_wl] [em_wl; hpc_lat; hpc_lon].
Proof. reflexivity. Qed.

(** Whatever the order of the axes: an explicit index with one integer,
    on a celestial axis, leaves two pixel axes and all three world axes,
    and a surviving pixel axis is correlated with a world axis exactly
    when both are celestial or both are the wavelength axis. *)
Lemma split_celestial_any_order pw ww shape types item s :
  pw < 3 → ww < 3 → length shape = 3 → length types = 3 →
  select shape item = Ok s →
  length (filter (λ it, is_Int it = true) item) = 1 →
  pixel_keep item !! pw = Some true →
  pixel_n_dim (slice_wcs (celestial_spectral_wcs pw ww shape types) item) = 2
  ∧ world_n_dim (slice_wcs (celestial_spectral_wcs pw ww shape types) item) = 3
  ∧ world_axis_physical_types (slice_wcs (celestial_spectral_wcs pw ww shape types) item)
    = types
  ∧ axis_correlation_matrix (slice_wcs (celestial_spectral_wcs pw ww shape types) item)
    = (λ r, (λ p, Bool.eqb (r =? ww) (p =? pw)) <$> keep (pixel_keep item) [0; 1; 2])
        <$> [0; 1; 2].
Proof.
  intros Hpw Hww Hshape Htypes Hs Hone Hkeep.
  pose proof (select_length _ _ _ Hs) as Hlen. rewrite Hshape in Hlen.
  destruct shape as [|n0 [|n1 [|n2 [|]]]]; try done.
  destruct types as [|t0 [|t1 [|t2 [|]]]]; try done.
  destruct item as [|a0 [|a1 [|a2 [|]]]]; try done.
  destruct pw as [|[|[|]]]; [| | |lia];
  (destruct ww as [|[|[|]]]; [| | |lia]);
  destruct a0, a1, a2; try done.
Qed.

(** C2: on the three-dimensional cube with array axes (lon, lat,
    wavelength), an index that puts an integer on exactly one of the two
    celestial axes and slices on the other two axes gives a cube whose
    WCS has two pixel axes and three world axes, the physical types
    latitude, longitude and wavelength, and the correlation matrix
    [[True, False], [False, True], [False, True]]: the wavelength pixel
    axis is correlated with wavelength only, the remaining celestial
    pixel axis with both celestial world axes and not with wavelength.
    The last description holds in any order of the axes. *)
Theorem split_celestial_correlation :
  (∀ n_lon n_lat n_wl index a0 a1 a2 c',
     normalize 3 index = Ok [a0; a1; a2] →
     is_Int a0 ≠ is_Int a1 →
     is_Int a2 = false →
     getitem (ndcube_3d_ln_lt_l n_lon n_lat n_wl) index = Ok c' →
     pixel_n_dim (wcs c') = 2
     ∧ world_n_dim (wcs c') = 3
     ∧ list_to_set (world_axis_physical_types (wcs c'))
       =@{gset string} {[hpc_lat; hpc_lon; em_wl]}
     ∧ axis_correlation_matrix (wcs c') = [[true; false]; [false; true]; [false; true]]
     ∧ length (data c') = 2)
  ∧ (∀ pw ww shape types item s,
       pw < 3 → ww < 3 → length shape = 3 → length types = 3 →
       select shape item = Ok s →
       length (filter (λ it, is_Int it = true) item) = 1 →
       pixel_keep item !! pw = Some true →
       pixel_n_dim (slice_wcs (celestial_spectral_wcs pw ww shape types) item) = 2
       ∧ world_n_dim (slice_wcs (celestial_spectral_wcs pw ww shape types) item) = 3
       ∧ world_axis_physical_types (slice_wcs (celestial_spectral_wcs pw ww shape types) item)
         = types
       ∧ axis_correlation_matrix (slice_wcs (celestial_spectral_wcs pw ww shape types) item)
         = (λ r, (λ p, Bool.eqb (r =? ww) (p =? pw)) <$> keep (pixel_keep item) [0; 1; 2])
             <$> [0; 1; 2]).
Proof.
  split; [|apply split_celestial_any_order].
  intros n_lon n_lat n_wl index a0 a1 a2 c' Hn H01 H2.
  unfold getitem, ndcube_3d_ln_lt_l.
  cbn [data uncertainty mask wcs length select_opt].
  rewrite Hn. cbn [rbind].
  destruct (select _ _) as [s|] eqn:Hs; [|done]. cbn [rbind]. intros [= <-].
  cbn [wcs data].
  assert (length s = 2) as Hlen.
  { rewrite (select_keep _ _ _ Hs). rewrite length_keep_kept by done.
    destruct a0, a1, a2; done. }
  split; [|split; [|split; [|split; [|done]]]].
  - destruct a0, a1, a2; done.
  - destruct a0, a1, a2; done.
  - assert (world_axis_physical_types
              (slice_wcs (wcs_3d_l_lt_ln n_lon n_lat n_wl) [a0; a1; a2])
            = [em_wl; hpc_lat; hpc_lon]) as -> by (destruct a0, a1, a2; done).
    set_solver.
  - destruct a0, a1, a2; done.
Qed.

Lemma split_celestial_correlation_witness :
  normalize 3 [Int 0; Ellipsis] = Ok [Int 0; full_slice; full_slice]
  ∧ is_Int (Int 0) ≠ is_Int full_slice
  ∧ is_Int full_slice = false
  ∧ ∃ c', getitem (ndcube_3d_ln_lt_l 2 3 4) [Int 0; Ellipsis] = Ok c'
          ∧ data c' = [3; 4]
          ∧ axis_correlation_matrix (wcs c') = [[true; false]; [false; true]; [false; true]].
Proof.
  split; [reflexivity|]. split; [discriminate|]. split; [reflexivity|].
  eexists. split; [reflexivity|]. split; [reflexivity|].
  refine (proj1 (proj2 (proj2 (proj2 (proj1 split_celestial_correlation 2 3 4 [Int 0; Ellipsis]
            (Int 0) full_slice full_slice _ eq_refl _ eq_refl eq_refl))))).
  discriminate.
Defined.

End cube_properties.

(** ** World coordinates on pixel edges *)

Module coords_properties.
Import coords coords_vocabulary.

Open Scope Q_scope.

Lemma pixel_to_world_values_affine ax p :
  pixel_to_world_values ax p == pixel_to_world_values ax 0 + cdelt ax * p.
Proof. unfold pixel_to_world_values. ring. Qed.

Lemma length_pixel_centers n : length (pixel_centers n) = n.
Proof. unfold pixel_centers. by rewrite length_fmap, length_seq. Qed.

Lemma length_pixel_edges n : length (pixel_edges n) = S n.
Proof. unfold pixel_edges. by rewrite length_fmap, length_seq. Qed.

(** The edge grid is the centre grid moved down by one half, followed by
    the last centre moved up by one half; equivalently it starts half a
    pixel below the first centre and continues with every centre moved
    up by one half. *)
Lemma pixel_edges_below n :
  pixel_edges n
  = ((λ c, c - (1 # 2)) <$> pixel_centers n) ++ [inject_Z (Z.of_nat n) - (1 # 2)].
Proof.
  unfold pixel_edges, pixel_centers. rewrite seq_S, fmap_app, <- list_fmap_compose. done.
Qed.

Lemma pixel_edges_above n :
  Forall2 Qeq (pixel_edges n) ((0 - (1 # 2)) :: ((λ c, c + (1 # 2)) <$> pixel_centers n)).
Proof.
  unfold pixel_edges, pixel_centers. cbn [seq fmap list_fmap].
  constructor; [reflexivity|].
  rewrite <- seq_shift, <- !list_fmap_compose.
  apply Forall2_fmap, Forall_Forall2_diag, Forall_forall. intros i _. cbn.
  rewrite Nat2Z.inj_succ. unfold Z.succ. rewrite inject_Z_plus. ring.
Qed.

(** C7: with [edges=True] the world coordinates are computed on the grid
    of pixel edges, the pixel centres moved by -0.5 and +0.5, so that an
    axis of n pixels gives n+1 values; on the four-pixel wavelength axis
    whose centre values are 1.02e-9, 1.04e-9, 1.06e-9, 1.08e-9 m the edge
    values are 1.01e-9, 1.03e-9, 1.05e-9, 1.07e-9, 1.09e-9 m. *)
Theorem edge_values_of_wavelength_axis (ax : LinearAxis) :
  length (axis_world_coords_values ax false) = n_pixels ax
  ∧ length (axis_world_coords_values ax true) = S (n_pixels ax)
  ∧ axis_world_coords_values ax true
    = pixel_to_world_values ax <$>
        (((λ c, c - (1 # 2)) <$> pixel_centers (n_pixels ax))
         ++ [inject_Z (Z.of_nat (n_pixels ax)) - (1 # 2)])
  ∧ Forall2 Qeq (pixel_edges (n_pixels ax))
      ((0 - (1 # 2)) :: ((λ c, c + (1 # 2)) <$> pixel_centers (n_pixels ax)))
  ∧ (n_pixels ax = 4%nat →
     Forall2 Qeq (axis_world_coords_values ax false)
                 (nano_hundredths <$> [102; 104; 106; 108]%Z) →
     Forall2 Qeq (axis_world_coords_values ax true)
                 (nano_hundredths <$> [101; 103; 105; 107; 109]%Z)).
Proof.
  split; [|split; [|split; [|split]]].
  - unfold axis_world_coords_values. by rewrite length_fmap, length_pixel_centers.
  - unfold axis_world_coords_values. by rewrite length_fmap, length_pixel_edges.
  - unfold axis_world_coords_values. by rewrite pixel_edges_below.
  - apply pixel_edges_above.
  - intros Hn Hc. unfold axis_world_coords_values in *. rewrite Hn in *.
    cbn [pixel_centers pixel_edges seq fmap list_fmap] in *.
    apply Forall2_cons_1 in Hc as [H0 Hc]. apply Forall2_cons_1 in Hc as [H1 _].
    rewrite pixel_to_world_values_affine in H1.
    unfold nano_hundredths in *.
    change (inject_Z (Z.of_nat 0)) with 0 in *.
    change (inject_Z (Z.of_nat 1)) with 1 in *.
    change (inject_Z (Z.of_nat 2)) with 2.
    change (inject_Z (Z.of_nat 3)) with 3.
    change (inject_Z (Z.of_nat 4)) with 4.
    repeat (constructor; [rewrite pixel_to_world_values_affine; lra|]).
    constructor.
Qed.

Lemma edge_values_of_wavelength_axis_witness :
  n_pixels wavelength_axis = 4%nat
  ∧ Forall2 Qeq (axis_world_coords_values wavelength_axis false)
                (nano_hundredths <$> [102; 104; 106; 108]%Z)
  ∧ Forall2 Qeq (axis_world_coords_values wavelength_axis true)
                (nano_hundredths <$> [101; 103; 105; 107; 109]%Z).
Proof.
  assert (Forall2 Qeq (axis_world_coords_values wavelength_axis false)
                      (nano_hundredths <$> [102; 104; 106; 108]%Z)) as Hc.
  { repeat (constructor; [reflexivity|]). constructor. }
  split; [reflexivity|]. split; [exact Hc|].
  destruct (edge_values_of_wavelength_axis wavelength_axis) as (_ & _ & _ & _ & H).
  exact (H eq_refl Hc).
Defined.

End coords_properties.

(** ** [unique_sorted] *)

Module unique_sorted_facts.
Import misc_helpers.

Section facts.
Context `{Countable A}.
Implicit Types (lookup : gset A) (iterable : list A).

Lemma elem_of_unique_sorted_from lookup iterable x :
  x ∈ unique_sorted_from lookup iterable ↔ x ∈ iterable ∧ x ∉ lookup.
Proof.
  revert lookup. induction iterable as [|ele rest IH]; intros lookup; simpl.
  - rewrite !elem_of_nil. tauto.
  - case_decide as Hele.
    + rewrite !elem_of_cons, IH. split.
      * intros [->|[? ?]]; [by split; [left|]|]. split; [by right|set_solver].
      * intros [[->|?] ?]; [by left|].
        destruct (decide (x = ele)) as [->|]; [by left|right]. split; [done|set_solver].
    + rewrite IH, elem_of_cons. split; [intros [??]; by split; [right|]|].
      intros [[->|?] ?]; [|done]. exfalso. tauto.
Qed.

Lemma NoDup_unique_sorted_from lookup iterable :
  NoDup (unique_sorted_from lookup iterable).
Proof.
  revert lookup. induction iterable as [|ele rest IH]; intros lookup; simpl.
  - constructor.
  - case_decide; [|apply IH]. constructor; [|apply IH].
    rewrite elem_of_unique_sorted_from. set_solver.
Qed.

Lemma unique_sorted_from_NoDup lookup iterable :
  NoDup iterable → Forall (λ x, x ∉ lookup) iterable →
  unique_sorted_from lookup iterable = iterable.
Proof.
  revert lookup. induction iterable as [|ele rest IH]; intros lookup Hnd Hout; [done|].
  apply NoDup_cons in Hnd as [Hele Hnd]. apply Forall_cons in Hout as [Hout1 Hout].
  simpl. rewrite decide_True by done. f_equal. apply IH; [done|].
  eapply Forall_forall. intros x Hx.
  rewrite Forall_forall in Hout. specialize (Hout x Hx). set_solver.
Qed.

Lemma unique_sorted_from_app lookup l1 l2 :
  unique_sorted_from lookup (l1 ++ l2)
  = unique_sorted_from lookup l1 ++ unique_sorted_from (list_to_set l1 ∪ lookup) l2.
Proof.
  revert lookup. induction l1 as [|ele rest IH]; intros lookup; simpl.
  - f_equal. set_solver.
  - case_decide as Hele.
    + rewrite IH. simpl. do 3 f_equal. set_solver.
    + rewrite IH. do 2 f_equal. set_solver.
Qed.

Lemma unique_sorted_from_union lookup seen iterable :
  unique_sorted_from (seen ∪ lookup) iterable
  = filter (λ x, x ∉ seen) (unique_sorted_from lookup iterable).
Proof.
  revert lookup. induction iterable as [|ele rest IH]; intros lookup; simpl; [done|].
  destruct (decide (ele ∉ lookup)) as [Hl|Hl].
  - destruct (decide (ele ∈ seen)) as [Hs|Hs].
    + rewrite decide_False by set_solver.
      rewrite filter_cons_False by (intros Hn; by apply Hn).
      rewrite <- IH. f_equal. set_solver.
    + rewrite decide_True by set_solver.
      rewrite filter_cons_True by done. f_equal.
      rewrite <- IH. f_equal. set_solver.
  - rewrite decide_False by set_solver. apply IH.
Qed.

Lemma unique_sorted_from_sublist lookup iterable :
  unique_sorted_from lookup iterable `sublist_of` iterable.
Proof.
  revert lookup. induction iterable as [|ele rest IH]; intros lookup; simpl; [done|].
  case_decide; [by apply sublist_skip|by apply sublist_cons].
Qed.

End facts.
End unique_sorted_facts.

Module unique_sorted_properties.
Import misc_helpers unique_sorted_facts.

(** X1: the list that [unique_sorted] returns has no element twice, and
    it has exactly the elements of its input. *)
Theorem unique_sorted_distinct_and_complete `{Countable A} (iterable : list A) :
  NoDup (unique_sorted iterable)
  ∧ ∀ x, x ∈ unique_sorted iterable ↔ x ∈ iterable.
Proof.
  split; [apply NoDup_unique_sorted_from|].
  intros x. unfold unique_sorted. rewrite elem_of_unique_sorted_from. set_solver.
Qed.

(** X2: [unique_sorted] does not sort.  It keeps the first occurrence of
    every element, in the order of the input: the result is the input with
    some entries left out, and the result for a concatenation is the
    result for the first part followed by what the second part adds. *)
Theorem unique_sorted_keeps_first_occurrences `{Countable A} (l1 l2 : list A) :
  unique_sorted (l1 ++ l2) `sublist_of` l1 ++ l2
  ∧ unique_sorted (l1 ++ l2)
    = unique_sorted l1 ++ filter (λ x, x ∉ l1) (unique_sorted l2)
  ∧ unique_sorted [3; 1; 3; 2; 1] = [3; 1; 2].
Proof.
  split; [apply unique_sorted_from_sublist|]. split; [|reflexivity].
  unfold unique_sorted. rewrite unique_sorted_from_app. f_equal.
  rewrite unique_sorted_from_union. apply list_filter_iff.
  intros x. by rewrite elem_of_list_to_set.
Qed.

(** X3: [unique_sorted] returns its input as it is exactly when the input
    has no element twice; applying it a second time changes nothing, and
    the result is never longer than the input. *)
Theorem unique_sorted_fixes_duplicate_free `{Countable A} (iterable : list A) :
  (unique_sorted iterable = iterable ↔ NoDup iterable)
  ∧ unique_sorted (unique_sorted iterable) = unique_sorted iterable
  ∧ length (unique_sorted iterable) ≤ length iterable.
Proof.
  assert (∀ l : list A, NoDup l → unique_sorted l = l) as Hfix.
  { intros l Hnd. apply unique_sorted_from_NoDup; [done|].
    apply Forall_forall. set_solver. }
  split; [split|split].
  - intros <-. apply NoDup_unique_sorted_from.
  - apply Hfix.
  - apply Hfix, NoDup_unique_sorted_from.
  - apply sublist_length, unique_sorted_from_sublist.
Qed.

End unique_sorted_properties.

(** ** More on [sanitize_corners] and [sanitize_crop_inputs] *)

Module corner_facts.
Import misc misc_helpers crop_vocabulary helpers_vocabulary misc_facts.

Lemma live_weaken (σ σ' : store) corner : σ ⊆ σ' → live σ corner → live σ' corner.
Proof.
  intros Hsub. destruct corner as [| | |l]; simpl; try done.
  by apply (subseteq_dom σ σ').
Qed.

Lemma items_of_weaken (σ σ' : store) corner :
  σ ⊆ σ' → live σ corner → items_of σ' corner = items_of σ corner.
Proof.
  intros Hsub. destruct corner as [| | |l]; simpl; try done.
  intros [items Hl]%elem_of_dom. unfold lookup_total, map_lookup_total.
  by rewrite Hl, (lookup_weaken _ _ _ _ Hl Hsub).
Qed.

(** Each corner input becomes a list object of its own, new to the store,
    that holds the input's coordinate objects. *)
Lemma mapM_corner_as_list_items corners σ :
  Forall (live σ) corners →
  ∃ ls σ', mapM corner_as_list corners σ = (Ok ls, σ') ∧ σ ⊆ σ' ∧ NoDup ls
           ∧ Forall2 (λ l corner, (l ∉ dom σ) ∧ σ' !! l = Some (items_of σ corner)) ls corners.
Proof.
  revert σ. induction corners as [|c corners IH]; intros σ Hlive.
  - exists [], σ. split; [done|]. split; [done|]. split; constructor.
  - apply Forall_cons in Hlive as [Hc Hlive].
    pose proof (is_fresh (dom σ)) as Hfresh.
    assert (σ ⊆ <[fresh (dom σ) := items_of σ c]> σ) as Hsub1
      by by apply insert_subseteq, not_elem_of_dom.
    destruct (IH (<[fresh (dom σ) := items_of σ c]> σ)) as (ls & σ2 & E2 & Hsub2 & Hnd & HF).
    { eapply Forall_impl; [exact Hlive|]. intros c'. by apply live_weaken. }
    exists (fresh (dom σ) :: ls), σ2. cbn [mapM]. unfold bind at 1.
    rewrite corner_as_list_eq. unfold bind at 1. rewrite E2.
    split; [reflexivity|]. split; [by etrans|]. split.
    + constructor; [|done]. intros Hin.
      apply list_elem_of_lookup in Hin as [i Hi].
      destruct (Forall2_lookup_l _ _ _ _ _ HF Hi) as (c' & _ & Hout & _).
      apply Hout. rewrite dom_insert. set_solver.
    + constructor.
      * split; [done|]. eapply lookup_weaken; [|exact Hsub2]. apply lookup_insert_eq.
      * apply Forall2_same_length_lookup. split; [by eapply Forall2_length|].
        intros i l c' Hl Hc'.
        destruct (Forall2_lookup_lr _ _ _ _ _ _ HF Hl Hc') as [Hout Hitems]. split.
        -- by eapply not_in_dom_weaken.
        -- rewrite Hitems. f_equal. apply items_of_weaken; [done|].
           by eapply (proj1 (Forall_lookup _ _) Hlive).
Qed.

Lemma mapM_len_values ls σ :
  mapM len ls σ = (Ok ((λ l, length (σ !!! l)) <$> ls), σ).
Proof.
  induction ls as [|l ls IH]; [done|].
  cbn [mapM]. unfold bind at 1. unfold len at 1, bind at 1, read at 1.
  unfold ret at 1. unfold bind at 1. by rewrite IH.
Qed.

(** A list of lengths forms a one-element set exactly when it is not
    empty and its entries are all the same. *)
Lemma size_lengths_one (ns : list nat) :
  size (list_to_set ns : gset nat) = 1 ↔ ns ≠ [] ∧ ∃ n, Forall (eq n) ns.
Proof.
  split.
  - intros Hsize. split; [by intros ->|].
    apply size_1_elem_of in Hsize as [n Hn]. exists n.
    apply Forall_forall. intros m Hm. symmetry.
    assert (m ∈ (list_to_set ns : gset nat)) as Hm' by by apply elem_of_list_to_set.
    rewrite Hn in Hm'. by apply elem_of_singleton in Hm'.
  - intros [Hne [n Hall]].
    assert (list_to_set ns =@{gset nat} {[n]}) as ->; [|apply size_singleton].
    apply set_eq. intros m. rewrite elem_of_list_to_set, elem_of_singleton.
    rewrite Forall_forall in Hall. split; [intros Hm; symmetry; by apply Hall|].
    intros ->. destruct ns as [|n' ns]; [done|].
    rewrite (Hall n') by left. left.
Qed.

(** [sanitize_corners] on any number of corner inputs, in closed form. *)
Lemma sanitize_corners_many σ corners :
  Forall (live σ) corners →
  ∃ ls σ',
    sanitize_corners corners σ
    = (if decide (size (list_to_set (lengths_of σ corners) : gset nat) ≠ 1)
       then Raise (ValueError (corner_length_message +:+ repr_int_list (lengths_of σ corners)))
       else Ok ls, σ')
    ∧ NoDup ls
    ∧ Forall2 (λ l corner, (l ∉ dom σ) ∧ σ' !! l = Some (items_of σ corner)) ls corners.
Proof.
  intros Hlive.
  destruct (mapM_corner_as_list_items corners σ Hlive) as (ls & σ' & E & _ & Hnd & HF).
  exists ls, σ'. split; [|done].
  unfold sanitize_corners. unfold bind at 1. rewrite E.
  unfold bind at 1. rewrite mapM_len_values.
  assert ((λ l, length (σ' !!! l)) <$> ls = lengths_of σ corners) as ->.
  { unfold lengths_of. clear E Hnd Hlive. induction HF as [|l c ls cs [_ Hl] HF IH]; [done|].
    cbn [fmap list_fmap]. f_equal; [|exact IH].
    unfold lookup_total, map_lookup_total. by rewrite Hl. }
  by case_decide.
Qed.

End corner_facts.

Module corner_properties.
Import misc misc_helpers crop_vocabulary helpers_vocabulary misc_facts corner_facts.

(** X4: [sanitize_corners] takes any number of corner inputs.  It returns
    exactly when there is at least one input and all inputs have the same
    number of coordinate objects; it then returns one list per input, in
    the order of the inputs: pairwise distinct new list objects that
    hold the inputs' coordinate objects.  In every other case, the call
    without any input included, it raises the [ValueError] whose message
    prints the list of lengths. *)
Theorem sanitize_corners_any_number σ corners :
  Forall (live σ) corners →
  (corners ≠ [] ∧ (∃ n, Forall (eq n) (lengths_of σ corners)) →
     ∃ lists σ',
       sanitize_corners corners σ = (Ok lists, σ')
       ∧ NoDup lists
       ∧ Forall2 (λ l corner, (l ∉ dom σ) ∧ σ' !! l = Some (items_of σ corner)) lists corners)
  ∧ (¬ (corners ≠ [] ∧ ∃ n, Forall (eq n) (lengths_of σ corners)) →
     (sanitize_corners corners σ).1
     = Raise (ValueError (corner_length_message +:+ repr_int_list (lengths_of σ corners))))
  ∧ (sanitize_corners [] σ).1
    = Raise (ValueError
        "All corner inputs must have same number of coordinate objects. Lengths of corner objects: []").
Proof.
  intros Hlive.
  destruct (sanitize_corners_many σ corners Hlive) as (ls & σ' & E & Hnd & HF).
  assert (lengths_of σ corners ≠ [] ↔ corners ≠ []) as Hne.
  { unfold lengths_of. by destruct corners. }
  split; [|split; [|reflexivity]].
  - intros [Hc Hall]. exists ls, σ'. split; [|done].
    rewrite E. rewrite decide_False; [done|].
    intros Hs. apply Hs. apply size_lengths_one. split; [by apply Hne|done].
  - intros Hnot. rewrite E. rewrite decide_True; [done|].
    intros [Hc Hall]%size_lengths_one. apply Hnot. split; [by apply Hne|done].
Qed.

Lemma sanitize_corners_any_number_witness :
  Forall (live ∅) [PCoord 1; PTuple [PNone]; PNone]
  ∧ (∃ lists σ',
       sanitize_corners [PCoord 1; PTuple [PNone]; PNone] ∅ = (Ok lists, σ')
       ∧ NoDup lists
       ∧ Forall2 (λ l corner, (l ∉ dom (∅ : store)) ∧ σ' !! l = Some (items_of ∅ corner))
           lists [PCoord 1; PTuple [PNone]; PNone]).
Proof.
  assert (Forall (live ∅) [PCoord 1; PTuple [PNone]; PNone]) as Hlive
    by (repeat constructor).
  split; [exact Hlive|].
  apply (sanitize_corners_any_number ∅ [PCoord 1; PTuple [PNone]; PNone] Hlive).
  split; [discriminate|]. exists 1. repeat constructor.
Defined.

End corner_properties.

Module crop_outcome_facts.
Import misc misc_helpers crop_vocabulary helpers_vocabulary misc_facts.

Lemma guard_empty : ∃ msg, guard [] [] = Raise (TypeError msg).
Proof. by eexists. Qed.

Lemma equal_length_nil (lower upper : list pyval) :
  length lower = length upper → lower = [] → upper = [].
Proof. intros Hlen ->. symmetry in Hlen. by apply length_zero_iff_nil. Qed.

(** Every way in which [sanitize_crop_inputs] returns. *)
Lemma sanitize_crop_inputs_returns list_of_set σ lower upper wcs out σ' :
  live σ upper →
  sanitize_crop_inputs list_of_set lower upper wcs σ = (Ok out, σ') →
  length (items_of σ lower) = length (items_of σ upper)
  ∧ items_of σ lower ≠ []
  ∧ ∃ flag wcs' k,
      out = (flag, lower_loc σ, upper_loc σ lower, wcs')
      ∧ σ' !! lower_loc σ = Some (items_of σ lower ++ replicate k PNone)
      ∧ σ' !! upper_loc σ lower = Some (items_of σ upper ++ replicate k PNone)
      ∧ (flag = true ↔ Forall2 both_None (items_of σ lower) (items_of σ upper))
      ∧ (flag = true → k = 0 ∧ wcs' = wcs)
      ∧ (is_ExtraCoords wcs = false → k = 0 ∧ wcs' = wcs)
      ∧ (flag = false → k = uncovered_axes wcs ∧ (k = 0 ∨ k = 2)).
Proof.
  intros Hl E.
  destruct (decide (length (items_of σ lower) = length (items_of σ upper))) as [Hlen|Hlen];
    [|by rewrite sanitize_crop_inputs_mismatch in E].
  split; [done|].
  rewrite sanitize_crop_inputs_prefix in E by done.
  assert (items_of σ lower ≠ []) as Hne.
  { intros Hlo. rewrite Hlo, (equal_length_nil _ _ Hlen Hlo) in E. by cbn in E. }
  split; [done|].
  rewrite guard_nonempty in E by done.
  pose proof (all_both_None _ _ Hlen) as Hall.
  destruct (forallb id _) eqn:Hb.
  - injection E as <- <-. exists true, wcs, 0. rewrite !app_nil_r.
    split; [done|]. split; [apply corners_store_lower|].
    split; [apply corners_store_upper|]. split; [by split; [intros _; apply Hall|]|].
    by repeat split.
  - assert (false = true ↔ Forall2 both_None (items_of σ lower) (items_of σ upper)) as Hflag.
    { split; [done|]. intros HF%Hall. done. }
    destruct wcs as [w|wcss mapping|mapping ec_wcs dimensions].
    + injection E as <- <-. exists false, (AstropyWCS w), 0. rewrite !app_nil_r.
      split; [done|]. split; [apply corners_store_lower|].
      split; [apply corners_store_upper|]. split; [done|]. split; [done|].
      split; [done|]. intros _. split; [done|by left].
    + injection E as <- <-. exists false, (CompoundLowLevelWCS wcss mapping), 0.
      rewrite !app_nil_r.
      split; [done|]. split; [apply corners_store_lower|].
      split; [apply corners_store_upper|]. split; [done|]. split; [done|].
      split; [done|]. intros _. split; [done|by left].
    + cbv zeta in E. unfold bind at 1 in E. case_decide as Hd.
      * unfold bind at 1, lift at 1 in E.
        destruct (decide (size (dummy_axes_of mapping (length dimensions)) = 2)) as [Hs|Hs];
          [|by rewrite make_dummy_wcs_other in E].
        rewrite Hs, make_dummy_wcs_two in E. unfold lift at 1 in E.
        destruct (CompoundLowLevelWCS_init _ _) as [w|e]; [|done].
        cbv beta iota in E.
        edestruct (extend_corners σ lower upper (replicate 2 PNone)) as (σ'' & Hrun & Hlo & Hup).
        rewrite Hrun in E. injection E as <- <-.
        eexists false, _, 2. split; [done|]. split; [done|]. split; [done|].
        split; [done|]. split; [done|]. split; [done|].
        intros _. simpl. split; [done|by right].
      * unfold ret at 1 in E. rewrite Hd, size_empty in E.
        edestruct (extend_corners σ lower upper (replicate 0 PNone)) as (σ'' & Hrun & Hlo & Hup).
        rewrite Hrun in E. injection E as <- <-.
        eexists false, _, 0. split; [done|]. split; [done|]. split; [done|].
        split; [done|]. split; [done|]. split; [done|].
        intros _. simpl. rewrite Hd, size_empty. split; [done|by left].
Qed.

(** With two uncovered axes, [sanitize_crop_inputs] returns only for a
    table whose WCS has one pixel axis per entry of its mapping. *)
Lemma sanitize_crop_inputs_returns_compound list_of_set σ lower upper wcs lower' upper' wcs' σ' :
  enumerates list_of_set →
  live σ upper →
  sanitize_crop_inputs list_of_set lower upper wcs σ = (Ok (false, lower', upper', wcs'), σ') →
  uncovered_axes wcs = 2 →
  one_pixel_axis_per_entry wcs.
Proof.
  intros Hen Hl E Hu.
  destruct wcs as [w|wcss mapping|mapping ec_wcs dimensions]; [done|done|].
  simpl in Hu |- *.
  destruct (decide (length (items_of σ lower) = length (items_of σ upper))) as [Hlen|Hlen];
    [|by rewrite sanitize_crop_inputs_mismatch in E].
  rewrite sanitize_crop_inputs_prefix in E by done.
  destruct (decide (items_of σ lower = [])) as [Hlo|Hne].
  { rewrite Hlo, (equal_length_nil _ _ Hlen Hlo) in E. by cbn in E. }
  rewrite guard_nonempty in E by done.
  destruct (forallb id _) eqn:Hb; [by injection E|].
  cbv zeta in E. unfold bind at 1 in E. case_decide as Hd.
  2:{ by rewrite Hd, size_empty in Hu. }
  unfold bind at 1, lift at 1 in E.
  rewrite Hu, make_dummy_wcs_two in E.
  rewrite compound_of_table in E by done.
  by case_decide.
Qed.

(** Every way in which [sanitize_crop_inputs] raises. *)
Lemma sanitize_crop_inputs_raises list_of_set σ lower upper wcs e :
  enumerates list_of_set →
  live σ upper →
  (sanitize_crop_inputs list_of_set lower upper wcs σ).1 = Raise e →
  (length (items_of σ lower) ≠ length (items_of σ upper)
   ∧ e = ValueError (corner_length_message +:+
           repr_int_list [length (items_of σ lower); length (items_of σ upper)]))
  ∨ (items_of σ lower = [] ∧ items_of σ upper = [] ∧ ∃ msg, e = TypeError msg)
  ∨ (length (items_of σ lower) = length (items_of σ upper)
     ∧ ¬ Forall2 both_None (items_of σ lower) (items_of σ upper)
     ∧ uncovered_axes wcs ≠ 0 ∧ uncovered_axes wcs ≠ 2
     ∧ e = wrong_shape "crpix" (uncovered_axes wcs))
  ∨ (length (items_of σ lower) = length (items_of σ upper)
     ∧ ¬ Forall2 both_None (items_of σ lower) (items_of σ upper)
     ∧ uncovered_axes wcs = 2 ∧ ¬ one_pixel_axis_per_entry wcs
     ∧ e = ValueError mapping_length_message).
Proof.
  intros Hen Hl E.
  destruct (decide (length (items_of σ lower) = length (items_of σ upper))) as [Hlen|Hlen].
  2:{ rewrite sanitize_crop_inputs_mismatch in E by done. left. split; [done|].
      simpl in E. by injection E as <-. }
  right. rewrite sanitize_crop_inputs_prefix in E by done.
  destruct (decide (items_of σ lower = [])) as [Hlo|Hne].
  { left. split; [done|]. pose proof (equal_length_nil _ _ Hlen Hlo) as Hup.
    split; [done|]. rewrite Hlo, Hup in E. cbn in E. injection E as <-. by eexists. }
  right.
  rewrite guard_nonempty in E by done.
  pose proof (all_both_None _ _ Hlen) as Hall.
  destruct (forallb id _) eqn:Hb; [done|].
  assert (¬ Forall2 both_None (items_of σ lower) (items_of σ upper)) as HF.
  { intros HF%Hall. done. }
  destruct wcs as [w|wcss mapping|mapping ec_wcs dimensions]; [done|done|].
  cbv zeta in E. unfold bind at 1 in E. simpl. case_decide as Hd.
  - unfold bind at 1, lift at 1 in E.
    destruct (decide (size (dummy_axes_of mapping (length dimensions)) = 2)) as [Hs|Hs].
    + right. rewrite Hs, make_dummy_wcs_two in E.
      rewrite compound_of_table in E by done.
      case_decide as Hfit.
      * unfold lift at 1 in E. cbv beta iota in E.
        edestruct (extend_corners σ lower upper (replicate 2 PNone)) as (σ'' & Hrun & _).
        by rewrite Hrun in E.
      * simpl in E. injection E as <-. done.
    + left. rewrite make_dummy_wcs_other in E by done. simpl in E. injection E as <-.
      split; [done|]. split; [done|]. split; [|done].
      intros Hz. apply Hd. by apply size_empty_iff, leibniz_equiv in Hz.
  - unfold ret at 1 in E.
    edestruct (extend_corners σ lower upper
                 (replicate (size (dummy_axes_of mapping (length dimensions))) PNone))
      as (σ'' & Hrun & _).
    by rewrite Hrun in E.
Qed.

End crop_outcome_facts.

Module crop_outcome_properties.
Import misc misc_helpers crop_vocabulary helpers_vocabulary misc_facts crop_outcome_facts.

(** X5: [sanitize_crop_inputs] returns exactly when the two corners have
    the same, non-zero number of coordinate objects and one of these
    holds: every entry of both is [None]; the coordinate source leaves no
    array axis uncovered (so it is for every source that is not an
    [ExtraCoords] table); or it leaves two uncovered and the table's own
    WCS has one pixel axis per entry of the table's mapping, so that the
    constructor of the compound WCS accepts the extended mapping.  In
    every other case the call raises. *)
Theorem sanitize_crop_inputs_returns_exactly_when list_of_set σ lower upper wcs :
  enumerates list_of_set →
  live σ upper →
  (∃ out σ', sanitize_crop_inputs list_of_set lower upper wcs σ = (Ok out, σ'))
  ↔ length (items_of σ lower) = length (items_of σ upper)
    ∧ items_of σ lower ≠ []
    ∧ (Forall2 both_None (items_of σ lower) (items_of σ upper)
       ∨ uncovered_axes wcs = 0
       ∨ (uncovered_axes wcs = 2 ∧ one_pixel_axis_per_entry wcs)).
Proof.
  intros Hen Hl. split.
  - intros (out & σ' & E).
    destruct (sanitize_crop_inputs_returns _ _ _ _ _ _ _ Hl E)
      as (Hlen & Hne & flag & wcs' & k & -> & _ & _ & Hflag & _ & _ & Hk).
    split; [done|]. split; [done|].
    destruct flag; [left; by apply Hflag|right].
    destruct (Hk eq_refl) as [-> [Hk'|Hk']]; [by left|right].
    split; [done|]. by eapply sanitize_crop_inputs_returns_compound.
  - intros (Hlen & Hne & Hcases).
    destruct (sanitize_crop_inputs list_of_set lower upper wcs σ) as [[out|e] σ'] eqn:E; [by eexists _, _|].
    exfalso.
    assert ((sanitize_crop_inputs list_of_set lower upper wcs σ).1 = Raise e) as E' by by rewrite E.
    destruct (sanitize_crop_inputs_raises _ _ _ _ _ _ Hen Hl E')
      as [[Hn _]|[[Hlo _]|[(_ & HF & H0 & H2 & _)|(_ & HF & H2 & Hfit & _)]]]; [done|done| |].
    + destruct Hcases as [?|[?|[? _]]]; done.
    + destruct Hcases as [?|[H0|[_ ?]]]; [done| |done]. by rewrite H0 in H2.
Qed.

Lemma sanitize_crop_inputs_returns_exactly_when_witness :
  enumerates an_enumeration
  ∧ live ∅ (PTuple [PCoord 2])
  ∧ ∃ out σ', sanitize_crop_inputs an_enumeration (PTuple [PCoord 1]) (PTuple [PCoord 2])
                (ExtraCoords [0] (AstropyWCS (WCS 1)) [2; 3; 4]) ∅ = (Ok out, σ').
Proof.
  assert (enumerates an_enumeration) as Hen by (intros s; reflexivity).
  split; [exact Hen|]. split; [exact I|].
  apply (sanitize_crop_inputs_returns_exactly_when an_enumeration ∅ (PTuple [PCoord 1]) (PTuple [PCoord 2])
           (ExtraCoords [0] (AstropyWCS (WCS 1)) [2; 3; 4]) Hen I).
  split; [reflexivity|]. split; [discriminate|]. right. right.
  split; [by vm_compute|reflexivity].
Defined.

(** A table of one coordinate whose WCS has two pixel axes, on a cube of
    three axes: two axes are uncovered, the constructor of the compound
    WCS refuses a mapping of three entries for four pixel axes. *)
Example one_entry_for_two_pixel_axes :
  (sanitize_crop_inputs an_enumeration (PTuple [PCoord 1]) (PTuple [PCoord 2])
     (ExtraCoords [0] (AstropyWCS (WCS 2)) [2; 3; 4]) ∅).1
  = Raise (ValueError mapping_length_message).
Proof. by vm_compute. Qed.

(** X6: whenever [sanitize_crop_inputs] returns, the two corner lists it
    returns are two different list objects, both new, also when one and
    the same list was passed for both corners.  They have the same
    length; each holds the coordinate objects of its input followed by
    the same number of [None]s.  Nothing is appended, and the coordinate
    source is returned as it was given, when the no-op flag is set or
    the source is not an [ExtraCoords] table. *)
Theorem returned_corner_lists list_of_set σ lower upper wcs flag lower_corner upper_corner wcs' σ' :
  live σ upper →
  sanitize_crop_inputs list_of_set lower upper wcs σ = (Ok (flag, lower_corner, upper_corner, wcs'), σ') →
  lower_corner ≠ upper_corner
  ∧ (lower_corner ∉ dom σ) ∧ (upper_corner ∉ dom σ)
  ∧ length (σ' !!! lower_corner) = length (σ' !!! upper_corner)
  ∧ ∃ k, σ' !! lower_corner = Some (items_of σ lower ++ replicate k PNone)
       ∧ σ' !! upper_corner = Some (items_of σ upper ++ replicate k PNone)
       ∧ (flag = true ∨ is_ExtraCoords wcs = false → k = 0 ∧ wcs' = wcs).
Proof.
  intros Hl E.
  destruct (sanitize_crop_inputs_returns _ _ _ _ _ _ _ Hl E)
    as (Hlen & Hne & flag' & wcs'' & k & [= -> -> -> ->] & Hlo & Hup & _ & Hflag & Hec & _).
  split; [intros Heq; by apply (upper_loc_not_lower σ lower)|].
  split; [apply lower_loc_fresh|]. split; [apply upper_loc_not_in|].
  split.
  - unfold lookup_total, map_lookup_total. rewrite Hlo, Hup. simpl.
    rewrite !length_app. by rewrite Hlen.
  - exists k. split; [done|]. split; [done|]. intros [H|H]; [by apply Hflag|by apply Hec].
Qed.

Lemma returned_corner_lists_witness :
  live {[ 1%positive := [PCoord 1; PCoord 2] ]} (PList 1%positive)
  ∧ ∃ lower_corner upper_corner σ',
      sanitize_crop_inputs an_enumeration (PList 1%positive) (PList 1%positive) (AstropyWCS (WCS 2))
        {[ 1%positive := [PCoord 1; PCoord 2] ]}
      = (Ok (false, lower_corner, upper_corner, AstropyWCS (WCS 2)), σ')
      ∧ lower_corner ≠ upper_corner
      ∧ σ' !! lower_corner = Some [PCoord 1; PCoord 2]
      ∧ σ' !! upper_corner = Some [PCoord 1; PCoord 2].
Proof.
  assert (live {[ 1%positive := [PCoord 1; PCoord 2] ]} (PList 1%positive)) as Hl.
  { simpl. rewrite dom_singleton. by apply elem_of_singleton. }
  split; [exact Hl|].
  destruct (sanitize_crop_inputs an_enumeration (PList 1%positive) (PList 1%positive) (AstropyWCS (WCS 2))
              {[ 1%positive := [PCoord 1; PCoord 2] ]})
    as [[[[[flag lc] uc] w]|e] σ'] eqn:E; [|by vm_compute in E].
  destruct (returned_corner_lists _ _ _ _ _ _ _ _ _ _ Hl E)
    as (Hne & _ & _ & _ & k & Hlo & Hup & Hk).
  destruct (Hk (or_intror eq_refl)) as [-> ->].
  assert (flag = false) as ->.
  { vm_compute in E. by injection E as <- _ _ _. }
  exists lc, uc, σ'. split; [done|]. split; [done|].
  simpl in Hlo, Hup. by rewrite !app_nil_r in Hlo, Hup.
Defined.

(** X7: the exceptions of [sanitize_crop_inputs].  Two empty corners
    always end in a [TypeError], raised by the no-op test; every other
    exception is a [ValueError], in one of three cases: that of the
    length check, for corners of different lengths; for corners of equal
    length that are not all [None], the one raised while the dummy WCS is
    set up, when the number of uncovered axes is neither zero nor two;
    and, for such corners and two uncovered axes, the one with which the
    constructor of the compound WCS refuses the extended mapping, when
    the table's own WCS does not have one pixel axis per entry of the
    table's mapping. *)
Theorem sanitize_crop_inputs_exceptions list_of_set σ lower upper wcs :
  enumerates list_of_set →
  live σ upper →
  (items_of σ lower = [] ∧ items_of σ upper = [] →
     ∃ msg, (sanitize_crop_inputs list_of_set lower upper wcs σ).1 = Raise (TypeError msg))
  ∧ (∀ e, (sanitize_crop_inputs list_of_set lower upper wcs σ).1 = Raise e →
       (items_of σ lower = [] ∧ items_of σ upper = [] ∧ ∃ msg, e = TypeError msg)
       ∨ (length (items_of σ lower) ≠ length (items_of σ upper)
          ∧ e = ValueError (corner_length_message +:+
                  repr_int_list [length (items_of σ lower); length (items_of σ upper)]))
       ∨ (length (items_of σ lower) = length (items_of σ upper)
          ∧ ¬ Forall2 both_None (items_of σ lower) (items_of σ upper)
          ∧ uncovered_axes wcs ≠ 0 ∧ uncovered_axes wcs ≠ 2
          ∧ ∃ msg, e = ValueError msg)
       ∨ (length (items_of σ lower) = length (items_of σ upper)
          ∧ ¬ Forall2 both_None (items_of σ lower) (items_of σ upper)
          ∧ uncovered_axes wcs = 2 ∧ ¬ one_pixel_axis_per_entry wcs
          ∧ ∃ msg, e = ValueError msg))
  ∧ (length (items_of σ lower) = length (items_of σ upper) →
     ¬ Forall2 both_None (items_of σ lower) (items_of σ upper) →
     (uncovered_axes wcs ≠ 0 ∧ uncovered_axes wcs ≠ 2)
     ∨ (uncovered_axes wcs = 2 ∧ ¬ one_pixel_axis_per_entry wcs) →
     ∃ msg, (sanitize_crop_inputs list_of_set lower upper wcs σ).1 = Raise (ValueError msg)).
Proof.
  intros Hen Hl. split; [|split].
  - intros [Hlo Hup]. rewrite sanitize_crop_inputs_prefix by (done || by rewrite Hlo, Hup).
    rewrite Hlo, Hup. by eexists.
  - intros e E.
    destruct (sanitize_crop_inputs_raises _ _ _ _ _ _ Hen Hl E)
      as [[Hn ->]|[(Hlo & Hup & msg & ->)|[(Hlen & HF & H0 & H2 & ->)|(Hlen & HF & H2 & Hfit & ->)]]].
    + right. left. done.
    + left. split; [done|]. split; [done|]. by exists msg.
    + right. right. left. do 4 (split; [done|]). by eexists.
    + right. right. right. do 4 (split; [done|]). by eexists.
  - intros Hlen HF Hcases.
    destruct (sanitize_crop_inputs list_of_set lower upper wcs σ) as [[out|e] σ'] eqn:E.
    + exfalso.
      destruct (sanitize_crop_inputs_returns _ _ _ _ _ _ _ Hl E)
        as (_ & _ & flag & wcs' & k & -> & _ & _ & Hflag & _ & _ & Hk).
      destruct flag; [by apply HF, Hflag|].
      destruct (Hk eq_refl) as [-> Hk'].
      destruct Hcases as [[H0 H2]|[H2 Hfit]]; [by destruct Hk'|].
      apply Hfit. by eapply sanitize_crop_inputs_returns_compound.
    + assert ((sanitize_crop_inputs list_of_set lower upper wcs σ).1 = Raise e) as E' by by rewrite E.
      simpl.
      destruct (sanitize_crop_inputs_raises _ _ _ _ _ _ Hen Hl E')
        as [[Hn _]|[(Hlo & Hup & _)|[(_ & _ & _ & _ & ->)|(_ & _ & _ & _ & ->)]]];
        [done| |by eexists|by eexists].
      exfalso. apply HF. rewrite Hlo, Hup. constructor.
Qed.

Lemma sanitize_crop_inputs_exceptions_witness :
  enumerates an_enumeration
  ∧ live ∅ (PTuple [PCoord 2])
  ∧ (∃ msg, (sanitize_crop_inputs an_enumeration (PTuple [PCoord 1]) (PTuple [PCoord 2])
               (ExtraCoords [0] (AstropyWCS (WCS 2)) [2; 3; 4]) ∅).1
            = Raise (ValueError msg))
  ∧ (∃ msg, (sanitize_crop_inputs an_enumeration (PTuple [PCoord 1]) (PTuple [PCoord 2])
               (ExtraCoords [0] (AstropyWCS (WCS 1)) [2; 3]) ∅).1
            = Raise (ValueError msg)).
Proof.
  assert (enumerates an_enumeration) as Hen by (intros s; reflexivity).
  split; [exact Hen|]. split; [exact I|]. split.
  - apply (sanitize_crop_inputs_exceptions an_enumeration ∅ (PTuple [PCoord 1]) (PTuple [PCoord 2])
             (ExtraCoords [0] (AstropyWCS (WCS 2)) [2; 3; 4]) Hen I).
    + reflexivity.
    + intros HF. inversion HF as [|? ? ? ? [Hn _]]. discriminate Hn.
    + right. split; [by vm_compute|]. simpl. lia.
  - apply (sanitize_crop_inputs_exceptions an_enumeration ∅ (PTuple [PCoord 1]) (PTuple [PCoord 2])
             (ExtraCoords [0] (AstropyWCS (WCS 1)) [2; 3]) Hen I).
    + reflexivity.
    + intros HF. inversion HF as [|? ? ? ? [Hn _]]. discriminate Hn.
    + left. split; by vm_compute.
Defined.

End crop_outcome_properties.

(** ** Facts about [mapR] *)

Module result_facts.
Import sequence_plotting.

Lemma mapR_Ok {A B} (f : A → result B) xs ys :
  mapR f xs = Ok ys ↔ Forall2 (λ x y, f x = Ok y) xs ys.
Proof.
  revert ys. induction xs as [|x xs IH]; intros ys; simpl.
  - split; [intros [= <-]; constructor|]. by intros ->%Forall2_nil_inv_l.
  - destruct (f x) as [y|e] eqn:Ex; simpl.
    + destruct (mapR f xs) as [ys'|e] eqn:Exs; simpl.
      * split.
        -- intros [= <-]. constructor; [done|]. by apply IH.
        -- intros (y' & ys'' & Hy & Hys & ->)%Forall2_cons_inv_l.
           rewrite Ex in Hy. injection Hy as <-. apply IH in Hys. by injection Hys as <-.
      * split; [done|].
        intros (y' & ys'' & _ & Hys & ->)%Forall2_cons_inv_l. by apply IH in Hys.
    + split; [done|]. intros (y' & ys'' & Hy & _)%Forall2_cons_inv_l. congruence.
Qed.

Lemma mapR_cons_Raise {A B} (f : A → result B) x xs e :
  mapR f (x :: xs) = Raise e
  ↔ f x = Raise e ∨ ((∃ y, f x = Ok y) ∧ mapR f xs = Raise e).
Proof.
  simpl. destruct (f x) as [y|e1]; simpl.
  - destruct (mapR f xs) as [ys|e2]; simpl.
    + split; [done|]. by intros [?|[_ ?]].
    + split.
      * intros [= ->]. right. split; [by eexists|done].
      * intros [?|[_ ?]]; [done|]. congruence.
  - split; [intros [= ->]; by left|]. intros [[= ->]|[[y ?] _]]; done.
Qed.

(** [mapR] raises what the first failing element raises. *)
Lemma mapR_Raise {A B} (f : A → result B) xs e :
  mapR f xs = Raise e
  ↔ ∃ before x after, xs = before ++ x :: after
      ∧ Forall (λ x, ∃ y, f x = Ok y) before ∧ f x = Raise e.
Proof.
  induction xs as [|x xs IH].
  - split; [done|]. intros (before & x & after & E & _). by destruct before.
  - rewrite mapR_cons_Raise, IH. split.
    + intros [Hx|[Hy (before & x' & after & -> & Hb & Hx)]].
      * by exists [], x, xs.
      * exists (x :: before), x', after. split; [done|]. split; [by constructor|done].
    + intros (before & x' & after & E & Hb & Hx).
      destruct before as [|b before]; simpl in E; injection E as -> ->.
      * by left.
      * apply Forall_cons in Hb as [Hy Hb]. right. split; [done|]. by eexists _, _, _.
Qed.

Lemma mapR_total {A B} (f : A → result B) xs :
  Forall (λ x, ∃ y, f x = Ok y) xs → ∃ ys, mapR f xs = Ok ys.
Proof.
  intros Hall. destruct (mapR f xs) as [ys|e] eqn:E; [by eexists|].
  apply mapR_Raise in E as (before & x & after & -> & _ & Hx).
  apply Forall_app in Hall as [_ Hall]. apply Forall_cons in Hall as [[y Hy] _]. congruence.
Qed.

(** When [e] is the only exception that occurs, [mapR] raises it as soon
    as one element does. *)
Lemma mapR_raises_the_only_exception {A B} (f : A → result B) xs e :
  Forall (λ x, f x = Raise e ∨ ∃ y, f x = Ok y) xs →
  Exists (λ x, f x = Raise e) xs →
  mapR f xs = Raise e.
Proof.
  intros Hall Hex. destruct (mapR f xs) as [ys|e'] eqn:E.
  - apply mapR_Ok in E. apply Exists_exists in Hex as (x & Hx & Hfx).
    apply list_elem_of_lookup in Hx as [i Hi].
    destruct (Forall2_lookup_l _ _ _ _ _ E Hi) as (y & _ & Hy). congruence.
  - apply mapR_Raise in E as (before & x & after & -> & _ & Hx).
    apply Forall_app in Hall as [_ Hall]. apply Forall_cons in Hall as [[Hx'|[y Hy]] _];
      congruence.
Qed.

End result_facts.

(** ** [convert_quantities_to_units] and [sanitise_wcs] *)

Module helper_properties.
Import misc sequence_plotting misc_helpers helpers_vocabulary result_facts.

(** X8: [convert_quantities_to_units] pairs coordinates and units by
    position and stops at the shorter of the two lists.  When it returns,
    the result has that length; an entry that is not a Quantity ([None],
    for one) is returned as it is, in its place, and a Quantity comes
    back converted to the unit at its position.  It returns exactly when
    every Quantity that is paired with a unit has the physical type of
    that unit; otherwise it raises a unit conversion error. *)
Theorem convert_quantities_to_units_by_position coords units :
  (∀ out, convert_quantities_to_units coords units = Ok out →
     length out = length coords `min` length units
     ∧ ∀ i coord unit, coords !! i = Some coord → units !! i = Some unit →
         match coord with
         | Quantity value from =>
             ∃ value', convert from unit value = Ok value'
                       ∧ out !! i = Some (Quantity value' unit)
         | NotQuantity _ => out !! i = Some coord
         end)
  ∧ ((∃ out, convert_quantities_to_units coords units = Ok out)
     ↔ ∀ i value from unit, coords !! i = Some (Quantity value from) → units !! i = Some unit →
         physical_type from = physical_type unit)
  ∧ (∀ e, convert_quantities_to_units coords units = Raise e →
       ∃ msg, e = UnitConversionError msg).
Proof.
  unfold convert_quantities_to_units. split; [|split].
  - intros out Hout%mapR_Ok. split.
    + rewrite <- (Forall2_length _ _ _ Hout). apply length_zip_with.
    + intros i coord unit Hc Hu.
      assert (zip coords units !! i = Some (coord, unit)) as Hz.
      { apply lookup_zip_with_Some. by eexists _, _. }
      destruct (Forall2_lookup_l _ _ _ _ _ Hout Hz) as (y & Hy & Hf).
      destruct coord as [value from|v]; simpl in Hf.
      * destruct (convert from unit value) as [value'|e]; [|done].
        injection Hf as <-. by exists value'.
      * by injection Hf as <-.
  - split.
    + intros [out Hout%mapR_Ok] i value from unit Hc Hu.
      assert (zip coords units !! i = Some (Quantity value from, unit)) as Hz.
      { apply lookup_zip_with_Some. by eexists _, _. }
      destruct (Forall2_lookup_l _ _ _ _ _ Hout Hz) as (y & _ & Hf). simpl in Hf.
      unfold convert in Hf. by case_decide.
    + intros Hall. apply mapR_total. apply Forall_lookup. intros i [coord unit] Hz.
      apply lookup_zip_with_Some in Hz as (c & u & [= -> ->] & Hc & Hu).
      destruct c as [value from|v]; [|by eexists].
      unfold convert. rewrite decide_True by by eapply Hall. by eexists.
  - intros e (before & [coord unit] & after & _ & _ & Hx)%mapR_Raise.
    destruct coord as [value from|v]; [|done]. unfold convert in Hx.
    case_decide; [done|]. injection Hx as <-. by eexists.
Qed.

(** X9: the wrapper that [sanitise_wcs] builds runs the wrapped function
    only on a checked [wcs]: the argument, or [self.wcs] when the
    argument is [None] or missing, is handed on when it is an
    [ExtraCoords] table or a high-level WCS with one pixel axis per axis
    of [self.data].  In every other case the wrapper raises before the
    function runs and leaves every object as it was: a [ValueError] when
    the pixel dimensions differ, also for an object that is not a
    high-level WCS, and a [TypeError] when only the class is wrong.
    Wrapping a wrapped function changes nothing. *)
Theorem sanitise_wcs_runs_func_on_checked_wcs is_high_level {R}
    (func : NDCubeLike → wcs_object → M R) self wcs σ :
  (checked is_high_level self (effective_wcs self wcs) →
     sanitise_wcs is_high_level func self wcs σ = func self (effective_wcs self wcs) σ)
  ∧ (¬ checked is_high_level self (effective_wcs self wcs) →
     sanitise_wcs is_high_level func self wcs σ
     = (Raise (if decide (pixel_n_dim (effective_wcs self wcs) = data_ndim self)
               then TypeError high_level_message
               else ValueError pixel_dimensions_message), σ))
  ∧ sanitise_wcs is_high_level
      (λ self wcs, sanitise_wcs is_high_level func self (Some wcs)) self wcs σ
    = sanitise_wcs is_high_level func self wcs σ.
Proof.
  unfold checked, effective_wcs, sanitise_wcs.
  destruct wcs as [wcs|]; simpl.
  all: match goal with |- context [is_ExtraCoords ?w] => set (w0 := w) end.
  all: destruct (is_ExtraCoords w0) eqn:Hec, (is_high_level w0) eqn:Hhl; simpl.
  all: unfold bind, ret, raise; simpl; rewrite ?Hec, ?Hhl; simpl.
  all: try (split; [done|]; split; [|done]; intros Hn; exfalso; apply Hn; by left).
  all: destruct (decide (pixel_n_dim w0 = data_ndim self)) as [Hd|Hd].
  all: rewrite ?(bool_decide_eq_true_2 _ Hd), ?(bool_decide_eq_false_2 _ Hd); simpl.
  all: rewrite ?Hec, ?Hhl; simpl.
  all: rewrite ?(bool_decide_eq_true_2 _ Hd), ?(bool_decide_eq_false_2 _ Hd); simpl.
  all: rewrite ?Hhl; simpl.
  all: split; [try done; intros [?|[? ?]]; done|].
  all: split; [try done; intros Hn; exfalso; apply Hn; right; by split|done].
Qed.

End helper_properties.

(** ** The units of a sequence *)

Module units_facts.
Import sequence_plotting units_vocabulary result_facts.

Lemma get_units_from_Ok {D} i (sequence_data : list (NDCube D)) acc units :
  get_units_from i sequence_data acc = Ok units
  ↔ ∃ more, units = acc ++ more ∧ unit <$> sequence_data = Some <$> more.
Proof.
  revert i acc. induction sequence_data as [|cube rest IH]; intros i acc; cbn [get_units_from].
  - split.
    + intros [= <-]. exists []. by rewrite app_nil_r.
    + intros (more & -> & Hm). symmetry in Hm. apply fmap_nil_inv in Hm as ->.
      by rewrite app_nil_r.
  - destruct (unit cube) as [u|] eqn:Hu.
    + rewrite IH. split.
      * intros (more & -> & Hm). exists (u :: more). rewrite <- app_assoc. split; [done|].
        by rewrite !fmap_cons, Hu, Hm.
      * intros (more & -> & Hm). destruct more as [|u' more]; [done|].
        rewrite !fmap_cons, Hu in Hm. injection Hm as <- Hm. exists more.
        by rewrite <- app_assoc.
    + split; [done|]. intros (more & _ & Hm). rewrite fmap_cons, Hu in Hm. by destruct more.
Qed.

Lemma get_units_from_first_missing {D} i (before : list (NDCube D)) cube after acc :
  Forall (λ c, unit c ≠ None) before → unit cube = None →
  get_units_from i (before ++ cube :: after) acc
  = Raise (ValueError (unit_not_set_message (i + length before))).
Proof.
  revert i acc. induction before as [|c before IH]; intros i acc Hb Hc; simpl.
  - rewrite Hc. by rewrite Nat.add_0_r.
  - apply Forall_cons in Hb as [Hc' Hb]. destruct (unit c) as [u|]; [|done].
    rewrite IH by done. do 3 f_equal. lia.
Qed.

(** A sequence either has a unit on every cube or a first cube
    without. *)
Lemma units_or_first_missing {D} (sequence_data : list (NDCube D)) :
  (∃ units, unit <$> sequence_data = Some <$> units)
  ∨ ∃ before cube after, sequence_data = before ++ cube :: after
      ∧ Forall (λ c, unit c ≠ None) before ∧ unit cube = None.
Proof.
  induction sequence_data as [|c rest IH]; [left; by exists []|].
  destruct (unit c) as [u|] eqn:Hu.
  - destruct IH as [[units Hunits]|(before & cube & after & -> & Hb & Hc)].
    + left. exists (u :: units). by rewrite !fmap_cons, Hu, Hunits.
    + right. exists (c :: before), cube, after. split; [done|]. split; [|done].
      constructor; [by rewrite Hu|done].
  - right. by exists [], c, rest.
Qed.

Lemma determine_sequence_units_with_units {D} (cubesequence_data : list (NDCube D))
    unit_y_axis units :
  unit <$> cubesequence_data = Some <$> units →
  _determine_sequence_units cubesequence_data unit_y_axis
  = match settled_unit unit_y_axis units with
    | Some u => Ok (Some units, Some u)
    | None => Raise (IndexError "index 0 is out of bounds for axis 0 with size 0")
    end.
Proof.
  intros Hunits. unfold _determine_sequence_units.
  assert (_get_all_cube_units cubesequence_data = Ok units) as ->.
  { apply get_units_from_Ok. by exists units. }
  simpl. destruct unit_y_axis as [t|]; [done|]. by destruct units.
Qed.

End units_facts.

Module units_properties.
Import sequence_plotting units_vocabulary plotting_properties result_facts units_facts.

(** X10: [_get_all_cube_units] returns exactly when every cube of the
    sequence has a unit, and it then returns the units of the cubes in
    the order of the sequence.  Otherwise it raises a [ValueError] whose
    message names the index of the first cube without a unit. *)
Theorem get_all_cube_units_or_first_missing {D} (sequence_data : list (NDCube D)) :
  (∀ units, _get_all_cube_units sequence_data = Ok units
            ↔ unit <$> sequence_data = Some <$> units)
  ∧ (∀ before cube after,
       sequence_data = before ++ cube :: after →
       Forall (λ c, unit c ≠ None) before → unit cube = None →
       _get_all_cube_units sequence_data
       = Raise (ValueError (unit_not_set_message (length before))))
  ∧ unit_not_set_message 2 = "2th cube in sequence does not have unit set.".
Proof.
  split; [|split; [|reflexivity]].
  - intros units. unfold _get_all_cube_units. rewrite get_units_from_Ok. split.
    + by intros (more & -> & Hm).
    + intros Hm. by exists units.
  - intros before cube after -> Hb Hc. unfold _get_all_cube_units.
    by rewrite get_units_from_first_missing.
Qed.

(** X11: the outcomes of [_determine_sequence_units].  It raises only for
    an empty sequence without a unit argument, and then an [IndexError].
    When every cube has a unit it returns the cubes' units together with
    the unit argument or, without one, the unit of the first cube: the
    returned unit is never [None] beside a list of units.  When some
    cube has no unit it returns [None] for both. *)
Theorem determine_sequence_units_outcomes {D} (cubesequence_data : list (NDCube D))
    unit_y_axis :
  (∀ e, _determine_sequence_units cubesequence_data unit_y_axis = Raise e
        ↔ cubesequence_data = [] ∧ unit_y_axis = None
          ∧ e = IndexError "index 0 is out of bounds for axis 0 with size 0")
  ∧ (∀ units u, _determine_sequence_units cubesequence_data unit_y_axis = Ok (Some units, u)
        ↔ unit <$> cubesequence_data = Some <$> units
          ∧ (cubesequence_data ≠ [] ∨ unit_y_axis ≠ None)
          ∧ u = settled_unit unit_y_axis units ∧ u ≠ None)
  ∧ (∀ u, _determine_sequence_units cubesequence_data unit_y_axis = Ok (None, u)
        ↔ Exists (λ cube, unit cube = None) cubesequence_data ∧ u = None).
Proof.
  destruct (units_or_first_missing cubesequence_data)
    as [[units Hunits]|(before & cube & after & Hdata & Hb & Hc)].
  - rewrite (determine_sequence_units_with_units _ _ _ Hunits).
    assert (¬ Exists (λ cube, unit cube = None) cubesequence_data) as Hnone.
    { intros (c & Hin & Hc)%Exists_exists.
      assert (None ∈ unit <$> cubesequence_data) as Hn.
      { rewrite <- Hc. by apply list_elem_of_fmap_2. }
      rewrite Hunits in Hn. by apply list_elem_of_fmap in Hn as (? & ? & _). }
    assert (settled_unit unit_y_axis units = None ↔ cubesequence_data = [] ∧ unit_y_axis = None)
      as Hsettled.
    { destruct unit_y_axis as [t|]; simpl; [by split; [|intros [_ ?]]|].
      destruct cubesequence_data, units; try done. by split; [|intros [? _]]. }
    destruct (settled_unit unit_y_axis units) as [t|] eqn:Ht.
    + split; [|split].
      * intros e. split; [done|]. intros (Hd & Hu & _).
        by destruct Hsettled as [_ Hs]; specialize (Hs (conj Hd Hu)).
      * intros units' u. split.
        -- intros [= <- <-]. split; [done|]. split; [|by rewrite Ht].
           destruct cubesequence_data; [|by left]. destruct unit_y_axis; [by right|].
           by destruct Hsettled as [_ Hs]; specialize (Hs (conj eq_refl eq_refl)).
        -- intros (Hu' & _ & -> & _).
           assert (units' = units) as ->.
           { apply (inj (fmap Some)). by rewrite <- Hu', Hunits. }
           by rewrite Ht.
      * intros u. split; [done|]. by intros [? _].
    + destruct (proj1 Hsettled eq_refl) as [-> ->]. split; [|split].
      * intros e. split; [by intros [= <-]|]. by intros (_ & _ & ->).
      * intros units' u. split; [done|]. by intros (_ & [?|?] & _).
      * intros u. split; [done|]. by intros [? _].
  - assert (Exists (λ cube, unit cube = None) cubesequence_data) as Hex.
    { rewrite Hdata. apply Exists_app. right. by left. }
    rewrite (determine_sequence_units_missing _ _ Hex).
    assert (∀ units, unit <$> cubesequence_data ≠ Some <$> units) as Hno.
    { intros units Hunits.
      assert (None ∈ unit <$> cubesequence_data) as Hn.
      { rewrite Hdata, fmap_app, fmap_cons, Hc. apply elem_of_app. right. left. }
      rewrite Hunits in Hn. by apply list_elem_of_fmap in Hn as (? & ? & _). }
    split; [|split].
    + intros e. split; [done|]. intros (-> & _). by destruct before.
    + intros units u. split; [done|]. intros (Hu & _). by apply Hno in Hu.
    + intros u. split; [by intros [= <-]|]. by intros [_ ->].
Qed.

End units_properties.

(** ** The plots of sequences whose cubes all have units *)

Module units_branch_facts.
Import sequence_plotting units_vocabulary result_facts units_facts.

Lemma units_of_typed_cubes {D} p (cubes : list (NDCube D)) :
  Forall (has_unit_of_type p) cubes →
  ∃ units, unit <$> cubes = Some <$> units
           ∧ Forall2 (λ cube u, unit cube = Some u ∧ physical_type u = p) cubes units.
Proof.
  induction 1 as [|cube cubes (u & Hu & Hp) _ (units & Hunits & HF)]; [by exists []|].
  exists (u :: units). rewrite !fmap_cons, Hu, Hunits. split; [done|]. by constructor.
Qed.

Lemma convert_same_type from to value :
  physical_type from = physical_type to → ∃ value', convert from to value = Ok value'.
Proof. intros Hp. unfold convert. rewrite decide_True by done. by eexists. Qed.

Lemma to_values_same_type a u t :
  physical_type u = physical_type t → ∃ values, to_values a u (Some t) = Ok values.
Proof.
  intros Hp. apply mapR_total, Forall_forall. intros x _. by apply convert_same_type.
Qed.

(** The unit that is settled on for typed cubes, one of them at least. *)
Lemma settled_unit_typed {D} p (cubes : list (NDCube D)) units target :
  cubes ≠ [] →
  Forall2 (λ cube u, unit cube = Some u ∧ physical_type u = p) cubes units →
  (∀ t, target = Some t → physical_type t = p) →
  ∃ t, settled_unit target units = Some t ∧ physical_type t = p.
Proof.
  intros Hne HF Ht. destruct target as [t|]; [exists t; split; [done|by apply Ht]|].
  destruct HF as [|cube u cubes units [_ Hp] _]; [done|]. by exists u.
Qed.

Lemma zip_typed {D} p (cubes : list (NDCube D)) units t (P : NDCube D * Unit → Prop) :
  Forall2 (λ cube u, unit cube = Some u ∧ physical_type u = p) cubes units →
  physical_type t = p →
  (∀ cube u, physical_type u = physical_type t → P (cube, u)) →
  Forall P (zip cubes units).
Proof.
  intros HF Ht HP. induction HF as [|cube u cubes units [_ Hp] _ IH]; [constructor|].
  simpl. constructor; [|done]. apply HP. congruence.
Qed.

End units_branch_facts.

Module units_branch_properties.
Import sequence_plotting units_vocabulary result_facts units_facts units_branch_facts.

(** X12: when every cube of the sequence has a unit, the 1D plot and the
    2D line plot need an uncertainty on every cube.  For cubes whose
    units all have the physical type of the unit asked for (or one common
    type when none is asked for), so that every conversion succeeds, a
    single cube without uncertainty makes both plots raise the
    [AttributeError] of [None.array]. *)
Theorem plots_with_units_need_every_uncertainty p axes_units target :
  unit_y_axis_of axes_units = Ok target →
  (∀ t, target = Some t → physical_type t = p) →
  (∀ cubesequence_data : list (NDCube Q),
     Forall (has_unit_of_type p) cubesequence_data →
     Exists (λ cube, uncertainty cube = None) cubesequence_data →
     _plot_1D_sequence cubesequence_data axes_units = Raise no_array_attribute)
  ∧ (∀ array_like (cubesequence_data : list (NDCube (list Q))),
     Forall (has_unit_of_type p) cubesequence_data →
     Exists (λ cube, uncertainty cube = None) cubesequence_data →
     _plot_2D_sequence_as_1Dline array_like cubesequence_data axes_units
     = Raise no_array_attribute).
Proof.
  intros Htarget Hp. split.
  - intros cubes Hall Hex.
    destruct (units_of_typed_cubes p cubes Hall) as (units & Hunits & HF).
    assert (cubes ≠ []) as Hne by (intros ->; by apply Exists_nil in Hex).
    destruct (settled_unit_typed p cubes units target Hne HF Hp) as (t & Hs & Ht).
    unfold _plot_1D_sequence. rewrite Htarget. cbn [rbind].
    rewrite (determine_sequence_units_with_units _ _ _ Hunits), Hs. cbn [rbind].
    assert (∃ ydata, quantity_values (zip (data <$> cubes) units) (Some t) = Ok ydata)
      as [ydata ->].
    { apply mapR_total. apply Forall_lookup. intros i [x u] Hz.
      apply lookup_zip_with_Some in Hz as (x' & u' & [= -> ->] & _ & Hu).
      apply convert_same_type.
      destruct (Forall2_lookup_r _ _ _ _ _ HF Hu) as (cube & _ & _ & Hpu). congruence. }
    cbn [rbind].
    rewrite (mapR_raises_the_only_exception uncertainty_array cubes no_array_attribute);
      [done| |].
    + apply Forall_forall. intros cube _. unfold uncertainty_array.
      destruct (uncertainty cube); [right; by eexists|by left].
    + eapply Exists_impl; [exact Hex|]. intros cube Hc. unfold uncertainty_array.
      by rewrite Hc.
  - intros array_like cubes Hall Hex.
    destruct (units_of_typed_cubes p cubes Hall) as (units & Hunits & HF).
    assert (cubes ≠ []) as Hne by (intros ->; by apply Exists_nil in Hex).
    destruct (settled_unit_typed p cubes units target Hne HF Hp) as (t & Hs & Ht).
    unfold _plot_2D_sequence_as_1Dline. rewrite Htarget. cbn [rbind].
    rewrite (determine_sequence_units_with_units _ _ _ Hunits), Hs. cbn [rbind].
    destruct (mapR_total (λ '(cube, u), to_values (data cube) u (Some t)) (zip cubes units))
      as [ys Hys].
    { apply (zip_typed p _ _ t); [done|done|]. intros cube u Hu. by apply to_values_same_type. }
    rewrite Hys. cbn [rbind].
    assert (ys ≠ []) as Hys_ne.
    { apply mapR_Ok, Forall2_length in Hys. intros ->.
      rewrite length_zip_with in Hys. apply Forall2_length in HF.
      destruct cubes; [done|]. destruct units; [done|]. done. }
    assert (concatenate ys = Ok (concat ys)) as -> by by destruct ys.
    cbn [rbind].
    rewrite (mapR_raises_the_only_exception _ (zip cubes units) no_array_attribute); [done| |].
    + apply (zip_typed p _ _ t); [done|done|]. intros cube u Hu. unfold uncertainty_array.
      destruct (uncertainty cube) as [a|]; [right|by left].
      simpl. by apply to_values_same_type.
    + apply Exists_exists in Hex as (cube & Hin & Hc).
      apply list_elem_of_lookup in Hin as [i Hi].
      destruct (Forall2_lookup_l _ _ _ _ _ HF Hi) as (u & Hu & _).
      apply Exists_exists. exists (cube, u). split.
      * apply list_elem_of_lookup. exists i. apply lookup_zip_with_Some. by eexists _, _.
      * unfold uncertainty_array. by rewrite Hc.
Qed.

Lemma plots_with_units_need_every_uncertainty_witness :
  unit_y_axis_of None = Ok None
  ∧ _plot_1D_sequence
      [mkNDCube 1%Q (Some 0%Q) (Some (mkUnit "length" 1));
       mkNDCube 2%Q None (Some (mkUnit "length" 1))] None
    = Raise no_array_attribute.
Proof.
  split; [reflexivity|].
  apply (plots_with_units_need_every_uncertainty "length" None None eq_refl).
  - intros t [=].
  - repeat constructor; by eexists.
  - right. by left.
Defined.

End units_branch_properties.

(** ** The line plots, whole *)

Module line_plot_facts.
Import sequence_plotting line_plots.

Lemma obind_Returns {A B} (o : outcome A) (k : A → outcome B) b :
  obind o k = Returns b ↔ ∃ a, o = Returns a ∧ k a = Returns b.
Proof.
  destruct o as [a|r]; simpl.
  - split; [by exists a|]. by intros (a' & [= <-] & Hk).
  - split; [done|]. by intros (a' & ? & _).
Qed.

(** The five plot settings. *)
Lemma make_1D_sequence_plot_settings to_string {E} xdata ydata (yerror : E) unit_y_axis
    default_xlabel kwargs :
  let plot := _make_1D_sequence_plot to_string xdata ydata yerror unit_y_axis
                default_xlabel kwargs in
  xlabel plot = from_option id (KStr default_xlabel) (kwargs !! "xlabel")
  ∧ ylabel plot
    = from_option id (KStr (axis_label to_string "Data" unit_y_axis)) (kwargs !! "ylabel")
  ∧ title plot = from_option id (KStr "") (kwargs !! "title")
  ∧ xlim plot = from_option id KNone (kwargs !! "xlim")
  ∧ ylim plot = from_option id KNone (kwargs !! "ylim").
Proof.
  unfold _make_1D_sequence_plot, pop. cbn.
  rewrite !lookup_delete_ne by done. done.
Qed.

End line_plot_facts.

Module line_plot_properties.
Import sequence_plotting plotting_vocabulary plotting_properties line_plots line_plot_facts.

(** X13: the 1D sequence plot never returns when the x-axis is given as
    the name of an extra coordinate: after looking the coordinate up it
    reads [x_axis_coordinate], a name that nothing binds.  When the
    y-data are built and the sequence has the coordinate, the call ends
    in that [NameError]; otherwise in whatever was raised before. *)
Theorem named_x_coordinate_never_plots_1D to_string cubesequence name axes_units kwargs :
  (∀ plot, _plot_1D_sequence to_string cubesequence (XStr name) axes_units kwargs
           ≠ Returns plot)
  ∧ (∀ y coords x,
       sequence_plotting._plot_1D_sequence (sequence_data cubesequence) axes_units = Ok y →
       sequence_axis_extra_coords cubesequence = Some coords → coords !! name = Some x →
       _plot_1D_sequence to_string cubesequence (XStr name) axes_units kwargs
       = Raises (NameError "x_axis_coordinate")).
Proof.
  unfold _plot_1D_sequence. split.
  - intros plot.
    destruct (unit_x_axis_of axes_units) as [unit_x_axis|e]; [|done]. simpl.
    destruct (sequence_plotting._plot_1D_sequence _ _) as [[[ydata yerror] unit_y_axis]|e];
      [|done].
    simpl. by destruct (getitem_extra_coord _ _).
  - intros [[ydata yerror] unit_y_axis] coords x Hy Hcoords Hx.
    assert (∃ unit_x_axis, unit_x_axis_of axes_units = Ok unit_x_axis) as [unit_x_axis ->].
    { destruct axes_units as [units|]; [|by eexists]. simpl.
      unfold sequence_plotting._plot_1D_sequence in Hy. simpl in Hy.
      destruct (getitem_unit units 0); [by eexists|done]. }
    rewrite Hy. simpl. unfold getitem_extra_coord. by rewrite Hcoords, Hx.
Qed.

(** X14: the 2D line plot never returns when the x-axis coordinates are
    given as an array or a Quantity: that branch binds no [xname], which
    the x label then needs.  When the y-data are built and the
    coordinates are a bare array, the call ends in the
    [UnboundLocalError]. *)
Theorem explicit_x_coordinates_never_plot_2D to_string array_like cubesequence x
    axes_units kwargs :
  (∀ plot, _plot_2D_sequence_as_1Dline to_string array_like cubesequence (XData x)
             axes_units kwargs ≠ Returns plot)
  ∧ (∀ y values,
       sequence_plotting._plot_2D_sequence_as_1Dline array_like (sequence_data cubesequence)
         axes_units = Ok y →
       x = Array values →
       _plot_2D_sequence_as_1Dline to_string array_like cubesequence (XData x)
         axes_units kwargs
       = Raises (UnboundLocalError "xname")).
Proof.
  unfold _plot_2D_sequence_as_1Dline. split.
  - intros plot.
    destruct (unit_x_axis_of axes_units) as [unit_x_axis|e]; [|done]. simpl.
    destruct (sequence_plotting._plot_2D_sequence_as_1Dline _ _ _)
      as [[[ydata yerror] unit_y_axis]|e]; [|done].
    simpl. by destruct (settle_x_unit x unit_x_axis) as [[xdata u]|r].
  - intros [[ydata yerror] unit_y_axis] values Hy ->.
    assert (∃ unit_x_axis, unit_x_axis_of axes_units = Ok unit_x_axis) as [unit_x_axis ->].
    { destruct axes_units as [units|]; [|by eexists]. simpl.
      unfold sequence_plotting._plot_2D_sequence_as_1Dline in Hy. simpl in Hy.
      destruct (getitem_unit units 0); [by eexists|done]. }
    by rewrite Hy.
Qed.

(** X15: [_derive_1D_x_data] returns only when [x_axis_values] is [None].
    For a 1D sequence it then returns the sequence indices with the unit
    [None], whatever x unit was passed, and a label that says so; for
    any other sequence the unit it returns is never [None], and is the
    one passed when there is one.  A string ends in a [NameError], any
    other value in an [UnboundLocalError]. *)
Theorem derive_1D_x_data_outcomes to_string {D} (cubesequence : NDCubeSequence D)
    x_axis_values unit_x_axis sequence_is_1d :
  (∀ xdata unit default_xlabel,
     _derive_1D_x_data to_string cubesequence x_axis_values unit_x_axis sequence_is_1d
     = Returns (xdata, unit, default_xlabel) →
     x_axis_values = XNone
     ∧ (sequence_is_1d = true →
        xdata = Array (arange (dimensions_0 cubesequence)) ∧ unit = None
        ∧ ∃ name, world_axis_physical_types cubesequence !! 0 = Some name
                  ∧ default_xlabel = name +:+ " [None]")
     ∧ (sequence_is_1d = false →
        ∃ t, unit = Some t ∧ (∀ t', unit_x_axis = Some t' → t = t')
             ∧ ∃ values, xdata = QuantityArray values t))
  ∧ (∀ name, x_axis_values = XStr name →
       _derive_1D_x_data to_string cubesequence x_axis_values unit_x_axis sequence_is_1d
       = Raises (NameError "x_axis_extra_coord"))
  ∧ (∀ x, x_axis_values = XData x →
       _derive_1D_x_data to_string cubesequence x_axis_values unit_x_axis sequence_is_1d
       = Raises (UnboundLocalError "xdata")).
Proof.
  split; [|split; intros ? ->; reflexivity].
  intros xdata unit default_xlabel. destruct x_axis_values as [|name|x]; [|done|done].
  destruct sequence_is_1d; simpl.
  - destruct (world_axis_physical_types cubesequence) as [|name types]; [done|].
    simpl. intros [= <- <- <-]. split; [done|]. split; [|done].
    intros _. split; [done|]. split; [done|]. by exists name.
  - intros (xu & Hx & Hrest)%obind_Returns. destruct xu as [xdata' unit'].
    apply obind_Returns in Hrest as (name & _ & [= <- <- <-]).
    split; [done|]. split; [done|]. intros _.
    unfold x_from_world_coords in Hx.
    apply obind_Returns in Hx as (t & Ht & Hx).
    apply obind_Returns in Hx as (arrays & _ & Hx).
    apply obind_Returns in Hx as (values & _ & [= <- <-]).
    exists t. split; [done|]. split; [|by exists values].
    intros t' ->. by injection Ht as <-.
Qed.

(** X16: [_make_1D_sequence_plot] keeps the five plot settings out of the
    call of [errorbar]: what it forwards is the caller's keyword
    arguments without [xlabel], [ylabel], [title], [xlim] and [ylim], and
    every other keyword as the caller gave it.  Each setting is the
    caller's when it was given, else its default. *)
Theorem plot_settings_never_reach_errorbar to_string {E} xdata ydata (yerror : E)
    unit_y_axis default_xlabel kwargs :
  (∀ key, errorbar_kwargs (_make_1D_sequence_plot to_string xdata ydata yerror unit_y_axis
                             default_xlabel kwargs) !! key
          = if decide (key ∈ ["xlabel"; "ylabel"; "title"; "xlim"; "ylim"])
            then None else kwargs !! key)
  ∧ (∀ value, kwargs !! "ylabel" = Some value →
       ylabel (_make_1D_sequence_plot to_string xdata ydata yerror unit_y_axis
                 default_xlabel kwargs) = value)
  ∧ (kwargs !! "ylabel" = None →
       ylabel (_make_1D_sequence_plot to_string xdata ydata yerror unit_y_axis
                 default_xlabel kwargs)
       = KStr ("Data [" +:+ format_unit to_string unit_y_axis +:+ "]"))
  ∧ (∀ value, kwargs !! "xlabel" = Some value →
       xlabel (_make_1D_sequence_plot to_string xdata ydata yerror unit_y_axis
                 default_xlabel kwargs) = value)
  ∧ (kwargs !! "xlabel" = None →
       xlabel (_make_1D_sequence_plot to_string xdata ydata yerror unit_y_axis
                 default_xlabel kwargs) = KStr default_xlabel).
Proof.
  destruct (make_1D_sequence_plot_settings to_string xdata ydata yerror unit_y_axis
              default_xlabel kwargs) as (Hx & Hy & _).
  split; [|split; [|split; [|split]]].
  - intros key. unfold _make_1D_sequence_plot, pop. cbn.
    case_decide as Hkey.
    + repeat (apply elem_of_cons in Hkey as [->|Hkey];
              [rewrite ?lookup_delete_ne by done; by rewrite lookup_delete_eq|]).
      by apply elem_of_nil in Hkey.
    + rewrite !lookup_delete_ne; [done|..]; intros <-; apply Hkey; set_solver.
  - intros value Hv. by rewrite Hy, Hv.
  - intros Hv. by rewrite Hy, Hv.
  - intros value Hv. by rewrite Hx, Hv.
  - intros Hv. by rewrite Hx, Hv.
Qed.

(** X17: what the labels of the 1D sequence plot say when the x-axis
    coordinates are not given.  The x values are the sequence indices,
    which carry no unit: the default x label reads [None] for the unit
    even when an x unit was passed in [axes_units].  When a cube of the
    sequence has no unit, the default y label reads [Data [None]], also
    when a y unit was asked for. *)
Theorem default_labels_of_the_1D_plot to_string cubesequence axes_units kwargs plot :
  _plot_1D_sequence to_string cubesequence XNone axes_units kwargs = Returns plot →
  plot_xdata plot = Array (arange (dimensions_0 cubesequence))
  ∧ (kwargs !! "xlabel" = None →
     ∃ name, world_axis_physical_types cubesequence !! 0 = Some name
             ∧ xlabel plot = KStr (name +:+ " [None]"))
  ∧ (kwargs !! "ylabel" = None →
     Exists (λ cube, unit cube = None) (sequence_data cubesequence) →
     ylabel plot = KStr "Data [None]").
Proof.
  unfold _plot_1D_sequence.
  intros (unit_x_axis & _ & H)%obind_Returns.
  apply obind_Returns in H as ([[ydata yerror] unit_y_axis] & Hy & H).
  apply obind_Returns in H as ([xdata xname] & Hx & H).
  apply obind_Returns in Hx as (name & Hname & [= <- <-]).
  simpl in H. injection H as <-.
  destruct (make_1D_sequence_plot_settings to_string
              (Array (arange (dimensions_0 cubesequence))) ydata yerror unit_y_axis
              (axis_label to_string name None) kwargs) as (Hxl & Hyl & _).
  split; [done|]. split.
  - intros Hk. exists name. split; [by destruct (world_axis_physical_types cubesequence)
                                       as [|n ?]; simplify_eq/=|].
    by rewrite Hxl, Hk.
  - intros Hk Hex. rewrite Hyl, Hk. simpl.
    assert (unit_y_axis = None) as ->; [|done].
    destruct (sequence_plotting._plot_1D_sequence _ _) as [y|e] eqn:Hy'; [|done].
    injection Hy as ->. unfold sequence_plotting._plot_1D_sequence in Hy'.
    destruct (unit_y_axis_of axes_units) as [target|e]; [|done]. simpl in Hy'.
    rewrite (determine_sequence_units_missing _ _ Hex) in Hy'. simpl in Hy'.
    by injection Hy' as _ _ <-.
Qed.

Lemma default_labels_of_the_1D_plot_witness :
  ∃ plot,
    _plot_1D_sequence (λ _, "m")
      (mkNDCubeSequence Q [mkNDCube 1%Q None None; mkNDCube 2%Q None None] 2 ["time"] []
         None None [] [])
      XNone None ∅ = Returns plot
    ∧ xlabel plot = KStr "time [None]"
    ∧ ylabel plot = KStr "Data [None]".
Proof.
  eexists. split; [reflexivity|].
  destruct (default_labels_of_the_1D_plot (λ _, "m")
              (mkNDCubeSequence Q [mkNDCube 1%Q None None; mkNDCube 2%Q None None] 2 ["time"] []
                 None None [] [])
              None ∅ _ eq_refl) as (_ & Hx & Hy).
  split.
  - destruct (Hx eq_refl) as (name & [= <-] & ->). reflexivity.
  - apply Hy; [reflexivity|]. by left.
Defined.

End line_plot_properties.

(** ** The image plot *)

Module image_plot_facts.
Import sequence_plotting line_plots line_plot_facts image_plots image_vocabulary.

Lemma pbind_Returns {A B} (m : P A) (k : A → P B) s b s'' :
  pbind m k s = (Returns b, s'')
  ↔ ∃ a s', m s = (Returns a, s') ∧ k a s' = (Returns b, s'').
Proof.
  unfold pbind. destruct (m s) as [[a|r] s']; split.
  - intros Hk. by exists a, s'.
  - by intros (a' & s2 & [= <- <-] & Hk).
  - done.
  - by intros (a' & s2 & ? & _).
Qed.

Lemma plift_Returns {A} (o : outcome A) s a s' :
  plift o s = (Returns a, s') ↔ o = Returns a ∧ s' = s.
Proof. unfold plift. split; [by intros [= -> ->]|by intros [-> ->]]. Qed.

Lemma get_unit_Returns k s u s' :
  get_unit k s = (Returns u, s') ↔ getitem (axes_units s) k = Returns u ∧ s' = s.
Proof. apply plift_Returns. Qed.

Lemma get_coordinate_Returns k s c s' :
  get_coordinate k s = (Returns c, s') ↔ getitem (axes_coordinates s) k = Returns c ∧ s' = s.
Proof. apply plift_Returns. Qed.

Lemma set_coordinate_Returns k v s a s' :
  set_coordinate k v s = (Returns a, s')
  → s' = mkAxes (<[k := v]> (axes_coordinates s)) (axes_units s).
Proof.
  unfold set_coordinate, setitem. case_decide; [|done]. by intros [= <-].
Qed.

Lemma set_unit_Returns k v s a s' :
  set_unit k v s = (Returns a, s')
  → s' = mkAxes (axes_coordinates s) (<[k := v]> (axes_units s)).
Proof.
  unfold set_unit, setitem. case_decide; [|done]. by intros [= <-].
Qed.

Lemma getitem_nonneg {A} (l : list A) (i : nat) x :
  l !! i = Some x → getitem l (Z.of_nat i) = Returns x.
Proof.
  intros Hi. unfold getitem, item, position. cbv zeta.
  apply lookup_lt_Some in Hi as Hlt.
  destruct (decide (Z.of_nat i < 0)%Z); [lia|].
  rewrite decide_True by lia. by rewrite Nat2Z.id, Hi.
Qed.

Lemma getitem_0 {A} (a : A) l : getitem (a :: l) 0 = Returns a.
Proof. by apply (getitem_nonneg _ 0). Qed.

Lemma getitem_1 {A} (a b : A) l : getitem (a :: b :: l) 1 = Returns b.
Proof. by apply (getitem_nonneg _ 1). Qed.

Lemma getitem_last_of_two {A} (a b : A) : getitem [a; b] (-1) = Returns b.
Proof. reflexivity. Qed.

Lemma getitem_first_of_two {A} (a b : A) : getitem [a; b] (-2) = Returns a.
Proof. reflexivity. Qed.

Lemma getitem_1_length {A} (l : list A) x : getitem l 1 = Returns x → 2 ≤ length l.
Proof.
  unfold getitem, item, position. cbv zeta. destruct (decide (1 < 0)%Z); [lia|].
  case_decide; [lia|done].
Qed.

Lemma getitem_nonneg_inv {A} (l : list A) (k : Z) x :
  (0 ≤ k)%Z → getitem l k = Returns x → l !! Z.to_nat k = Some x.
Proof.
  intros Hk. unfold getitem, item, position. cbv zeta.
  destruct (decide (k < 0)%Z); [lia|].
  case_decide; [|done]. destruct (l !! Z.to_nat k); [|done]. by intros [= ->].
Qed.

Lemma first_of_Returns {A} (xs : list A) x : first_of xs = Returns x → head xs = Some x.
Proof. destruct xs; [done|]. by intros [= ->]. Qed.

(** Every way in which the image plot returns. *)
Lemma plot_2D_sequence_on_returns to_string cubesequence plot_axes data_unit kwargs s plot s' :
  plot_2D_sequence_on to_string cubesequence plot_axes data_unit kwargs s = (Returns plot, s') →
  ∃ data p0 p1 cu cc ccoords cunit cname su sc scoords sunit sname x xe y ye xl yl,
    image_data_of (sequence_data (sequence cubesequence)) data_unit = Ok data
    ∧ getitem (default [-1; -2]%Z plot_axes) 0 = Returns p0
    ∧ getitem (default [-1; -2]%Z plot_axes) 1 = Returns p1
    ∧ getitem (axes_units s) 1 = Returns cu
    ∧ getitem (axes_coordinates s) 1 = Returns cc
    ∧ cube_axis cubesequence cc cu = Returns (ccoords, cunit, cname)
    ∧ getitem (<[1 := cunit]> (axes_units s)) 0 = Returns su
    ∧ getitem (<[1 := entry_of ccoords]> (axes_coordinates s)) 0 = Returns sc
    ∧ sequence_axis cubesequence sc su = Returns (scoords, sunit, sname)
    ∧ s' = lists_after s ccoords cunit scoords sunit
    ∧ getitem (axes_coordinates s') p0 = Returns x ∧ ends_of x = Returns xe
    ∧ getitem (axes_coordinates s') p1 = Returns y ∧ ends_of y = Returns ye
    ∧ getitem [axis_label to_string sname sunit; axis_label to_string cname cunit] p0 = Returns xl
    ∧ getitem [axis_label to_string sname sunit; axis_label to_string cname cunit] p1 = Returns yl
    ∧ plot = mkImage (if decide (p0 < p1)%Z then transpose data else data) x y
               (xe.1, xe.2, ye.1, ye.2) kwargs xe ye xl yl.
Proof.
  unfold plot_2D_sequence_on. intros H.
  apply pbind_Returns in H as (data & s1 & [Hdata ->]%plift_Returns & H).
  apply pbind_Returns in H as (p0 & s1 & [Hp0 ->]%plift_Returns & H).
  apply pbind_Returns in H as (p1 & s1 & [Hp1 ->]%plift_Returns & H).
  apply pbind_Returns in H as (cu & s1 & [Hcu ->]%get_unit_Returns & H).
  apply pbind_Returns in H as (cc & s1 & [Hcc ->]%get_coordinate_Returns & H).
  apply pbind_Returns in H as ([[ccoords cunit] cname] & s1 & [Hcube ->]%plift_Returns & H).
  apply pbind_Returns in H as (done1 & s1 & ->%set_coordinate_Returns & H).
  apply pbind_Returns in H as (done2 & s2 & ->%set_unit_Returns & H).
  apply pbind_Returns in H as (su & s1 & [Hsu ->]%get_unit_Returns & H).
  apply pbind_Returns in H as (sc & s1 & [Hsc ->]%get_coordinate_Returns & H).
  apply pbind_Returns in H as ([[scoords sunit] sname] & s1 & [Hseq ->]%plift_Returns & H).
  apply pbind_Returns in H as (done3 & s1 & ->%set_coordinate_Returns & H).
  apply pbind_Returns in H as (done4 & s2 & ->%set_unit_Returns & H).
  apply pbind_Returns in H as (x & s1 & [Hx ->]%get_coordinate_Returns & H).
  apply pbind_Returns in H as (xe & s1 & [Hxe ->]%plift_Returns & H).
  apply pbind_Returns in H as (y & s1 & [Hy ->]%get_coordinate_Returns & H).
  apply pbind_Returns in H as (ye & s1 & [Hye ->]%plift_Returns & H).
  apply pbind_Returns in H as (xl & s1 & [Hxl ->]%plift_Returns & H).
  apply pbind_Returns in H as (yl & s1 & [Hyl ->]%plift_Returns & H).
  injection H as <- <-.
  exists data, p0, p1, cu, cc, ccoords, cunit, cname, su, sc, scoords, sunit, sname.
  exists x, xe, y, ye, xl, yl.
  destruct (image_data_of _ _) as [data'|e]; [|done]. injection Hdata as ->.
  simpl in *. by repeat split.
Qed.

End image_plot_facts.

Module image_plot_properties.
Import sequence_plotting line_plots line_plot_facts image_plots image_vocabulary image_plot_facts.

Local Arguments getitem : simpl never.

(** X18: the image plot never returns when the coordinates of the cube
    axis are given as an array without unit and [plot_axes] shows the cube
    axis, as the default does: such coordinates are replaced by [None],
    which cannot be indexed when the extent of the image is read off.
    The replacement is made in the caller's list. *)
Theorem bare_cube_axis_coordinates_never_plot to_string cubesequence plot_axes c0 values
    axes_units data_unit kwargs :
  (∃ k, k ∈ take 2 (default [-1; -2]%Z plot_axes) ∧ cube_axis_index k) →
  (∀ plot lists,
     _plot_2D_sequence to_string cubesequence plot_axes (Some [c0; XData (Array values)])
       axes_units data_unit kwargs ≠ (Returns plot, lists))
  ∧ (∀ data t0 t1 types,
       image_data_of (sequence_data (sequence cubesequence)) data_unit = Ok data →
       world_axis_physical_types (sequence cubesequence) = t0 :: t1 :: types →
       plot_axes = None → axes_units = None → c0 = XNone →
       _plot_2D_sequence to_string cubesequence plot_axes (Some [c0; XData (Array values)])
         axes_units data_unit kwargs
       = (Raises (Exn (TypeError "'NoneType' object is not subscriptable")),
          mkAxes [XData (Array (arange (length (sequence_data (sequence cubesequence)))));
                  XNone] [None; None])).
Proof.
  intros (k & Hk & Hcube). split.
  - intros plot lists H. unfold _plot_2D_sequence in H.
    apply plot_2D_sequence_on_returns in H
      as (data & p0 & p1 & cu & cc & ccoords & cunit & cname & su & sc & scoords & sunit
          & sname & x & xe & y & ye & xl & yl & _ & Hp0 & Hp1 & _ & Hcc & Hc & _ & _ & _
          & -> & Hx & Hxe & Hy & Hye & _).
    simpl in Hcc. injection Hcc as <-.
    assert (ccoords = None) as ->.
    { unfold cube_axis in Hc.
      destruct (getitem (world_axis_physical_types _) 1); [|done].
      cbn in Hc. congruence. }
    simpl in Hx, Hy.
    assert (∀ p entry, cube_axis_index p →
              getitem [XData (Array scoords); XNone] p = Returns entry → entry = XNone)
      as Hnone.
    { intros p entry [-> | ->]; by intros [= <-]. }
    assert (k = p0 ∨ k = p1) as [-> | ->].
    { destruct (default [-1; -2]%Z plot_axes) as [|a [|b l]].
      - by apply elem_of_nil in Hk.
      - done.
      - rewrite getitem_0 in Hp0. rewrite getitem_1 in Hp1.
        injection Hp0 as <-. injection Hp1 as <-. simpl in Hk.
        apply elem_of_cons in Hk as [->|Hk]; [by left|].
        apply elem_of_cons in Hk as [->|Hk]; [by right|]. by apply elem_of_nil in Hk. }
    + rewrite (Hnone _ _ Hcube Hx) in Hxe. done.
    + rewrite (Hnone _ _ Hcube Hy) in Hye. done.
  - intros data t0 t1 types Hdata Htypes -> -> ->.
    unfold _plot_2D_sequence, plot_2D_sequence_on.
    unfold pbind, plift, get_unit, get_coordinate, set_coordinate, set_unit.
    rewrite Hdata. unfold cube_axis, sequence_axis. cbn.
    repeat (progress (rewrite ?Htypes, ?getitem_0, ?getitem_1, ?getitem_last_of_two,
                        ?getitem_first_of_two; cbn)).
    reflexivity.
Qed.

Lemma bare_cube_axis_coordinates_never_plot_witness :
  (∃ k, k ∈ take 2 (default [-1; -2]%Z None) ∧ cube_axis_index k)
  ∧ ∀ plot lists,
      _plot_2D_sequence (λ _, "m")
        (mkImageSequence
           (mkNDCubeSequence (list Q) [mkNDCube [1%Q; 2%Q] None None] 1 ["time"; "em.wl"] []
              None None [] []) None)
        None (Some [XNone; XData (Array [1%Q; 2%Q])]) None None ∅ ≠ (Returns plot, lists).
Proof.
  assert (∃ k, k ∈ take 2 (default [-1; -2]%Z None) ∧ cube_axis_index k) as Hk.
  { exists (-1)%Z. split; [by left|by right]. }
  split; [exact Hk|].
  apply (bare_cube_axis_coordinates_never_plot (λ _, "m") _ None XNone [1%Q; 2%Q] None None ∅ Hk).
Defined.

(** X19: the image plot writes to the lists it is given.  When it
    returns, entry 0 of the caller's [axes_coordinates] is an array
    without unit and entry 1 is such an array or [None], whatever stood
    there before (a name, a Quantity); entry 0 of the caller's
    [axes_units] is [None] when no coordinates were given for the
    sequence axis.  Both lists keep their length and their entries from
    index 2 on. *)
Theorem image_plot_overwrites_its_list_arguments to_string cubesequence plot_axes
    coordinates units data_unit kwargs plot lists :
  _plot_2D_sequence to_string cubesequence plot_axes (Some coordinates) (Some units)
    data_unit kwargs = (Returns plot, lists) →
  (∃ values, axes_coordinates lists !! 0 = Some (XData (Array values)))
  ∧ (∃ entry, axes_coordinates lists !! 1 = Some entry ∧ bare entry)
  ∧ (coordinates !! 0 = Some XNone → axes_units lists !! 0 = Some None)
  ∧ length (axes_coordinates lists) = length coordinates
  ∧ length (axes_units lists) = length units
  ∧ ∀ i, 2 ≤ i → axes_coordinates lists !! i = coordinates !! i
                 ∧ axes_units lists !! i = units !! i.
Proof.
  unfold _plot_2D_sequence. intros H.
  apply plot_2D_sequence_on_returns in H
    as (data & p0 & p1 & cu & cc & ccoords & cunit & cname & su & sc & scoords & sunit
        & sname & x & xe & y & ye & xl & yl & _ & _ & _ & Hcu & Hcc & _ & _ & Hsc & Hs
        & -> & _).
  cbn [default from_option axes_coordinates axes_units id] in *.
  apply getitem_1_length in Hcu, Hcc.
  unfold lists_after. cbn [axes_coordinates axes_units].
  split; [|split; [|split; [|split; [|split]]]].
  - exists scoords. apply list_lookup_insert_eq. rewrite length_insert. lia.
  - exists (entry_of ccoords). split.
    + rewrite list_lookup_insert_ne by done. apply list_lookup_insert_eq. lia.
    + destruct ccoords as [values|]; [right; by exists values|by left].
  - intros Hnone.
    assert (sc = XNone) as ->.
    { destruct coordinates as [|c [|c' l]]; simpl in Hcc; try lia.
      simpl in Hnone. injection Hnone as ->. cbn in Hsc.
      rewrite getitem_0 in Hsc. by injection Hsc as <-. }
    assert (sunit = None) as ->.
    { unfold sequence_axis in Hs. apply obind_Returns in Hs as ([c nm] & Hc & Hs).
      apply obind_Returns in Hc as (nm' & _ & [= <- <-]). by injection Hs as _ <- _. }
    apply list_lookup_insert_eq. rewrite length_insert. lia.
  - by rewrite !length_insert.
  - by rewrite !length_insert.
  - intros i Hi. rewrite !list_lookup_insert_ne by lia. done.
Qed.

Lemma image_plot_overwrites_its_list_arguments_witness :
  ∃ plot,
    _plot_2D_sequence (λ _, "m")
      (mkImageSequence
         (mkNDCubeSequence (list Q) [mkNDCube [1%Q; 2%Q] None None] 1 ["time"; "em.wl"] []
            (Some {[ "exposure" := QuantityArray [5%Q] (mkUnit "time" 1) ]}) None
            [mkUnit "length" 1] [([3%Q; 4%Q], mkUnit "length" 1)]) None)
      None (Some [XStr "exposure"; XNone]) (Some [None; None]) None ∅
    = (Returns plot,
       mkAxes [XData (Array [5%Q]); XData (Array [3 * 1 / 1; 4 * 1 / 1]%Q)]
              [Some (mkUnit "time" 1); Some (mkUnit "length" 1)])
    ∧ ∃ values, [XData (Array [5%Q]); XData (Array [3 * 1 / 1; 4 * 1 / 1]%Q)] !! 0
                = Some (XData (Array values)).
Proof.
  eexists. split; [by vm_compute|].
  exact (proj1 (image_plot_overwrites_its_list_arguments (λ _, "m")
    (mkImageSequence
       (mkNDCubeSequence (list Q) [mkNDCube [1%Q; 2%Q] None None] 1 ["time"; "em.wl"] []
          (Some {[ "exposure" := QuantityArray [5%Q] (mkUnit "time" 1) ]}) None
          [mkUnit "length" 1] [([3%Q; 4%Q], mkUnit "length" 1)]) None)
    None [XStr "exposure"; XNone] [None; None] None ∅ _ _ ltac:(by vm_compute))).
Defined.

(** X20: what the image plot shows when only the sequence is given.  The
    rows of the image are the cubes in the order of the sequence, not
    transposed; they are the cubes' raw data when some cube has no unit,
    whatever [data_unit] asks for.  The y-axis is the sequence axis: its
    values are the sequence indices and its label reads [None] for the
    unit.  The x-axis is the cube axis: its values are the world
    coordinates of the first cube in the unit of its first axis, which
    the label names. *)
Theorem image_plot_by_default to_string cubesequence data_unit kwargs plot lists :
  _plot_2D_sequence to_string cubesequence None None None data_unit kwargs
  = (Returns plot, lists) →
  image_data_of (sequence_data (sequence cubesequence)) data_unit = Ok (image_data plot)
  ∧ (Exists (λ cube, unit cube = None) (sequence_data (sequence cubesequence)) →
     image_data plot = data <$> sequence_data (sequence cubesequence))
  ∧ image_y plot = XData (Array (arange (length (sequence_data (sequence cubesequence)))))
  ∧ (∃ name, world_axis_physical_types (sequence cubesequence) !! 0 = Some name
             ∧ image_ylabel plot = name +:+ " [None]")
  ∧ (∃ values u t name coords,
       head (axis_world_coords (sequence cubesequence)) = Some (values, u)
       ∧ head (cunit_of_first_cube (sequence cubesequence)) = Some t
       ∧ world_axis_physical_types (sequence cubesequence) !! 1 = Some name
       ∧ mapR (convert u t) values = Ok coords
       ∧ image_x plot = XData (Array coords)
       ∧ image_xlabel plot = name +:+ " [" +:+ to_string t +:+ "]").
Proof.
  unfold _plot_2D_sequence. intros H.
  apply plot_2D_sequence_on_returns in H
    as (img & p0 & p1 & cu & cc & ccoords & cunit & cname & su & sc & scoords & sunit
        & sname & x & xe & y & ye & xl & yl & Hdata & Hp0 & Hp1 & Hcu & Hcc & Hc & Hsu & Hsc
        & Hs & -> & Hx & _ & Hy & _ & Hxl & Hyl & ->).
  cbn [default from_option axes_coordinates axes_units id lists_after] in *.
  rewrite getitem_0 in Hp0. rewrite getitem_1 in Hp1.
  injection Hp0 as <-. injection Hp1 as <-.
  rewrite getitem_1 in Hcu. rewrite getitem_1 in Hcc.
  injection Hcu as <-. injection Hcc as <-.
  cbn [insert list_insert] in *.
  rewrite getitem_0 in Hsu. rewrite getitem_0 in Hsc.
  injection Hsu as <-. injection Hsc as <-.
  rewrite getitem_last_of_two in Hx. rewrite getitem_last_of_two in Hxl.
  rewrite getitem_first_of_two in Hy. rewrite getitem_first_of_two in Hyl.
  injection Hx as <-. injection Hy as <-. injection Hxl as <-. injection Hyl as <-.
  unfold cube_axis in Hc.
  apply obind_Returns in Hc as (t & Ht%first_of_Returns & Hc).
  apply obind_Returns in Hc as ([values u] & Hw%first_of_Returns & Hc).
  apply obind_Returns in Hc as (coords & Hconv & Hc).
  apply obind_Returns in Hc as (name1 & Hn1%getitem_nonneg_inv & Hc); [|lia].
  injection Hc as <- <- <-.
  unfold sequence_axis in Hs.
  apply obind_Returns in Hs as ([c name0] & Hs0 & Hs).
  apply obind_Returns in Hs0 as (name0' & Hn0%getitem_nonneg_inv & Hs0); [|lia].
  injection Hs0 as <- <-. injection Hs as <- <- <-.
  cbn [image_data image_x image_y image_xlabel image_ylabel].
  rewrite decide_False by lia.
  split; [done|]. split; [|split; [done|split]].
  - intros Hex. unfold image_data_of in Hdata.
    rewrite (plotting_properties.determine_sequence_units_missing _ _ Hex) in Hdata.
    cbn in Hdata. unfold stack in Hdata.
    destruct (data <$> sequence_data (sequence cubesequence)) as [|a l]; [done|].
    case_decide; [|done]. by injection Hdata as <-.
  - by exists name0'.
  - exists values, u, t, name1, coords. split; [done|]. split; [done|].
    split; [done|]. split; [|done].
    by destruct (mapR (convert u t) values) as [coords'|]; simplify_eq/=.
Qed.

Lemma image_plot_by_default_witness :
  ∃ plot,
    image_data plot = [[1%Q; 2%Q]; [3%Q; 4%Q]]
    ∧ image_y plot = XData (Array [0%Q; 1%Q])
    ∧ image_ylabel plot = "time [None]".
Proof.
  destruct (image_plot_by_default (λ _, "m")
    (mkImageSequence
       (mkNDCubeSequence (list Q)
          [mkNDCube [1%Q; 2%Q] None None; mkNDCube [3%Q; 4%Q] None None] 2
          ["time"; "em.wl"] [] None None
          [mkUnit "length" 1] [([3%Q; 4%Q], mkUnit "length" 1)]) None)
    None ∅ _ _ ltac:(by vm_compute)) as (_ & Hdata & Hy & (name & [= <-] & Hyl) & _).
  eexists. split; [apply Hdata; by left|]. split; [exact Hy|exact Hyl].
Defined.

End image_plot_properties.

(** ** The image plot along a common axis *)

Module common_axis_plot_facts.
Import sequence_plotting line_plots line_plot_facts image_plots image_plot_facts.
Import common_axis_plots.

Lemma set_coordinate_at_Returns k v s a s' :
  set_coordinate_at k v s = (Returns a, s')
  → ∃ l, setitem_at (axes_coordinates s) k v = Returns l ∧ s' = mkAxes l (axes_units s).
Proof.
  unfold set_coordinate_at. destruct (setitem_at _ _ _) as [l|r]; [|done].
  intros [= <-]. by exists l.
Qed.

Lemma set_unit_at_Returns k v s a s' :
  set_unit_at k v s = (Returns a, s')
  → ∃ l, setitem_at (axes_units s) k v = Returns l ∧ s' = mkAxes (axes_coordinates s) l.
Proof.
  unfold set_unit_at. destruct (setitem_at _ _ _) as [l|r]; [|done].
  intros [= <-]. by exists l.
Qed.

(** An index into a list of two entries. *)
Lemma getitem_of_two {A} (a b : A) k x :
  getitem [a; b] k = Returns x →
  ((k = 0 ∨ k = -2)%Z ∧ x = a) ∨ ((k = 1 ∨ k = -1)%Z ∧ x = b).
Proof.
  unfold getitem, item, position. cbv zeta. cbn [length].
  destruct (decide (k < 0)%Z); case_decide; try done.
  - assert (k = -2 ∨ k = -1)%Z as [-> | ->] by lia; cbn; intros [= <-]; [left|right]; split;
      (done || lia).
  - assert (k = 0 ∨ k = 1)%Z as [-> | ->] by lia; cbn; intros [= <-]; [left|right]; split;
      (done || lia).
Qed.

(** A named extra coordinate for the common axis leaves
    [common_axis_name] unbound. *)
Lemma common_axis_named to_string cubesequence name common_axis_unit r :
  common_axis to_string cubesequence (XStr name) common_axis_unit ≠ Returns r.
Proof.
  unfold common_axis, common_axis_choice.
  destruct (getitem_extra_coord _ _) as [[values|values unit]|e]; simpl; [done| |done].
  destruct common_axis_unit as [t|]; simpl; [|done].
  by destruct (mapR (convert unit t) values).
Qed.

(** Every way in which the plot returns. *)
Lemma plot_3D_sequence_as_2Dimage_on_returns to_string cubesequence plot_axes data_unit
    kwargs s plot s' :
  plot_3D_sequence_as_2Dimage_on to_string cubesequence plot_axes data_unit kwargs s
  = (Returns plot, s') →
  ∃ img p0 p1 ci cu cc ccoords cunit cname l1 u1 su sc scoords sunit slabel l2 u2
    labels1 labels2 x xe y ye xl yl,
    image_data_of cubesequence data_unit = Ok img
    ∧ getitem (default [-1; -2]%Z plot_axes) 0 = Returns p0
    ∧ getitem (default [-1; -2]%Z plot_axes) 1 = Returns p1
    ∧ cube_axis_index_of (_common_axis cubesequence) = Returns ci
    ∧ getitem (axes_units s) ci = Returns cu
    ∧ getitem (axes_coordinates s) ci = Returns cc
    ∧ cube_axis cubesequence ci cc cu = Returns (ccoords, cunit, cname)
    ∧ setitem_at (axes_coordinates s) ci (entry_of ccoords) = Returns l1
    ∧ setitem_at (axes_units s) ci cunit = Returns u1
    ∧ getitem u1 (_common_axis cubesequence) = Returns su
    ∧ getitem l1 (_common_axis cubesequence) = Returns sc
    ∧ common_axis to_string cubesequence sc su = Returns (scoords, sunit, slabel)
    ∧ setitem_at l1 (_common_axis cubesequence) (XData (Array scoords)) = Returns l2
    ∧ setitem_at u1 (_common_axis cubesequence) sunit = Returns u2
    ∧ s' = mkAxes l2 u2
    ∧ setitem_at [None; None] ci (Some (axis_label to_string cname cunit)) = Returns labels1
    ∧ setitem_at labels1 (_common_axis cubesequence) (Some slabel) = Returns labels2
    ∧ getitem l2 p0 = Returns x ∧ ends_of x = Returns xe
    ∧ getitem l2 p1 = Returns y ∧ ends_of y = Returns ye
    ∧ getitem labels2 p0 = Returns xl ∧ getitem labels2 p1 = Returns yl
    ∧ plot = mkCommonAxisImage (if decide (p0 < p1)%Z then transpose img else img) x y
               (xe.1, xe.2, ye.1, ye.2) kwargs xe ye xl yl.
Proof.
  unfold plot_3D_sequence_as_2Dimage_on. intros H.
  apply pbind_Returns in H as (img & s1 & [Hdata ->]%plift_Returns & H).
  apply pbind_Returns in H as (p0 & s1 & [Hp0 ->]%plift_Returns & H).
  apply pbind_Returns in H as (p1 & s1 & [Hp1 ->]%plift_Returns & H).
  apply pbind_Returns in H as (ci & s1 & [Hci ->]%plift_Returns & H).
  apply pbind_Returns in H as (cu & s1 & [Hcu ->]%get_unit_Returns & H).
  apply pbind_Returns in H as (cc & s1 & [Hcc ->]%get_coordinate_Returns & H).
  apply pbind_Returns in H as ([[ccoords cunit] cname] & s1 & [Hcube ->]%plift_Returns & H).
  apply pbind_Returns in H as (d1 & s1 & (l1 & Hl1 & ->)%set_coordinate_at_Returns & H).
  apply pbind_Returns in H as (d2 & s2 & (u1 & Hu1 & ->)%set_unit_at_Returns & H).
  cbn [axes_coordinates axes_units] in *.
  apply pbind_Returns in H as (su & s1 & [Hsu ->]%get_unit_Returns & H).
  apply pbind_Returns in H as (sc & s1 & [Hsc ->]%get_coordinate_Returns & H).
  apply pbind_Returns in H as ([[scoords sunit] slabel] & s1 & [Hcommon ->]%plift_Returns & H).
  apply pbind_Returns in H as (d3 & s1 & (l2 & Hl2 & ->)%set_coordinate_at_Returns & H).
  apply pbind_Returns in H as (d4 & s2 & (u2 & Hu2 & ->)%set_unit_at_Returns & H).
  cbn [axes_coordinates axes_units] in *.
  apply pbind_Returns in H as (labels1 & s1 & [Hlab1 ->]%plift_Returns & H).
  apply pbind_Returns in H as (labels2 & s1 & [Hlab2 ->]%plift_Returns & H).
  apply pbind_Returns in H as (x & s1 & [Hx ->]%get_coordinate_Returns & H).
  apply pbind_Returns in H as (xe & s1 & [Hxe ->]%plift_Returns & H).
  apply pbind_Returns in H as (y & s1 & [Hy ->]%get_coordinate_Returns & H).
  apply pbind_Returns in H as (ye & s1 & [Hye ->]%plift_Returns & H).
  apply pbind_Returns in H as (xl & s1 & [Hxl ->]%plift_Returns & H).
  apply pbind_Returns in H as (yl & s1 & [Hyl ->]%plift_Returns & H).
  injection H as <- <-.
  exists img, p0, p1, ci, cu, cc, ccoords, cunit, cname, l1, u1, su, sc, scoords, sunit, slabel.
  exists l2, u2, labels1, labels2, x, xe, y, ye, xl, yl.
  destruct (image_data_of _ _) as [img'|e]; [|done]. injection Hdata as ->.
  cbn [axes_coordinates axes_units] in *. by repeat split.
Qed.

(** The cube axis is the one of the two that the common axis is not. *)
Lemma cube_axis_index_of_Returns common ci :
  cube_axis_index_of common = Returns ci →
  ((common = 0 ∨ common = -2)%Z ∧ ci = 1%Z) ∨ ((common = 1 ∨ common = -1)%Z ∧ ci = 0%Z).
Proof.
  unfold cube_axis_index_of, pop_at, position. cbv zeta. cbn [length].
  destruct (decide (common < 0)%Z); case_decide; try done.
  - assert (common = -2 ∨ common = -1)%Z as [-> | ->] by lia; cbn; intros [= <-];
      [left|right]; split; (done || lia).
  - assert (common = 0 ∨ common = 1)%Z as [-> | ->] by lia; cbn; intros [= <-];
      [left|right]; split; (done || lia).
Qed.

(** One step of a computation on the two lists. *)
Lemma pbind_plift {A B} (o : outcome A) (k : A → P B) s a :
  o = Returns a → pbind (plift o) k s = k a s.
Proof. by intros ->. Qed.

Lemma pbind_plift_Raises {A B} (o : outcome A) (k : A → P B) s r :
  o = Raises r → pbind (plift o) k s = (Raises r, s).
Proof. by intros ->. Qed.

Lemma pbind_get_unit {B} i (k : option Unit → P B) l us u :
  getitem us i = Returns u → pbind (get_unit i) k (mkAxes l us) = k u (mkAxes l us).
Proof. unfold pbind, get_unit. cbn [axes_units]. by intros ->. Qed.

Lemma pbind_get_coordinate {B} i (k : x_axis_argument → P B) l us c :
  getitem l i = Returns c → pbind (get_coordinate i) k (mkAxes l us) = k c (mkAxes l us).
Proof. unfold pbind, get_coordinate. cbn [axes_coordinates]. by intros ->. Qed.

Lemma pbind_set_coordinate_at {B} i v (k : Datatypes.unit → P B) l us l' :
  setitem_at l i v = Returns l' →
  pbind (set_coordinate_at i v) k (mkAxes l us) = k tt (mkAxes l' us).
Proof. unfold pbind, set_coordinate_at. cbn [axes_coordinates axes_units]. by intros ->. Qed.

Lemma pbind_set_unit_at {B} i v (k : Datatypes.unit → P B) l us us' :
  setitem_at us i v = Returns us' →
  pbind (set_unit_at i v) k (mkAxes l us) = k tt (mkAxes l us').
Proof. unfold pbind, set_unit_at. cbn [axes_coordinates axes_units]. by intros ->. Qed.

Lemma setitem_at_0 {A} (a b v : A) : setitem_at [a; b] 0 v = Returns [v; b].
Proof. reflexivity. Qed.

Lemma setitem_at_1 {A} (a b v : A) : setitem_at [a; b] 1 v = Returns [a; v].
Proof. reflexivity. Qed.

Lemma setitem_at_last_of_two {A} (a b v : A) : setitem_at [a; b] (-1) v = Returns [a; v].
Proof. reflexivity. Qed.

Lemma setitem_at_first_of_two {A} (a b v : A) : setitem_at [a; b] (-2) v = Returns [v; b].
Proof. reflexivity. Qed.

(** Reading or writing an entry of a list of two at a given index. *)
Ltac of_two :=
  first [ apply getitem_0 | apply getitem_1 | apply getitem_last_of_two
        | apply getitem_first_of_two | apply setitem_at_0 | apply setitem_at_1
        | apply setitem_at_last_of_two | apply setitem_at_first_of_two ].

(** Two indices that stand for the same position read the same entry. *)
Lemma getitem_position {A} (l : list A) p q :
  position (length l) p = position (length l) q → getitem l p = getitem l q.
Proof. unfold getitem, item. by intros ->. Qed.

Lemma getitem_last {A} (a : A) l : ∃ b, getitem (a :: l) (-1) = Returns b.
Proof.
  unfold getitem, item, position. cbv zeta. cbn [length].
  destruct (decide (-1 < 0)%Z) as [_|]; [|lia].
  destruct (decide _) as [Hr|Hr]; [|lia].
  destruct (_ !! _) as [b|] eqn:Hb; [by exists b|].
  apply lookup_ge_None in Hb. cbn [length] in Hb. lia.
Qed.

(** The ends of an array that is not empty can be read. *)
Lemma ends_of_array values :
  values ≠ [] → ∃ ends, ends_of (XData (Array values)) = Returns ends.
Proof.
  destruct values as [|a l]; [done|]. intros _. unfold ends_of.
  rewrite getitem_0. destruct (getitem_last a l) as [b ->]. by eexists.
Qed.

(** A named extra coordinate for the common axis that can be read, and
    converted where a unit is asked for, ends in the unbound
    [common_axis_name]. *)
Lemma common_axis_named_unbound to_string cubesequence name common_axis_unit coords :
  getitem_extra_coord (common_axis_extra_coords (cubes cubesequence)) name = Returns coords →
  (∀ values unit t, coords = QuantityArray values unit → common_axis_unit = Some t →
     ∃ converted, mapR (convert unit t) values = Ok converted) →
  common_axis to_string cubesequence (XStr name) common_axis_unit
  = Raises (UnboundLocalError "common_axis_name").
Proof.
  intros Hc Hconv. unfold common_axis, common_axis_choice. rewrite Hc. simpl.
  destruct coords as [values|values unit]; [done|].
  destruct common_axis_unit as [t|]; [|done].
  destruct (Hconv values unit t eq_refl eq_refl) as [converted ->]. done.
Qed.

(** The two entries of [plot_axes] that are read. *)
Lemma shown_axes (plot_axes : list Z) k p0 p1 :
  k ∈ take 2 plot_axes →
  getitem plot_axes 0 = Returns p0 → getitem plot_axes 1 = Returns p1 →
  k = p0 ∨ k = p1.
Proof.
  intros Hk Hp0 Hp1. destruct plot_axes as [|a [|b l]].
  - by apply elem_of_nil in Hk.
  - done.
  - rewrite getitem_0 in Hp0. rewrite getitem_1 in Hp1.
    injection Hp0 as <-. injection Hp1 as <-. simpl in Hk.
    apply elem_of_cons in Hk as [->|Hk]; [by left|].
    apply elem_of_cons in Hk as [->|Hk]; [by right|]. by apply elem_of_nil in Hk.
Qed.

End common_axis_plot_facts.

Module common_axis_plot_properties.
Import sequence_plotting line_plots line_plot_facts image_plots image_plot_facts.
Import common_axis_plots common_axis_vocabulary common_axis_plot_facts.

(** X21: when the coordinates of the common axis are given as the name
    of an extra coordinate, the image plot along a common axis never
    returns: that branch binds [sequence_axis_name], not
    [common_axis_name].  The call ends in the [UnboundLocalError] on
    [common_axis_name], raised where the label of the common axis is
    made, whenever the steps before that line succeed: [axes_units] is
    [None] or a list of two entries, the image data can be joined, two
    entries of [plot_axes] can be read, the cube axis is derived, the
    named coordinate is found among the extra coordinates of the common
    axis and, where it is a Quantity and a unit is asked for, can be
    converted to that unit. *)
Theorem named_common_axis_coordinate_never_plots to_string cubesequence plot_axes c0 c1
    name axes_units data_unit kwargs :
  getitem [c0; c1] (_common_axis cubesequence) = Returns (XStr name) →
  (∀ plot lists,
     _plot_3D_sequence_as_2Dimage to_string cubesequence plot_axes (Some [c0; c1]) axes_units
       data_unit kwargs ≠ (Returns plot, lists))
  ∧ (∀ img p0 p1 ci cu cc cube_axis_result su coords,
       length (default [None; None] axes_units) = 2 →
       image_data_of cubesequence data_unit = Ok img →
       getitem (default [-1; -2]%Z plot_axes) 0 = Returns p0 →
       getitem (default [-1; -2]%Z plot_axes) 1 = Returns p1 →
       cube_axis_index_of (_common_axis cubesequence) = Returns ci →
       getitem (default [None; None] axes_units) ci = Returns cu →
       getitem [c0; c1] ci = Returns cc →
       cube_axis cubesequence ci cc cu = Returns cube_axis_result →
       getitem (default [None; None] axes_units) (_common_axis cubesequence) = Returns su →
       getitem_extra_coord (common_axis_extra_coords (cubes cubesequence)) name
       = Returns coords →
       (∀ values unit t, coords = QuantityArray values unit → su = Some t →
          ∃ converted, mapR (convert unit t) values = Ok converted) →
       (_plot_3D_sequence_as_2Dimage to_string cubesequence plot_axes (Some [c0; c1])
          axes_units data_unit kwargs).1
       = Raises (UnboundLocalError "common_axis_name")).
Proof.
  intros Hname. split.
  - intros plot lists H. unfold _plot_3D_sequence_as_2Dimage in H.
    apply plot_3D_sequence_as_2Dimage_on_returns in H
      as (img & p0 & p1 & ci & cu & cc & ccoords & cunit & cname & l1 & u1 & su & sc & scoords
          & sunit & slabel & l2 & u2 & labels1 & labels2 & x & xe & y & ye & xl & yl
          & _ & _ & _ & Hci & _ & _ & _ & Hl1 & _ & _ & Hsc & Hcommon & _).
    cbn [default from_option id axes_coordinates] in *.
    assert (sc = XStr name) as ->; [|by apply common_axis_named in Hcommon].
    apply cube_axis_index_of_Returns in Hci as [[[Hk|Hk] ->]|[[Hk|Hk] ->]];
      rewrite Hk in *; cbn in Hl1; injection Hl1 as <-;
      rewrite ?getitem_0, ?getitem_1, ?getitem_last_of_two, ?getitem_first_of_two in Hsc;
      rewrite ?getitem_0, ?getitem_1, ?getitem_last_of_two, ?getitem_first_of_two in Hname;
      congruence.
  - intros img p0 p1 ci cu cc [[ccoords cunit] cname] su coords Hlen Himg Hp0 Hp1 Hci Hcu Hcc
      Hcube Hsu Hcoords Hconv.
    pose proof (common_axis_named_unbound to_string _ _ _ _ Hcoords Hconv) as Hcommon.
    unfold _plot_3D_sequence_as_2Dimage, plot_3D_sequence_as_2Dimage_on. cbv zeta.
    destruct (default [None; None] axes_units) as [|u0 [|u1 [|? ?]]]; try done.
    cbn [default from_option id].
    rewrite Himg. cbn [of_result].
    rewrite (pbind_plift _ _ _ img eq_refl).
    rewrite (pbind_plift _ _ _ p0 Hp0), (pbind_plift _ _ _ p1 Hp1).
    rewrite (pbind_plift _ _ _ ci Hci).
    rewrite (pbind_get_unit _ _ _ _ cu Hcu), (pbind_get_coordinate _ _ _ _ cc Hcc).
    rewrite (pbind_plift _ _ _ _ Hcube). cbv beta iota.
    apply cube_axis_index_of_Returns in Hci as [[[Hk|Hk] ->]|[[Hk|Hk] ->]];
      rewrite Hk in *;
      vm_compute in Hname; injection Hname as ->; vm_compute in Hsu; injection Hsu as ->;
      (erewrite pbind_set_coordinate_at by of_two);
      (erewrite pbind_set_unit_at by of_two);
      (erewrite pbind_get_unit by of_two);
      (erewrite pbind_get_coordinate by of_two);
      (erewrite pbind_plift_Raises by exact Hcommon); reflexivity.
Qed.

Lemma named_common_axis_coordinate_never_plots_witness :
  getitem [XStr "exposure"; XData (QuantityArray [500; 501]%Q nanometres)]
    (_common_axis two_cubes)
  = Returns (XStr "exposure")
  ∧ (_plot_3D_sequence_as_2Dimage physical_type two_cubes None
       (Some [XStr "exposure"; XData (QuantityArray [500; 501]%Q nanometres)])
       None None ∅).1
    = Raises (UnboundLocalError "common_axis_name").
Proof.
  split; [reflexivity|].
  eapply (proj2 (named_common_axis_coordinate_never_plots physical_type two_cubes None
                   (XStr "exposure") (XData (QuantityArray [500; 501]%Q nanometres))
                   "exposure" None None ∅ eq_refl)); try reflexivity.
  intros values unit t Hcoords. vm_compute in Hcoords. discriminate Hcoords.
Defined.

(** X22: when the coordinates of the cube axis are given as an array
    without unit and [plot_axes] shows that axis, the image plot along a
    common axis never returns.  The coordinates are replaced by [None] in
    the list that was passed, and the call ends in the [TypeError] of
    indexing [None], raised where the extent of the image is read off,
    whenever the steps before that succeed: [axes_units] is [None] or a
    list of two entries, the image data can be joined, two entries of
    [plot_axes] can be read, the sequence names its second axis, the
    common axis is derived, and the first entry of [plot_axes] stands
    for the cube axis or else for the common axis with coordinates that
    are not empty. *)
Theorem bare_cube_axis_coordinates_never_plot_along_common_axis to_string cubesequence
    plot_axes c0 c1 ci values axes_units data_unit kwargs :
  cube_axis_index_of (_common_axis cubesequence) = Returns ci →
  getitem [c0; c1] ci = Returns (XData (Array values)) →
  (∃ k, k ∈ take 2 (default [-1; -2]%Z plot_axes) ∧ position 2 k = position 2 ci) →
  (∀ plot lists,
     _plot_3D_sequence_as_2Dimage to_string cubesequence plot_axes (Some [c0; c1]) axes_units
       data_unit kwargs ≠ (Returns plot, lists))
  ∧ (∀ img p0 p1 cname su sc scoords sunit slabel,
       length (default [None; None] axes_units) = 2 →
       image_data_of cubesequence data_unit = Ok img →
       getitem (default [-1; -2]%Z plot_axes) 0 = Returns p0 →
       getitem (default [-1; -2]%Z plot_axes) 1 = Returns p1 →
       getitem (world_axis_physical_types (cubes cubesequence)) 1 = Returns cname →
       getitem (default [None; None] axes_units) (_common_axis cubesequence) = Returns su →
       getitem [c0; c1] (_common_axis cubesequence) = Returns sc →
       common_axis to_string cubesequence sc su = Returns (scoords, sunit, slabel) →
       position 2 p0 = position 2 ci
       ∨ (position 2 p0 = position 2 (_common_axis cubesequence) ∧ scoords ≠ []) →
       (_plot_3D_sequence_as_2Dimage to_string cubesequence plot_axes (Some [c0; c1])
          axes_units data_unit kwargs).1
       = Raises (Exn (TypeError "'NoneType' object is not subscriptable"))
       ∧ getitem
           (axes_coordinates
              (_plot_3D_sequence_as_2Dimage to_string cubesequence plot_axes (Some [c0; c1])
                 axes_units data_unit kwargs).2) ci
         = Returns XNone).
Proof.
  intros Hci Hbare (k & Hk & Hpos). split.
  - intros plot lists H. unfold _plot_3D_sequence_as_2Dimage in H.
    apply plot_3D_sequence_as_2Dimage_on_returns in H
      as (img & p0 & p1 & ci' & cu & cc & ccoords & cunit & cname & l1 & u1 & su & sc & scoords
          & sunit & slabel & l2 & u2 & labels1 & labels2 & x & xe & y & ye & xl & yl
          & _ & Hp0 & Hp1 & Hci' & _ & Hcc & Hc & Hl1 & _ & _ & _ & _ & Hl2 & _ & _ & _ & _
          & Hx & Hxe & Hy & Hye & _).
    cbn [default from_option id axes_coordinates] in *.
    rewrite Hci in Hci'. injection Hci' as <-.
    rewrite Hbare in Hcc. injection Hcc as <-.
    assert (ccoords = None) as ->.
    { unfold cube_axis in Hc.
      destruct (getitem (world_axis_physical_types _) 1); [|done]. cbn in Hc. congruence. }
    assert (∀ p entry, position 2 p = position 2 ci → getitem l2 p = Returns entry →
              entry = XNone) as Hnone.
    { intros p entry Hp.
      apply cube_axis_index_of_Returns in Hci as [[[Hca|Hca] ->]|[[Hca|Hca] ->]];
        rewrite Hca in *; cbn in Hl1; injection Hl1 as <-; cbn in Hl2; injection Hl2 as <-;
        unfold getitem, item; cbn [length]; rewrite Hp; cbn; by intros [= <-]. }
    destruct (shown_axes _ _ _ _ Hk Hp0 Hp1) as [-> | ->].
    + rewrite (Hnone _ _ Hpos Hx) in Hxe. done.
    + rewrite (Hnone _ _ Hpos Hy) in Hye. done.
  - intros img p0 p1 cname su sc scoords sunit slabel Hlen Himg Hp0 Hp1 Hcname Hsu Hsc
      Hcommon Hshown.
    pose proof (shown_axes _ _ _ _ Hk Hp0 Hp1) as Hk'.
    match goal with
    | |- ?call.1 = ?r ∧ _ =>
        assert (∃ l us, call = (r, mkAxes l us) ∧ getitem l ci = Returns XNone)
          as (l & us & -> & Hl); [|done]
    end.
    unfold _plot_3D_sequence_as_2Dimage, plot_3D_sequence_as_2Dimage_on. cbv zeta.
    destruct (default [None; None] axes_units) as [|u0 [|u1 [|? ?]]]; try done.
    cbn [default from_option id].
    rewrite Himg. cbn [of_result].
    rewrite (pbind_plift _ _ _ img eq_refl).
    rewrite (pbind_plift _ _ _ p0 Hp0), (pbind_plift _ _ _ p1 Hp1).
    rewrite (pbind_plift _ _ _ ci Hci).
    apply cube_axis_index_of_Returns in Hci as [[[Hc|Hc] ->]|[[Hc|Hc] ->]];
      rewrite Hc in *;
      vm_compute in Hbare; injection Hbare as ->;
      vm_compute in Hsc; injection Hsc as ->;
      vm_compute in Hsu; injection Hsu as ->;
      (erewrite pbind_get_unit by of_two);
      (erewrite pbind_get_coordinate by of_two);
      (erewrite pbind_plift by (unfold cube_axis; rewrite Hcname; reflexivity));
      cbv beta iota; cbn [entry_of];
      (erewrite pbind_set_coordinate_at by of_two);
      (erewrite pbind_set_unit_at by of_two);
      (erewrite pbind_get_unit by of_two);
      (erewrite pbind_get_coordinate by of_two);
      (erewrite pbind_plift by exact Hcommon);
      cbv beta iota;
      (erewrite pbind_set_coordinate_at by of_two);
      (erewrite pbind_set_unit_at by of_two);
      (erewrite pbind_plift by of_two);
      (erewrite pbind_plift by of_two).
    all: destruct Hshown as [Hx|[Hx Hne]].
    all: try (eexists _, _; split; [|of_two];
              (erewrite pbind_get_coordinate by (erewrite getitem_position by exact Hx; of_two));
              (erewrite pbind_plift_Raises by reflexivity); reflexivity).
    all: destruct Hk' as [-> | ->];
      [rewrite Hx in Hpos; vm_compute in Hpos; discriminate Hpos|].
    all: destruct (ends_of_array _ Hne) as [xe Hxe].
    all: eexists _, _; split; [|of_two];
      (erewrite pbind_get_coordinate by (erewrite getitem_position by exact Hx; of_two));
      (erewrite pbind_plift by exact Hxe);
      (erewrite pbind_get_coordinate by (erewrite getitem_position by exact Hpos; of_two));
      (erewrite pbind_plift_Raises by reflexivity); reflexivity.
Qed.

Lemma bare_cube_axis_coordinates_never_plot_along_common_axis_witness :
  cube_axis_index_of (_common_axis two_cubes) = Returns 1%Z
  ∧ getitem [XNone; XData (Array [500; 501]%Q)] 1 = Returns (XData (Array [500; 501]%Q))
  ∧ (∃ k, k ∈ take 2 [-1; -2]%Z ∧ position 2 k = position 2 1)
  ∧ (_plot_3D_sequence_as_2Dimage physical_type two_cubes None
       (Some [XNone; XData (Array [500; 501]%Q)]) None None ∅).1
    = Raises (Exn (TypeError "'NoneType' object is not subscriptable"))
  ∧ getitem
      (axes_coordinates
         (_plot_3D_sequence_as_2Dimage physical_type two_cubes None
            (Some [XNone; XData (Array [500; 501]%Q)]) None None ∅).2) 1
    = Returns XNone.
Proof.
  assert (∃ k, k ∈ take 2 [-1; -2]%Z ∧ position 2 k = position 2 1) as Hshown.
  { exists (-1)%Z. split; [by left|reflexivity]. }
  split; [reflexivity|]. split; [reflexivity|]. split; [exact Hshown|].
  eapply (proj2 (bare_cube_axis_coordinates_never_plot_along_common_axis physical_type
                   two_cubes None XNone (XData (Array [500; 501]%Q)) 1%Z [500; 501]%Q
                   None None ∅ eq_refl eq_refl Hshown)); try reflexivity.
  by left.
Defined.

(** The same coordinates with the axes shown the other way round: the
    ends of the common axis are read first, then those of the cube
    axis, which is [None]. *)
Example bare_cube_axis_coordinates_on_the_y_axis :
  (_plot_3D_sequence_as_2Dimage physical_type two_cubes (Some [0; 1]%Z)
     (Some [XNone; XData (Array [500; 501]%Q)]) None None ∅).1
  = Raises (Exn (TypeError "'NoneType' object is not subscriptable")).
Proof. by vm_compute. Qed.

End common_axis_plot_properties.
